(** * Feature extraction and 3MF package assembly: a shallow embedding

    The development follows the Python sources file by file:
    - [Py]                 the Python values and string methods that are used
    - [FeatureExtractor]   src/feature_extractor.py  (overhang analysis)
    - [Placement]          src/profile_generator.py  (build-plate placement)
    - [GeminiAgent]        src/gemini_agent.py       (reply parsing, fallback)
    - [Settings]           src/profile_generator.py  (settings documents)
    - [Packaging]          src/profile_generator.py  (files and archives)
    - [Orientation]        src/feature_extractor.py  (orientation hint)
    The modules come first, together with the predicates in which the
    properties are stated; the properties come after them.

    Floating-point numbers are idealised: the overhang analysis, which needs
    [arccos], is carried out over the real numbers; the build-plate
    arithmetic, which only uses [+ - * /] and comparisons, is carried out
    over the rationals so that it can be evaluated.  The text rendering of
    numbers and the contents of the written files are not modelled: of a
    file only its path is kept, of an archive the names of its entries. *)

From Stdlib Require Import Reals Psatz QArith Qminmax Qround List Ascii.
From stdpp Require Import gmap strings list fin_maps pretty.

#[local] Set Warnings "-register-all".

(** ** Python values, exceptions and string methods used by the sources *)

Module Py.

(** JSON-shaped Python values.  A float is carried by its [repr] text, which
    determines it; no arithmetic is done on these values. *)
Inductive value :=
| VNone
| VBool (b : bool)
| VInt (n : Z)
| VFloat (repr : string)
| VStr (s : string)
| VList (l : list value)
| VDict (d : gmap string value).

(** The exceptions that the modelled code can raise.  [JSONDecodeError],
    [RecursionError] and [ValueError] are those of [json.loads]: malformed
    text, nesting beyond the recursion limit, an integer literal beyond the
    digit limit. *)
Inductive exn :=
| TypeError
| AttributeError
| OSError
| RuntimeError
| LoadError
| JSONDecodeError
| RecursionError
| ValueError.

(** Truth value of an object, as tested by [if] and [x if c else y]. *)
Definition truthy (v : value) : bool :=
  match v with
  | VNone => false
  | VBool b => b
  | VInt n => negb (n =? 0)%Z
  | VFloat r => negb (String.eqb r "0.0" || String.eqb r "-0.0")
  | VStr s => negb (String.eqb s "")
  | VList l => match l with [] => false | _ => true end
  | VDict d => negb (bool_decide (d = ∅))
  end.

(** The text that [str()] gives for a list or a dictionary is left to a
    parameter; everything else is spelled out in [py_str]. *)
Class ContainerRepr := container_repr : value -> string.

(** [str(v)], also what an f-string inserts for [{v}]. *)
Definition py_str `{ContainerRepr} (v : value) : string :=
  match v with
  | VNone => "None"
  | VBool true => "True"
  | VBool false => "False"
  | VInt n => pretty n
  | VFloat r => r
  | VStr s => s
  | VList _ | VDict _ => container_repr v
  end.

(** [d.get(k, dflt)]. *)
Definition get (d : gmap string value) (k : string) (dflt : value) : value :=
  default dflt (d !! k).

(** [v == s] for a string literal [s]. *)
Definition eq_str (v : option value) (s : string) : bool :=
  match v with
  | Some (VStr s') => String.eqb s' s
  | _ => false
  end.

(** Characters are code points below 256. *)
Definition is_space (c : ascii) : bool :=
  let n := nat_of_ascii c in
  ((9 <=? n) && (n <=? 13)) || ((28 <=? n) && (n <=? 32))
  || (n =? 133) || (n =? 160).

Definition lower_char (c : ascii) : ascii :=
  let n := nat_of_ascii c in
  if ((65 <=? n) && (n <=? 90))
     || ((192 <=? n) && (n <=? 222) && negb (n =? 215))
  then ascii_of_nat (n + 32) else c.

(** [s.lower()]. *)
Fixpoint lower (s : string) : string :=
  match s with
  | EmptyString => EmptyString
  | String c s' => String (lower_char c) (lower s')
  end.

Fixpoint lstrip (s : string) : string :=
  match s with
  | EmptyString => EmptyString
  | String c s' => if is_space c then lstrip s' else s
  end.

Fixpoint rstrip (s : string) : string :=
  match s with
  | EmptyString => EmptyString
  | String c s' =>
    match rstrip s' with
    | EmptyString => if is_space c then EmptyString else String c EmptyString
    | r => String c r
    end
  end.

(** [s.strip()]. *)
Definition strip (s : string) : string := rstrip (lstrip s).

Fixpoint find_from (sub s : string) (pos : nat) : option nat :=
  if String.prefix sub s then Some pos
  else match s with
       | EmptyString => None
       | String _ s' => find_from sub s' (S pos)
       end.

(** [s.find(sub)]: the first position of [sub], [None] for Python's -1. *)
Definition find (sub s : string) : option nat := find_from sub s 0.

Fixpoint rfind_from (sub s : string) (pos : nat) : option nat :=
  match s with
  | EmptyString => if String.prefix sub EmptyString then Some pos else None
  | String _ s' =>
    match rfind_from sub s' (S pos) with
    | Some j => Some j
    | None => if String.prefix sub s then Some pos else None
    end
  end.

(** [s.rfind(sub)]: the last position of [sub]. *)
Definition rfind (sub s : string) : option nat := rfind_from sub s 0.

(** [sub in s]. *)
Definition contains (sub s : string) : bool :=
  match find sub s with Some _ => true | None => false end.

(** [s[i:j]] for non-negative [i] and [j]. *)
Definition slice (s : string) (i j : nat) : string :=
  String.substring i (j - i) s.

End Py.

(** ** src/feature_extractor.py *)

Module FeatureExtractor.

Local Open Scope R_scope.

Definition vec3 : Type := (R * R * R)%type.

(** A face as [trimesh] exposes it: the three vertex indices ([mesh.faces])
    together with its unit normal ([mesh.face_normals]); keeping both in one
    entry makes the two arrays have the same length, as in the library. *)
Record face := { indices : nat * nat * nat; normal : vec3 }.

Record Trimesh := { vertices : list vec3; faces : list face }.

Definition face_normals (mesh : Trimesh) : list vec3 := map normal (faces mesh).

(** [np.dot(face_normals, z_axis)], row by row. *)
Definition dot (a b : vec3) : R :=
  let '(ax, ay, az) := a in
  let '(bx, by_, bz) := b in
  ax * bx + ay * by_ + az * bz.

(** [np.clip(x, lo, hi)] is [minimum(maximum(x, lo), hi)]. *)
Definition clip (x lo hi : R) : R := Rmin (Rmax x lo) hi.

(** [np.degrees]. *)
Definition degrees (x : R) : R := x * (180 / PI).

(** The comparison [a > b] as a truth value. *)
Definition gtb (a b : R) : bool := if Rgt_dec a b then true else false.

(** [z_axis = np.array([0, 0, -1])]. *)
Definition z_axis : vec3 := (0, 0, -1).

Definition angles_deg (mesh : Trimesh) : list R :=
  map (fun n => degrees (acos (clip (dot n z_axis) (-1) 1))) (face_normals mesh).

(** [np.sum(angles_deg > t)]: the number of [True] entries of the mask. *)
Definition count_above (t : R) (angles : list R) : nat :=
  length (List.filter (fun a => gtb a t) angles).

(** [(k / total_faces * 100) if total_faces > 0 else 0]. *)
Definition percentage (k total : nat) : R :=
  match total with
  | O => 0
  | S _ => INR k / INR total * 100
  end.

(** [np.max] raises [ValueError] on an empty array. *)
Definition np_max (l : list R) : option R :=
  match l with
  | [] => None
  | x :: xs => Some (fold_left Rmax xs x)
  end.

(** The dictionary returned by [_detect_overhangs]. *)
Record overhangs := {
  has_overhangs : bool;
  overhang_percentage : R;
  severe_overhang_percentage : R;
  extreme_overhang_percentage : R;
  overhang_face_count : nat;
  needs_supports : bool;
  recommend_tree_support : bool;
  max_overhang_angle : R;
  support_complexity : string
}.

(** [FeatureExtractor._detect_overhangs], with [self.overhang_threshold]
    passed explicitly.  [None] stands for the exception raised by [np.max]
    when the mesh has no face. *)
Definition _detect_overhangs (overhang_threshold : R) (mesh : Trimesh)
  : option overhangs :=
  let angles := angles_deg mesh in
  let overhang_faces := count_above overhang_threshold angles in
  let severe_overhang_faces := count_above 60 angles in
  let extreme_overhang_faces := count_above 75 angles in
  let total_faces := length (faces mesh) in
  let overhang_pct := percentage overhang_faces total_faces in
  let severe_pct := percentage severe_overhang_faces total_faces in
  let extreme_pct := percentage extreme_overhang_faces total_faces in
  let needs_tree_support :=
    gtb severe_pct 5
    || (gtb overhang_pct 15 && gtb extreme_pct 2)
    || gtb overhang_pct 20 in
  match np_max angles with
  | None => None
  | Some max_angle =>
    Some {| has_overhangs := gtb overhang_pct 5;
            overhang_percentage := overhang_pct;
            severe_overhang_percentage := severe_pct;
            extreme_overhang_percentage := extreme_pct;
            overhang_face_count := overhang_faces;
            needs_supports := gtb overhang_pct 10;
            recommend_tree_support := needs_tree_support;
            max_overhang_angle := max_angle;
            support_complexity :=
              if needs_tree_support then "high"
              else if gtb overhang_pct 10 then "medium" else "low" |}
  end.

(** [FeatureExtractor.__init__]: the default threshold. *)
Definition default_overhang_threshold : R := 45.

(** A single triangle whose outward normal points straight down. *)
Definition down_triangle : Trimesh :=
  {| vertices := [(0, 0, 0); (0, 1, 0); (1, 0, 0)];
     faces := [ {| indices := (0, 1, 2)%nat; normal := (0, 0, -1) |} ] |}.

(** A flat unit square made of two triangles facing straight up. *)
Definition up_square : Trimesh :=
  {| vertices := [(0, 0, 0); (1, 0, 0); (1, 1, 0); (0, 1, 0)];
     faces := [ {| indices := (0, 1, 2)%nat; normal := (0, 0, 1) |};
                {| indices := (0, 2, 3)%nat; normal := (0, 0, 1) |} ] |}.

End FeatureExtractor.

(** ** src/profile_generator.py: placement on the build plate *)

Module Placement.

Local Open Scope Q_scope.

Definition vertex : Type := (Q * Q * Q)%type.

Definition vx (v : vertex) : Q := fst (fst v).
Definition vy (v : vertex) : Q := snd (fst v).
Definition vz (v : vertex) : Q := snd v.

(** The mesh as the placement code reads it: [mesh.vertices] (the vertices
    the faces refer to) and [mesh.faces]. *)
Record Trimesh := { vertices : list vertex; faces : list (nat * nat * nat) }.

Definition vmin (a b : vertex) : vertex :=
  (Qmin (vx a) (vx b), Qmin (vy a) (vy b), Qmin (vz a) (vz b)).

Definition vmax (a b : vertex) : vertex :=
  (Qmax (vx a) (vx b), Qmax (vy a) (vy b), Qmax (vz a) (vz b)).

(** Axis-aligned bounding box [(min corner, max corner)] of a vertex list;
    there is none for the empty list. *)
Definition bbox (vs : list vertex) : option (vertex * vertex) :=
  match vs with
  | [] => None
  | v :: rest => Some (fold_left vmin rest v, fold_left vmax rest v)
  end.

(** [mesh.bounds]: [None] for a mesh without vertices. *)
Definition bounds (mesh : Trimesh) : option (vertex * vertex) :=
  bbox (vertices mesh).

(** The comparison [a > b] as a truth value. *)
Definition Qgtb (a b : Q) : bool := negb (Qle_bool a b).

(** Python's [max(a, b)]: the first argument unless the second is greater. *)
Definition py_max (a b : Q) : Q := if Qgtb b a then b else a.

(** The numbers of the transform string
    ["s 0 0 0 s 0 0 0 s offset_x offset_y offset_z"]. *)
Record transform := {
  scale : Q;
  offset_x : Q;
  offset_y : Q;
  offset_z : Q
}.

(** What a consumer does with that matrix: scale, then translate. *)
Definition apply_transform (t : transform) (v : vertex) : vertex :=
  (scale t * vx v + offset_x t,
   scale t * vy v + offset_y t,
   scale t * vz v + offset_z t).

(** [safe_build_size / max_dimension] in floating point.  Dividing by zero
    does not raise for numpy floats: the quotient is an infinity (or NaN),
    which has no counterpart among the rationals, hence [None]. *)
Definition float_div (a b : Q) : option Q :=
  if Qeq_bool b 0 then None else Some (a / b).

(** The scale chosen by both placement routines. *)
Definition fit_scale (max_dimension safe_build_size : Q) : option Q :=
  if Qgtb max_dimension safe_build_size
  then float_div safe_build_size max_dimension
  else Some 1.

(** [f"{x:.6f}"] read back as a number: [x] rounded to six decimals, an
    exact tie going to the even digit.  Stripping the trailing zeros and the
    point ([.rstrip('0').rstrip('.')]) does not change the number. *)
Definition round6 (x : Q) : Q :=
  let y := x * 1000000 in
  let n := Qfloor y in
  let k := match y - inject_Z n ?= 1 # 2 with
           | Lt => n
           | Gt => (n + 1)%Z
           | Eq => if Z.even n then n else (n + 1)%Z
           end in
  inject_Z k / 1000000.

(** [scale_str], as the number that the text denotes. *)
Definition scale_str (scale : Q) : Q :=
  if Qeq_bool scale 1 then 1 else round6 scale.

(** The result of [_generate_3mf_model_xml], before it is rendered as text:
    the vertex and triangle entries of the mesh element; the numbers
    computed for the transform of the build item ([transform_matrix], [None]
    when the scale is not a finite number); and that transform as the
    returned string and the [transform] attribute of the build item carry
    it ([transform_attribute]): the scale written with six decimals, the
    offsets as computed. *)
Record model_3mf := {
  xml_vertices : list vertex;
  xml_triangles : list (nat * nat * nat);
  transform_matrix : option transform;
  transform_attribute : option transform
}.

(** [ProfileGenerator._generate_3mf_model_xml].  Subscripting [mesh.bounds]
    raises [TypeError] when the mesh has no vertices. *)
Definition _generate_3mf_model_xml (mesh : Trimesh) (build_plate_size : Q)
  : Py.exn + model_3mf :=
  match bounds mesh with
  | None => inl Py.TypeError
  | Some (lo, hi) =>
    let center_x := (vx lo + vx hi) / 2 in
    let center_y := (vy lo + vy hi) / 2 in
    let center_z := vz lo in
    let vertices_xml :=
      map (fun v => (vx v - center_x, vy v - center_y, vz v - center_z))
          (vertices mesh) in
    let width := vx hi - vx lo in
    let depth := vy hi - vy lo in
    let max_dimension := py_max width depth in
    let safe_build_size := build_plate_size - 10 in
    inr {| xml_vertices := vertices_xml;
           xml_triangles := faces mesh;
           transform_matrix :=
             match fit_scale max_dimension safe_build_size with
             | None => None
             | Some s =>
               Some {| scale := s;
                       offset_x := build_plate_size / 2;
                       offset_y := build_plate_size / 2;
                       offset_z := (vz hi - vz lo) / 2 * s |}
             end;
           transform_attribute :=
             match fit_scale max_dimension safe_build_size with
             | None => None
             | Some s =>
               Some {| scale := scale_str s;
                       offset_x := build_plate_size / 2;
                       offset_y := build_plate_size / 2;
                       offset_z := (vz hi - vz lo) / 2 * s |}
             end |}
  end.

(** [ProfileGenerator._calculate_build_plate_transform], the routine that
    places a mesh whose coordinates have not been re-centred. *)
Definition _calculate_build_plate_transform (mesh : Trimesh)
    (build_plate_size : Q) : Py.exn + option transform :=
  match bounds mesh with
  | None => inl Py.TypeError
  | Some (lo, hi) =>
    let width := vx hi - vx lo in
    let depth := vy hi - vy lo in
    let max_dimension := py_max width depth in
    let safe_build_size := build_plate_size - 10 in
    inr match fit_scale max_dimension safe_build_size with
        | None => None
        | Some scale_factor =>
          let scaled_width := width * scale_factor in
          let scaled_depth := depth * scale_factor in
          Some {| scale := scale_factor;
                  offset_x := build_plate_size / 2 - scaled_width / 2
                              - vx lo * scale_factor;
                  offset_y := build_plate_size / 2 - scaled_depth / 2
                              - vy lo * scale_factor;
                  offset_z := - (vz lo * scale_factor) |}
        end
  end.

(** The bounding box of the stored (re-centred) geometry after the consumer
    has applied the transform of the build item. *)
Definition placed_bbox (m : model_3mf) : option (vertex * vertex) :=
  match transform_matrix m with
  | None => None
  | Some t => bbox (map (apply_transform t) (xml_vertices m))
  end.

(** [q] is the least (greatest) value of the coordinate [f] over [vs]. *)
Definition is_min (f : vertex -> Q) (vs : list vertex) (q : Q) : Prop :=
  (forall v, In v vs -> q <= f v) /\ (exists v, In v vs /\ f v == q).

Definition is_max (f : vertex -> Q) (vs : list vertex) (q : Q) : Prop :=
  (forall v, In v vs -> f v <= q) /\ (exists v, In v vs /\ f v == q).

(** An axis-aligned box with one corner at [(x0, y0, z0)] and edge lengths
    [w], [d], [h]: eight vertices, twelve triangles. *)
Definition box (x0 y0 z0 w d h : Q) : Trimesh :=
  {| vertices :=
       [ (x0, y0, z0); (x0 + w, y0, z0); (x0 + w, y0 + d, z0); (x0, y0 + d, z0);
         (x0, y0, z0 + h); (x0 + w, y0, z0 + h); (x0 + w, y0 + d, z0 + h);
         (x0, y0 + d, z0 + h) ];
     faces :=
       [ (0, 2, 1); (0, 3, 2); (4, 5, 6); (4, 6, 7); (0, 1, 5); (0, 5, 4);
         (1, 2, 6); (1, 6, 5); (2, 3, 7); (2, 7, 6); (3, 0, 4); (3, 4, 7) ]%nat |}.

(** The 10 x 10 x 10 mm cube of the scenario. *)
Definition cube10 : Trimesh := box 0 0 0 10 10 10.

(** A 300 x 300 x 10 mm slab. *)
Definition slab300 : Trimesh := box 0 0 0 300 300 10.

End Placement.

(** ** src/gemini_agent.py: parsing the reply, and the fallback *)

Module GeminiAgent.

Import Py.

(** [s[start:e]] where [e] is the result of [rfind] (-1 when not found). *)
Definition slice_to (s : string) (start : nat) (e : option nat) : string :=
  match e with
  | Some j => slice s start j
  | None => slice s start (String.length s - 1)
  end.

(** The text that [_parse_analysis_response] hands to [json.loads]: the
    reply stripped, and cut out of its code fence when there is one. *)
Definition extract_json_text (response_text : string) : string :=
  let response_text := strip response_text in
  match find "```json" response_text with
  | Some i =>
    let start := i + 7 in
    let e := rfind "```" response_text in
    strip (slice_to response_text start e)
  | None =>
    match find "```" response_text with
    | Some i =>
      let start := i + 3 in
      let e := rfind "```" response_text in
      strip (slice_to response_text start e)
    | None => response_text
    end
  end.

(** [features.get(k, {})], on which [.get] is then called: the dictionary,
    or [None] when the entry is not a dictionary (the call then raises
    [AttributeError]). *)
Definition get_dict (features : gmap string value) (k : string)
  : option (gmap string value) :=
  match features !! k with
  | None => Some ∅
  | Some (VDict d) => Some d
  | Some _ => None
  end.

(** The ["profile"] entry of the fallback. *)
Definition fallback_profile (overhangs : gmap string value)
  : gmap string value :=
  list_to_map
    [ ("layer_height", VFloat "0.2");
      ("first_layer_height", VFloat "0.2");
      ("perimeters", VInt 3);
      ("top_solid_layers", VInt 5);
      ("bottom_solid_layers", VInt 5);
      ("infill_percentage", VInt 20);
      ("infill_pattern", VStr "cubic");
      ("support_material", get overhangs "needs_supports" (VBool false));
      ("support_type",
         if truthy (get overhangs "recommend_tree_support" (VBool false))
         then VStr "tree_auto" else VStr "normal");
      ("support_style",
         if truthy (get overhangs "recommend_tree_support" (VBool false))
         then VStr "tree" else VStr "default");
      ("tree_support_branch_angle", VInt 45);
      ("tree_support_branch_distance", VFloat "2.5");
      ("support_angle_threshold", VInt 45);
      ("brim_width", VInt 0);
      ("brim_type", VStr "no_brim");
      ("print_speed", VInt 60);
      ("first_layer_speed", VInt 20);
      ("perimeter_speed", VInt 45);
      ("infill_speed", VInt 80);
      ("travel_speed", VInt 150);
      ("retraction_length", VFloat "0.8");
      ("retraction_speed", VInt 35);
      ("temperature", VInt 210);
      ("bed_temperature", VInt 60);
      ("cooling_fan_speed", VInt 100);
      ("first_layer_fan_speed", VInt 0) ].

(** [GeminiAgent._generate_fallback_analysis]. *)
Definition _generate_fallback_analysis (features : gmap string value)
    (raw_response : string) : exn + value :=
  match get_dict features "complexity", get_dict features "overhangs" with
  | Some complexity, Some overhangs =>
    inr (VDict (list_to_map
      [ ("analysis", VDict (list_to_map
           [ ("model_type", VStr "unknown");
             ("complexity_assessment",
                get complexity "detail_level" (VStr "medium"));
             ("print_challenges", VList [VStr "automatic_analysis_failed"]);
             ("key_considerations", VList [VStr "using_fallback_profile"]);
             ("raw_ai_response", VStr (slice raw_response 0 500)) ]));
        ("profile", VDict (fallback_profile overhangs));
        ("reasoning", VStr "Fallback profile generated due to AI parsing error. Using safe default parameters.");
        ("material_suggestion", VStr "PLA");
        ("estimated_quality", VStr "standard");
        ("estimated_print_time_factor", VFloat "1.0");
        ("model_hash", get features "model_hash" (VStr ""));
        ("source", VStr "fallback") ]))
  | _, _ => inl AttributeError
  end.

(** [GeminiAgent._parse_analysis_response].  [json_loads] stands for
    [json.loads]: the value it returns or the exception it raises.  Only
    [JSONDecodeError] is caught; any other exception leaves the function. *)
Definition _parse_analysis_response (json_loads : string -> exn + value)
    (response_text : string) (features : gmap string value) : exn + value :=
  let response_text := extract_json_text response_text in
  match json_loads response_text with
  | inr (VDict analysis) =>
    inr (VDict (<["source" := VStr "gemini_ai"]>
                 (<["model_hash" := get features "model_hash" (VStr "")]>
                    analysis)))
  | inr _ => inl TypeError
  | inl JSONDecodeError => _generate_fallback_analysis features response_text
  | inl x => inl x
  end.

(** [GeminiAgent.analyze_features], given what the model call produced (its
    reply text, or an exception): every exception is re-raised as
    [RuntimeError]. *)
Definition analyze_features (json_loads : string -> exn + value)
    (generate_content : exn + string) (features : gmap string value)
  : exn + value :=
  match generate_content with
  | inl _ => inl RuntimeError
  | inr text =>
    match _parse_analysis_response json_loads text features with
    | inl _ => inl RuntimeError
    | inr analysis => inr analysis
    end
  end.

(** [json.loads] where it gives up on the nesting: what it does with a
    reply nested beyond the recursion limit, such as one of 200000 opening
    brackets.  The examples apply it to such replies only, written short. *)
Definition loads_beyond_recursion_limit : string -> exn + value :=
  fun _ => inl RecursionError.

(** A feature set whose overhang entry asks for supports, of the tree kind. *)
Definition features_needing_tree : gmap string value :=
  list_to_map
    [ ("model_hash", VStr "d41d8cd98f00b204e9800998ecf8427e");
      ("overhangs", VDict (list_to_map
         [ ("needs_supports", VBool true);
           ("recommend_tree_support", VBool true) ]));
      ("complexity", VDict (list_to_map [ ("detail_level", VStr "high") ])) ].

End GeminiAgent.

(** ** src/profile_generator.py: the settings documents *)

Module Settings.

Import Py.

Section WithContainerRepr.

Context `{ContainerRepr}.

(** [profile.get('support_style') == 'tree' or
     'tree' in str(profile.get('support_type', '')).lower()]. *)
Definition is_tree (profile : gmap string value) : bool :=
  eq_str (profile !! "support_style") "tree"
  || contains "tree" (lower (py_str (get profile "support_type" (VStr "")))).

(** [str(profile.get(k, dflt))] as a settings value. *)
Definition str_of (profile : gmap string value) (k : string) (dflt : value)
  : value :=
  VStr (py_str (get profile k dflt)).

(** The [ai_settings] literal of [_generate_elegoo_project_settings]. *)
Definition ai_settings_base (profile : gmap string value) (material : string)
  : gmap string value :=
  list_to_map
    [ ("layer_height", str_of profile "layer_height" (VFloat "0.2"));
      ("initial_layer_height", str_of profile "first_layer_height" (VFloat "0.2"));
      ("wall_loops", str_of profile "perimeters" (VInt 3));
      ("top_shell_layers", str_of profile "top_solid_layers" (VInt 5));
      ("bottom_shell_layers", str_of profile "bottom_solid_layers" (VInt 5));
      ("sparse_infill_density",
         VStr (py_str (get profile "infill_percentage" (VInt 20)) ++ "%"));
      ("sparse_infill_pattern", get profile "infill_pattern" (VStr "cubic"));
      ("enable_support",
         if truthy (get profile "support_material" (VBool false))
         then VStr "1" else VStr "0");
      ("support_type",
         if is_tree profile then VStr "tree(auto)" else VStr "normal(auto)");
      ("support_style", VStr "default");
      ("support_threshold_angle", str_of profile "support_angle_threshold" (VInt 45));
      ("brim_type", VStr "no_brim");
      ("default_speed", str_of profile "print_speed" (VInt 60));
      ("initial_layer_speed", str_of profile "first_layer_speed" (VInt 20));
      ("outer_wall_speed", str_of profile "perimeter_speed" (VInt 45));
      ("inner_wall_speed", str_of profile "perimeter_speed" (VInt 45));
      ("sparse_infill_speed", str_of profile "infill_speed" (VInt 80));
      ("travel_speed", str_of profile "travel_speed" (VInt 150));
      ("retraction_length", VList [str_of profile "retraction_length" (VFloat "0.8")]);
      ("retraction_speed", VList [str_of profile "retraction_speed" (VInt 35)]);
      ("nozzle_temperature", VList [str_of profile "temperature" (VInt 210)]);
      ("hot_plate_temp", VList [str_of profile "bed_temperature" (VInt 60)]);
      ("hot_plate_temp_initial_layer", VList [str_of profile "bed_temperature" (VInt 60)]);
      ("fan_max_speed", VList [str_of profile "cooling_fan_speed" (VInt 100)]);
      ("fan_min_speed", VList [str_of profile "first_layer_fan_speed" (VInt 0)]);
      ("filament_type", VList [VStr material]);
      ("filament_settings_id", VList [VStr (material ++ " @ECC")]);
      ("different_settings_to_system",
         VList [VStr ("brim_type;enable_support;support_type;layer_height;wall_loops;"
                      ++ "sparse_infill_density;nozzle_temperature;hot_plate_temp")]);
      ("resolution", VStr "0.01");
      ("detect_thin_wall", VStr "1") ].

(** The entries added when tree supports are selected and supports are
    enabled. *)
Definition ai_settings_tree (profile : gmap string value)
  : gmap string value :=
  list_to_map
    [ ("tree_support_branch_angle", str_of profile "tree_support_branch_angle" (VInt 45));
      ("tree_support_branch_angle_organic", str_of profile "tree_support_branch_angle" (VInt 45));
      ("tree_support_branch_distance", VStr "5");
      ("tree_support_branch_distance_organic", VStr "5");
      ("tree_support_branch_diameter", VStr "2");
      ("tree_support_branch_diameter_organic", VStr "2");
      ("tree_support_wall_count", str_of profile "tree_support_wall_count" (VInt 0));
      ("tree_support_adaptive_layer_height", VStr "1");
      ("tree_support_tip_diameter", VStr "2");
      ("tree_support_top_rate", VStr "30%") ].

(** [d.update(other)]: the entries of [other] win. *)
Definition update (d other : gmap string value) : gmap string value :=
  other ∪ d.

(** [ProfileGenerator._generate_elegoo_project_settings]; [defaults] is the
    dictionary returned by [_load_elegoo_defaults]. *)
Definition _generate_elegoo_project_settings (defaults : gmap string value)
    (profile analysis : gmap string value) (material : string)
  : gmap string value :=
  let settings := defaults in
  let ai_settings := ai_settings_base profile material in
  let ai_settings :=
    if is_tree profile && truthy (get profile "support_material" (VBool false))
    then update ai_settings (ai_settings_tree profile)
    else ai_settings in
  update settings ai_settings.

(** [ProfileGenerator._generate_3mf_config_json]; [generated_at] is
    [datetime.now().isoformat()]. *)
Definition _generate_3mf_config_json (generated_at : string)
    (profile analysis : gmap string value) (material slicer_type : string)
  : gmap string value :=
  let is_tree := is_tree profile in
  let print : gmap string value :=
    list_to_map
      [ ("layer_height", get profile "layer_height" (VFloat "0.2"));
        ("initial_layer_height", get profile "first_layer_height" (VFloat "0.2"));
        ("wall_loops", get profile "perimeters" (VInt 3));
        ("top_shell_layers", get profile "top_solid_layers" (VInt 5));
        ("bottom_shell_layers", get profile "bottom_solid_layers" (VInt 5));
        ("sparse_infill_density",
           VStr (py_str (get profile "infill_percentage" (VInt 20)) ++ "%"));
        ("sparse_infill_pattern", get profile "infill_pattern" (VStr "cubic"));
        ("enable_support",
           if truthy (get profile "support_material" (VBool false))
           then VInt 1 else VInt 0);
        ("support_threshold_angle", get profile "support_angle_threshold" (VInt 45));
        ("brim_width", get profile "brim_width" (VInt 0));
        ("brim_type", VStr "outer_only");
        ("default_speed", get profile "print_speed" (VInt 60));
        ("initial_layer_speed", get profile "first_layer_speed" (VInt 20));
        ("outer_wall_speed", get profile "perimeter_speed" (VInt 45));
        ("inner_wall_speed", get profile "perimeter_speed" (VInt 45));
        ("sparse_infill_speed", get profile "infill_speed" (VInt 80));
        ("travel_speed", get profile "travel_speed" (VInt 150));
        ("retraction_length", get profile "retraction_length" (VFloat "0.8"));
        ("retraction_speed", get profile "retraction_speed" (VInt 35)) ] in
  let filament : gmap string value :=
    list_to_map
      [ ("filament_type", VStr material);
        ("nozzle_temperature", get profile "temperature" (VInt 210));
        ("nozzle_temperature_initial_layer", get profile "temperature" (VInt 210));
        ("fan_max_speed", get profile "cooling_fan_speed" (VInt 100));
        ("fan_min_speed", get profile "first_layer_fan_speed" (VInt 0)) ] in
  let filament :=
    if String.eqb slicer_type "elegoo_orca"
    then <["hot_plate_temp_initial_layer" := get profile "bed_temperature" (VInt 60)]>
           (<["hot_plate_temp" := get profile "bed_temperature" (VInt 60)]> filament)
    else <["bed_temperature" := get profile "bed_temperature" (VInt 60)]> filament in
  let print :=
    if is_tree && truthy (get profile "support_material" (VBool false))
    then <["tree_support_wall_count" := get profile "tree_support_wall_count" (VInt 0)]>
           (<["tree_support_branch_distance" :=
                get profile "tree_support_branch_distance" (VFloat "2.5")]>
              (<["tree_support_branch_angle" :=
                   get profile "tree_support_branch_angle" (VInt 45)]>
                 (<["support_style" := VStr "tree"]>
                    (<["support_type" := VStr "tree"]> print))))
    else <["support_style" := VStr "default"]>
           (<["support_type" := VStr "normal"]> print) in
  list_to_map
    [ ("version", VStr "1.0.0");
      ("generated_by", VStr "AI Slicer Profile Generator");
      ("generated_at", VStr generated_at);
      ("material", VStr material);
      ("print", VDict print);
      ("filament", VDict filament) ].

End WithContainerRepr.

(** A rendering of containers for the examples, which only apply [str] to
    scalars. *)
Definition no_containers : ContainerRepr := fun _ => "".

End Settings.

(** ** src/profile_generator.py: writing the files *)

Module Packaging.

Import Py.

(** What the run leaves on disk: the working directories (path to the files
    inside, by their path relative to the directory), the archives (path to
    the names of the entries written so far) and the plain output files. *)
Record world := {
  temp_dirs : gmap string (list string);
  archives : gmap string (list string);
  documents : gset string
}.

(** The statement that raised; computations carry it along with the
    exception so that properties can speak about the failing stage. *)
Inductive stage :=
| WorkDir
| ModelLoad
| XmlGeneration
| PartWrite
| MetadataWrite
| ArchiveWrite
| JsonConfig
| JsonProfile
| Summary.

Definition failure : Type := (stage * exn)%type.

(** The surroundings of one run: the clock, the input files, and which file
    operations succeed in that run.  A run makes each directory and writes
    each path once, so the outcome of an operation is given per path; it
    says nothing about another run, in which earlier steps may have left
    the disk in another state. *)
Record env := {
  now : string;
  now_iso : string;
  path_exists : string -> bool;
  load : string -> option Placement.Trimesh;
  elegoo_defaults : gmap string value;
  pil_available : bool;
  can_mkdir : string -> bool;
  can_write : string -> bool;
  can_open_zip : string -> bool;
  can_add_entry : string -> string -> bool;
  can_rmtree : string -> bool
}.

(** Computations that read and change the [world] and may raise. *)
Definition M (A : Type) : Type := world -> world * (failure + A).

Definition ret {A} (a : A) : M A := fun w => (w, inr a).

Definition raise {A} (st : stage) (e : exn) : M A := fun w => (w, inl (st, e)).

Definition bind {A B} (m : M A) (k : A -> M B) : M B :=
  fun w =>
    match m w with
    | (w', inr a) => k a w'
    | (w', inl f) => (w', inl f)
    end.

Declare Scope py_scope.
Delimit Scope py_scope with py.

Notation "'let*' x ':=' m 'in' k" := (bind m (fun x => k))
  (at level 10, x name, m at level 100, k at level 200) : py_scope.

Notation "m '>>' k" := (bind m (fun _ => k))
  (at level 100, k at level 200, right associativity) : py_scope.

Local Open Scope py_scope.

(** [try: body finally: final]. *)
Definition try_finally {A} (body : M A) (final : M unit) : M A :=
  fun w =>
    let '(w1, r) := body w in
    match final w1 with
    | (w2, inr _) => (w2, r)
    | (w2, inl f) => (w2, inl f)
    end.

(** [try: body except Exception: handler]. *)
Definition try_except {A} (body : M A) (handler : failure -> M A) : M A :=
  fun w =>
    match body w with
    | (w1, inl f) => handler f w1
    | (w1, inr a) => (w1, inr a)
    end.

(** A pure computation that may raise, run at the given stage. *)
Definition lift {A} (st : stage) (r : exn + A) : M A :=
  match r with
  | inl e => raise st e
  | inr a => ret a
  end.

(** [keeps m]: [m] touches neither the archives nor the plain files, and
    when it fails the failure is not one of the archive stage. *)
Definition keeps {A} (m : M A) : Prop :=
  forall w w' r, m w = (w', r) ->
    archives w' = archives w /\ documents w' = documents w
    /\ (forall st ex, r = inl (st, ex) -> st <> ArchiveWrite).

(** [guarded m]: [m] leaves the plain files alone, and leaves the archives
    alone unless it fails in the archive stage or succeeds. *)
Definition guarded {A} (m : M A) : Prop :=
  forall w w' r, m w = (w', r) ->
    documents w' = documents w
    /\ (forall st ex, r = inl (st, ex) -> st <> ArchiveWrite ->
          archives w' = archives w).

(** [fails_in P m]: when [m] fails, the stage of the failure satisfies [P]. *)
Definition fails_in (P : stage -> Prop) {A} (m : M A) : Prop :=
  forall w w' st ex, m w = (w', inl (st, ex)) -> P st.

(** [PROFILES_OUTPUT_DIR] of src/config.py. *)
Definition output_dir : string := "generated_profiles".

Definition starts_with_slash (s : string) : bool := String.prefix "/" s.

Fixpoint ends_with_slash (s : string) : bool :=
  match s with
  | EmptyString => false
  | String c EmptyString => Ascii.eqb c "/"
  | String _ s' => ends_with_slash s'
  end.

(** [os.path.join(a, b)] with the POSIX separator. *)
Definition path_join (a b : string) : string :=
  if starts_with_slash b then b
  else if String.eqb a "" || ends_with_slash a then a ++ b
  else a ++ "/" ++ b.

(** [os.makedirs(path, exist_ok=True)] for the working directory. *)
Definition makedirs_temp (e : env) (st : stage) (temp_dir : string) : M unit :=
  fun w =>
    if can_mkdir e temp_dir
    then ({| temp_dirs := <[temp_dir := default [] (temp_dirs w !! temp_dir)]>
                            (temp_dirs w);
             archives := archives w;
             documents := documents w |}, inr tt)
    else (w, inl (st, OSError)).

(** [os.makedirs] for a directory inside the working directory; only files
    are tracked there. *)
Definition makedirs_sub (e : env) (st : stage) (path : string) : M unit :=
  if can_mkdir e path then ret tt else raise st OSError.

Definition add_once (name : string) (files : list string) : list string :=
  if bool_decide (name ∈ files) then files else files ++ [name].

(** [with open(os.path.join(temp_dir, name), 'w') as f: f.write(...)]. *)
Definition write_part (e : env) (st : stage) (temp_dir name : string) : M unit :=
  fun w =>
    match temp_dirs w !! temp_dir with
    | Some files =>
      if can_write e (path_join temp_dir name)
      then ({| temp_dirs := <[temp_dir := add_once name files]> (temp_dirs w);
               archives := archives w;
               documents := documents w |}, inr tt)
      else (w, inl (st, OSError))
    | None => (w, inl (st, OSError))
    end.

Definition add_document (path : string) (w : world) : world :=
  {| temp_dirs := temp_dirs w;
     archives := archives w;
     documents := {[ path ]} ∪ documents w |}.

(** Writing one of the plain output files. *)
Definition write_document (e : env) (st : stage) (path : string) : M unit :=
  fun w =>
    if can_write e path
    then (add_document path w, inr tt)
    else (w, inl (st, OSError)).

(** The five saves of [_create_dummy_thumbnails], stopping at the first one
    that fails; the routine swallows every exception. *)
Fixpoint save_thumbnails (e : env) (temp_dir : string) (names : list string)
  : M unit :=
  match names with
  | [] => ret tt
  | name :: rest =>
    try_except
      (write_part e MetadataWrite temp_dir name >> save_thumbnails e temp_dir rest)
      (fun _ => ret tt)
  end.

Definition _create_dummy_thumbnails (e : env) (temp_dir : string) : M unit :=
  if pil_available e
  then save_thumbnails e temp_dir
         [ "Metadata/plate_1_small.png"; "Metadata/plate_1.png";
           "Metadata/plate_no_light_1.png"; "Metadata/top_1.png";
           "Metadata/pick_1.png" ]
  else ret tt.

(** The order in which [os.walk] meets the files of the working directory:
    top-down, so the files of the directory itself come before those of its
    sub-directories; these are taken in the order of their creation (the
    order among sub-directories is the file system's choice). *)
Definition in_root (name : string) : bool := negb (contains "/" name).

Definition walk (files : list string) : list string :=
  List.filter in_root files ++ List.filter (fun name => negb (in_root name)) files.

(** [zipf.write(file_path, arcname)] for each file that [os.walk] yields. *)
Fixpoint zip_entries (e : env) (output_path : string) (names : list string)
  : M unit :=
  match names with
  | [] => ret tt
  | name :: rest =>
    fun w =>
      if can_add_entry e output_path name
      then zip_entries e output_path rest
             {| temp_dirs := temp_dirs w;
                archives := <[output_path :=
                                default [] (archives w !! output_path) ++ [name]]>
                              (archives w);
                documents := documents w |}
      else (w, inl (ArchiveWrite, OSError))
  end.

(** [with zipfile.ZipFile(output_path, 'w', ...) as zipf: ...]: opening
    creates (or truncates) the file; it stays where it is when an entry
    cannot be written. *)
Definition write_archive (e : env) (output_path temp_dir : string) : M unit :=
  fun w =>
    if can_open_zip e output_path
    then zip_entries e output_path (walk (default [] (temp_dirs w !! temp_dir)))
           {| temp_dirs := temp_dirs w;
              archives := <[output_path := []]> (archives w);
              documents := documents w |}
    else (w, inl (ArchiveWrite, OSError)).

(** The [finally] block: remove the working directory if it exists; an
    error while removing it is only logged. *)
Definition cleanup (e : env) (temp_dir : string) : M unit :=
  fun w =>
    match temp_dirs w !! temp_dir with
    | Some _ =>
      if can_rmtree e temp_dir
      then ({| temp_dirs := delete temp_dir (temp_dirs w);
               archives := archives w;
               documents := documents w |}, inr tt)
      else (w, inr tt)
    | None => (w, inr tt)
    end.

(** A value on which [.get] is called: [AttributeError] unless it is a
    dictionary. *)
Definition as_dict (v : value) : exn + gmap string value :=
  match v with
  | VDict d => inr d
  | _ => inl AttributeError
  end.

Section WithContainerRepr.

Context `{ContainerRepr}.

(** The files written for the Elegoo variant after the relationship
    parts. *)
Definition elegoo_metadata (e : env) (temp_dir : string)
    (profile : value) (analysis : gmap string value) (material : string)
  : M unit :=
  let* p := lift MetadataWrite (as_dict profile) in
  let project_settings :=
    Settings._generate_elegoo_project_settings (elegoo_defaults e) p analysis
      material in
  write_part e MetadataWrite temp_dir "Metadata/project_settings.config" >>
  write_part e MetadataWrite temp_dir "Metadata/model_settings.config" >>
  write_part e MetadataWrite temp_dir "Metadata/plate_1.json" >>
  write_part e MetadataWrite temp_dir "Metadata/slice_info.config" >>
  _create_dummy_thumbnails e temp_dir.

(** The files written for the standard Orca variant. *)
Definition orca_metadata (e : env) (temp_dir : string)
    (profile : value) (analysis : gmap string value)
    (material slicer_type : string) : M unit :=
  let* p := lift MetadataWrite (as_dict profile) in
  let config_json :=
    Settings._generate_3mf_config_json (now_iso e) p analysis material
      slicer_type in
  write_part e MetadataWrite temp_dir "Metadata/Slic3r_PE.json" >>
  write_part e MetadataWrite temp_dir "Metadata/Slic3r_PE_model.json" >>
  write_part e MetadataWrite temp_dir "Metadata/model_settings.json".

(** The body of the [try] block of [_generate_3mf_with_settings]. *)
Definition assemble_3mf (e : env) (output_path temp_dir : string)
    (model_path : string) (profile : value) (analysis : gmap string value)
    (material slicer_type : string) (build_plate_size : Q) : M string :=
  makedirs_temp e WorkDir temp_dir >>
  let* mesh :=
    match load e model_path with
    | Some mesh => ret mesh
    | None => raise ModelLoad LoadError
    end in
  makedirs_sub e WorkDir (path_join temp_dir "3D") >>
  let* model :=
    lift XmlGeneration (Placement._generate_3mf_model_xml mesh build_plate_size) in
  (if String.eqb slicer_type "elegoo_orca"
   then
     write_part e PartWrite temp_dir "3D/3dmodel.model" >>
     makedirs_sub e WorkDir (path_join temp_dir "3D/Objects") >>
     write_part e PartWrite temp_dir "3D/Objects/Object_1_1.model" >>
     makedirs_sub e WorkDir (path_join temp_dir "3D/_rels") >>
     write_part e PartWrite temp_dir "3D/_rels/3dmodel.model.rels"
   else
     write_part e PartWrite temp_dir "3D/3dmodel.model") >>
  write_part e PartWrite temp_dir "[Content_Types].xml" >>
  makedirs_sub e WorkDir (path_join temp_dir "_rels") >>
  write_part e PartWrite temp_dir "_rels/.rels" >>
  makedirs_sub e WorkDir (path_join temp_dir "Metadata") >>
  (if String.eqb slicer_type "elegoo_orca"
   then elegoo_metadata e temp_dir profile analysis material
   else orca_metadata e temp_dir profile analysis material slicer_type) >>
  write_archive e output_path temp_dir >>
  ret output_path.

(** [ProfileGenerator._generate_3mf_with_settings]. *)
Definition _generate_3mf_with_settings (e : env) (model_path : string)
    (profile : value) (analysis : gmap string value)
    (base_filename material slicer_type : string) (build_plate_size : Q)
  : M string :=
  let output_path := path_join output_dir (base_filename ++ ".3mf") in
  let temp_dir := path_join output_dir ("temp_" ++ base_filename) in
  try_finally
    (assemble_3mf e output_path temp_dir model_path profile analysis material
       slicer_type build_plate_size)
    (cleanup e temp_dir).

(** [os.path.basename] (POSIX): what follows the last slash. *)
Definition basename (path : string) : string :=
  match rfind "/" path with
  | Some i => slice path (i + 1) (String.length path)
  | None => path
  end.

Fixpoint all_dots (s : string) : bool :=
  match s with
  | EmptyString => true
  | String c s' => Ascii.eqb c "." && all_dots s'
  end.

(** The root part of [os.path.splitext] for a name without a slash: the
    name up to its last dot, unless only dots come before it. *)
Definition splitext_root (name : string) : string :=
  match rfind "." name with
  | Some i => if all_dots (slice name 0 i) then name else slice name 0 i
  | None => name
  end.

(** The characters [<>:], the double quote, [/], the backslash and [|?*]. *)
Definition is_invalid_char (c : ascii) : bool :=
  existsb (Nat.eqb (nat_of_ascii c)) [60; 62; 58; 34; 47; 92; 124; 63; 42]%nat.

Fixpoint replace_invalid (s : string) : string :=
  match s with
  | EmptyString => EmptyString
  | String c s' =>
    String (if is_invalid_char c then "_"%char else c) (replace_invalid s')
  end.

(** [ProfileGenerator._sanitize_filename]. *)
Definition _sanitize_filename (name : string) : string :=
  slice (replace_invalid (splitext_root (basename name))) 0 50.

(** [ProfileGenerator._generate_json_config]. *)
Definition _generate_json_config (e : env) (profile : value)
    (analysis : gmap string value) (base_filename material slicer_type : string)
  : M string :=
  let* p := lift JsonConfig (as_dict profile) in
  let config :=
    if String.eqb slicer_type "elegoo_orca"
    then Settings._generate_elegoo_project_settings (elegoo_defaults e) p
           analysis material
    else Settings._generate_3mf_config_json (now_iso e) p analysis material
           slicer_type in
  let output_path := path_join output_dir (base_filename ++ "_config.json") in
  write_document e JsonConfig output_path >>
  ret output_path.

(** [ProfileGenerator._generate_json_profile]. *)
Definition _generate_json_profile (e : env) (profile : value)
    (analysis : gmap string value) (base_filename material : string)
  : M string :=
  let* p := lift JsonProfile (as_dict profile) in
  let output_path := path_join output_dir (base_filename ++ ".json") in
  write_document e JsonProfile output_path >>
  ret output_path.

(** [for x in v] needs an iterable. *)
Definition iterable (v : value) : bool :=
  match v with
  | VStr _ | VList _ | VDict _ => true
  | _ => false
  end.

(** The bullet list of [_generate_summary] for one key of the analysis
    section: iterated when present and truthy. *)
Definition summary_bullets (ana : gmap string value) (k : string) : exn + unit :=
  match ana !! k with
  | Some v => if truthy v && negb (iterable v) then inl TypeError else inr tt
  | None => inr tt
  end.

(** What can raise while the list [summary_lines] of [_generate_summary] is
    put together, before the file is opened: [.get] on a section that is not
    a dictionary and iterating a value that is not iterable. *)
Definition summary_sections (analysis : gmap string value) : exn + unit :=
  match
    match analysis !! "analysis" with
    | Some (VDict ana) =>
      match summary_bullets ana "print_challenges" with
      | inr _ => summary_bullets ana "key_considerations"
      | inl x => inl x
      end
    | Some _ => inl AttributeError
    | None => inr tt
    end
  with
  | inl x => inl x
  | inr _ =>
    match analysis !! "profile" with
    | Some (VDict _) | None => inr tt
    | Some _ => inl AttributeError
    end
  end.

(** ['\n'.join(summary_lines)], evaluated once the file is open: the
    reasoning is the one entry of the list that need not be a string. *)
Definition summary_join (analysis : gmap string value) : exn + unit :=
  match analysis !! "reasoning" with
  | Some (VStr _) | None => inr tt
  | Some _ => inl TypeError
  end.

(** Whether the text of the summary can be produced at all. *)
Definition summary_lines (analysis : gmap string value) : exn + unit :=
  match summary_sections analysis with
  | inl x => inl x
  | inr _ => summary_join analysis
  end.

(** [ProfileGenerator._generate_summary].  The file is opened, and so
    created, before the lines are joined: a reasoning that is not a string
    leaves an empty summary file behind. *)
Definition _generate_summary (e : env) (analysis : gmap string value)
    (base_filename : string) : M string :=
  let* _ := lift Summary (summary_sections analysis) in
  let output_path := path_join output_dir (base_filename ++ "_summary.txt") in
  write_document e Summary output_path >>
  let* _ := lift Summary (summary_join analysis) in
  ret output_path.

(** Lines 84-110 of [generate_profile]: the three simpler artifacts and the
    result dictionary, given the path of the 3MF file if one was made. *)
Definition finish_profile (e : env) (profile_data : value)
    (analysis : gmap string value) (base_filename material slicer_type : string)
    (three_mf_path : option string) : M (gmap string string) :=
  let* json_config_path :=
    _generate_json_config e profile_data analysis base_filename material
      slicer_type in
  let* json_path :=
    _generate_json_profile e profile_data analysis base_filename material in
  let* summary_path := _generate_summary e analysis base_filename in
  let result : gmap string string :=
    list_to_map
      [ ("json_config", json_config_path);
        ("json_profile", json_path);
        ("summary", summary_path);
        ("base_name", base_filename) ] in
  ret (match three_mf_path with
       | Some path =>
         if negb (String.eqb path "") then <["3mf_profile" := path]> result
         else result
       | None => result
       end).

(** [if model_path and os.path.exists(model_path)]. *)
Definition model_available (e : env) (model_path : option string) : bool :=
  match model_path with
  | Some path => negb (String.eqb path "") && path_exists e path
  | None => false
  end.

(** [ProfileGenerator.generate_profile].  The outer [except] only logs and
    re-raises. *)
Definition generate_profile (e : env) (analysis : gmap string value)
    (model_name material : string) (model_path : option string)
    (slicer_type : string) (build_plate_size : Q) : M (gmap string string) :=
  let profile_data := get analysis "profile" (VDict ∅) in
  let timestamp := now e in
  let safe_name := _sanitize_filename model_name in
  let base_filename := (safe_name ++ "_" ++ timestamp)%string in
  let* three_mf_path :=
    match model_path with
    | Some path =>
      if model_available e model_path
      then try_except
             (let* out :=
                _generate_3mf_with_settings e path profile_data analysis
                  base_filename material slicer_type build_plate_size in
              ret (Some out))
             (fun _ => ret None)
      else ret None
    | None => ret None
    end in
  finish_profile e profile_data analysis base_filename material slicer_type
    three_mf_path.

End WithContainerRepr.

Section Claims.

Context `{ContainerRepr}.

(** "No partially written archive is left at the target path": whenever
    the run fails and there was no file at the target path before, there is
    none afterwards. *)
Definition leaves_no_partial_archive : Prop :=
  forall e model_path profile analysis base_filename material slicer_type
         build_plate_size w w' f,
    _generate_3mf_with_settings e model_path profile analysis base_filename
      material slicer_type build_plate_size w = (w', inl f) ->
    archives w !! path_join output_dir (base_filename ++ ".3mf") = None ->
    archives w' !! path_join output_dir (base_filename ++ ".3mf") = None.

(** "The working directory is removed on every exit path." *)
Definition always_removes_temp_dir : Prop :=
  forall e model_path profile analysis base_filename material slicer_type
         build_plate_size w w' r,
    _generate_3mf_with_settings e model_path profile analysis base_filename
      material slicer_type build_plate_size w = (w', r) ->
    temp_dirs w' !! path_join output_dir ("temp_" ++ base_filename) = None.

End Claims.

(** An empty disk. *)
Definition empty_world : world :=
  {| temp_dirs := ∅; archives := ∅; documents := ∅ |}.

(** Surroundings in which everything works: the model file exists and
    loads as the 10 mm cube. *)
Definition fine_env : env :=
  {| now := "20240101_120000";
     now_iso := "2024-01-01T12:00:00";
     path_exists := fun _ => true;
     load := fun _ => Some Placement.cube10;
     elegoo_defaults := ∅;
     pil_available := true;
     can_mkdir := fun _ => true;
     can_write := fun _ => true;
     can_open_zip := fun _ => true;
     can_add_entry := fun _ _ => true;
     can_rmtree := fun _ => true |}.

(** The same, except that the archive cannot take its second entry. *)
Definition disk_full_env : env :=
  {| now := "20240101_120000";
     now_iso := "2024-01-01T12:00:00";
     path_exists := fun _ => true;
     load := fun _ => Some Placement.cube10;
     elegoo_defaults := ∅;
     pil_available := true;
     can_mkdir := fun _ => true;
     can_write := fun _ => true;
     can_open_zip := fun _ => true;
     can_add_entry := fun _ name => String.eqb name "[Content_Types].xml";
     can_rmtree := fun _ => true |}.

(** The same as [fine_env], except that the model file cannot be loaded. *)
Definition unreadable_model_env : env :=
  {| now := "20240101_120000";
     now_iso := "2024-01-01T12:00:00";
     path_exists := fun _ => true;
     load := fun _ => None;
     elegoo_defaults := ∅;
     pil_available := true;
     can_mkdir := fun _ => true;
     can_write := fun _ => true;
     can_open_zip := fun _ => true;
     can_add_entry := fun _ _ => true;
     can_rmtree := fun _ => true |}.

(** The same as [fine_env], except that the archive cannot take its second
    entry and the working directory cannot be removed. *)
Definition locked_env : env :=
  {| now := "20240101_120000";
     now_iso := "2024-01-01T12:00:00";
     path_exists := fun _ => true;
     load := fun _ => Some Placement.cube10;
     elegoo_defaults := ∅;
     pil_available := true;
     can_mkdir := fun _ => true;
     can_write := fun _ => true;
     can_open_zip := fun _ => true;
     can_add_entry := fun _ name => String.eqb name "[Content_Types].xml";
     can_rmtree := fun _ => false |}.

(** The analysis used in the examples: the fallback for a feature set
    without entries. *)
Definition sample_analysis : gmap string value :=
  list_to_map
    [ ("profile", VDict (GeminiAgent.fallback_profile ∅));
      ("reasoning", VStr "Using safe default parameters.") ].

(** An analysis whose profile is a list, not a dictionary. *)
Definition list_profile_analysis : gmap string value :=
  list_to_map
    [ ("profile", VList [VInt 1]);
      ("reasoning", VStr "Using safe default parameters.") ].

End Packaging.

(** ** Predicates used to state what the file-writing pipeline guarantees *)

Module PackagingLogic.

Import Py Packaging.

(** The working directory [d] exists and holds every file of [names]. *)
Definition has_parts (d : string) (names : list string) (w : world) : Prop :=
  exists files, temp_dirs w !! d = Some files
    /\ Forall (fun name => name ∈ files) names.

(** [post P m Q]: started where [P] holds, a run of [m] that succeeds ends
    where [Q] holds of its result. *)
Definition post {A} (P : world -> Prop) (m : M A) (Q : A -> world -> Prop)
  : Prop :=
  forall w w' a, P w -> m w = (w', inr a) -> Q a w'.

(** [preserves P m]: every run of [m], failed or not, keeps [P]. *)
Definition preserves {A} (P : world -> Prop) (m : M A) : Prop :=
  forall w w' r, P w -> m w = (w', r) -> P w'.

(** [only_documents m]: [m] leaves working directories and archives alone
    and removes no plain file. *)
Definition only_documents {A} (m : M A) : Prop :=
  forall w w' r, m w = (w', r) ->
    temp_dirs w' = temp_dirs w /\ archives w' = archives w
    /\ documents w ⊆ documents w'.

(** The parts that [_generate_3mf_with_settings] writes for a consumer
    variant, thumbnails aside; among them are the targets of the
    relationship parts ([3D/3dmodel.model], and for Elegoo
    [3D/Objects/Object_1_1.model]) and of the content-type override. *)
Definition required_parts (slicer_type : string) : list string :=
  if String.eqb slicer_type "elegoo_orca"
  then [ "[Content_Types].xml"; "_rels/.rels"; "3D/3dmodel.model";
         "3D/Objects/Object_1_1.model"; "3D/_rels/3dmodel.model.rels";
         "Metadata/project_settings.config"; "Metadata/model_settings.config";
         "Metadata/plate_1.json"; "Metadata/slice_info.config" ]
  else [ "[Content_Types].xml"; "_rels/.rels"; "3D/3dmodel.model";
         "Metadata/Slic3r_PE.json"; "Metadata/Slic3r_PE_model.json";
         "Metadata/model_settings.json" ].

(** Every character of the string passes the test. *)
Fixpoint string_forall (P : ascii -> bool) (s : string) : bool :=
  match s with
  | EmptyString => true
  | String c s' => P c && string_forall P s'
  end.

(** Surroundings in which no image can be saved. *)
Definition no_pil_env : env :=
  {| now := "20240101_120000";
     now_iso := "2024-01-01T12:00:00";
     path_exists := fun _ => true;
     load := fun _ => Some Placement.cube10;
     elegoo_defaults := ∅;
     pil_available := false;
     can_mkdir := fun _ => true;
     can_write := fun _ => true;
     can_open_zip := fun _ => true;
     can_add_entry := fun _ _ => true;
     can_rmtree := fun _ => true |}.

(** Surroundings in which the model file does not exist. *)
Definition no_model_env : env :=
  {| now := "20240101_120000";
     now_iso := "2024-01-01T12:00:00";
     path_exists := fun _ => false;
     load := fun _ => None;
     elegoo_defaults := ∅;
     pil_available := true;
     can_mkdir := fun _ => true;
     can_write := fun _ => true;
     can_open_zip := fun _ => true;
     can_add_entry := fun _ _ => true;
     can_rmtree := fun _ => true |}.

End PackagingLogic.

(** ** Keys of the Elegoo settings *)

Module SettingsLogic.

Import Py Settings.

(** The keys of the [ai_settings] literal. *)
Definition elegoo_base_keys : list string :=
  [ "layer_height"; "initial_layer_height"; "wall_loops"; "top_shell_layers";
    "bottom_shell_layers"; "sparse_infill_density"; "sparse_infill_pattern";
    "enable_support"; "support_type"; "support_style";
    "support_threshold_angle"; "brim_type"; "default_speed";
    "initial_layer_speed"; "outer_wall_speed"; "inner_wall_speed";
    "sparse_infill_speed"; "travel_speed"; "retraction_length";
    "retraction_speed"; "nozzle_temperature"; "hot_plate_temp";
    "hot_plate_temp_initial_layer"; "fan_max_speed"; "fan_min_speed";
    "filament_type"; "filament_settings_id"; "different_settings_to_system";
    "resolution"; "detect_thin_wall" ].

(** The keys added for tree supports. *)
Definition elegoo_tree_keys : list string :=
  [ "tree_support_branch_angle"; "tree_support_branch_angle_organic";
    "tree_support_branch_distance"; "tree_support_branch_distance_organic";
    "tree_support_branch_diameter"; "tree_support_branch_diameter_organic";
    "tree_support_wall_count"; "tree_support_adaptive_layer_height";
    "tree_support_tip_diameter"; "tree_support_top_rate" ].

(** The keys that [_generate_elegoo_project_settings] sets for a profile. *)
Definition elegoo_overridden_keys `{ContainerRepr}
    (profile : gmap string value) : list string :=
  if is_tree profile && truthy (get profile "support_material" (VBool false))
  then elegoo_tree_keys ++ elegoo_base_keys
  else elegoo_base_keys.

(** Tree supports are selected by a profile: its [support_style] is
    ["tree"], or the text of its [support_type] contains ["tree"] in any
    case. *)
Definition tree_selected `{ContainerRepr} (profile : gmap string value) : Prop :=
  profile !! "support_style" = Some (VStr "tree")
  \/ contains "tree" (lower (py_str (get profile "support_type" (VStr ""))))
     = true.

(** Two profiles that differ at most in what selects tree supports. *)
Definition same_but_selection (p p' : gmap string value) : Prop :=
  forall k, k <> "support_style" -> k <> "support_type" -> p !! k = p' !! k.

(** A profile that selects tree supports and enables supports, and the same
    profile without the selection. *)
Definition tree_profile : gmap string value :=
  <["support_material" := VBool true]> {[ "support_style" := VStr "tree" ]}.

Definition plain_profile : gmap string value :=
  <["support_material" := VBool true]> {[ "support_style" := VStr "default" ]}.

End SettingsLogic.

(** ** Replies without backticks *)

Module GeminiLogic.

Import Py PackagingLogic.

(** The string has no backtick. *)
Definition no_backtick (s : string) : bool :=
  string_forall (fun c => negb (Ascii.eqb c "`")) s.

End GeminiLogic.

(** ** src/feature_extractor.py: the orientation hint *)

Module Orientation.

Import Placement.

Local Open Scope Q_scope.

(** [mesh.bounding_box.extents]: the edge lengths of the bounding box.  A
    mesh without vertices has no bounds; [None] stands for what the library
    does with it, which no property below relies on. *)
Definition extents (mesh : Trimesh) : option (Q * Q * Q) :=
  match bounds mesh with
  | None => None
  | Some (lo, hi) => Some (vx hi - vx lo, vy hi - vy lo, vz hi - vz lo)
  end.

(** The dictionary returned by [_suggest_orientation]. *)
Record orientation := {
  suggested_up_axis : nat;
  suggested_base_axis : nat;
  current_height : Q;
  optimal_rotation : string
}.

(** [FeatureExtractor._suggest_orientation]; [argsort] stands for
    [np.argsort] on an array of three numbers. *)
Definition _suggest_orientation (argsort : Q * Q * Q -> nat * nat * nat)
    (mesh : Trimesh) : option orientation :=
  match extents mesh with
  | None => None
  | Some dims =>
    let sorted_indices := argsort dims in
    let '(i0, _, i2) := sorted_indices in
    Some {| suggested_up_axis := i2;
            suggested_base_axis := i0;
            current_height := vz dims;
            optimal_rotation :=
              if Nat.eqb i2 2 then "model_positioned_optimally"
              else "rotation_recommended" |}
  end.

(** [dims[i]] for an index below 3. *)
Definition dim (dims : Q * Q * Q) (i : nat) : Q :=
  match i with
  | O => vx dims
  | S O => vy dims
  | _ => vz dims
  end.

(** What [np.argsort] promises, whichever way it breaks ties: the indices
    0, 1, 2 in an order in which the values do not decrease. *)
Definition is_argsort (argsort : Q * Q * Q -> nat * nat * nat) : Prop :=
  forall dims,
    In (argsort dims)
       [ (0, 1, 2); (0, 2, 1); (1, 0, 2); (1, 2, 0); (2, 0, 1); (2, 1, 0) ]%nat
    /\ let '(i0, i1, i2) := argsort dims in
       dim dims i0 <= dim dims i1 /\ dim dims i1 <= dim dims i2.

(** An [argsort] that keeps equal values in their order, by insertion. *)
Definition stable_argsort (dims : Q * Q * Q) : nat * nat * nat :=
  let '(a, b, c) := dims in
  if Qle_bool a b
  then if Qle_bool b c then (0, 1, 2)%nat
       else if Qle_bool a c then (0, 2, 1)%nat else (2, 0, 1)%nat
  else if Qle_bool a c then (1, 0, 2)%nat
       else if Qle_bool b c then (1, 2, 0)%nat else (2, 1, 0)%nat.

End Orientation.

(** ** What an archive may hold *)

Module ArchiveLogic.

Import Py Packaging PackagingLogic.

(** The images that [_create_dummy_thumbnails] tries to save. *)
Definition thumbnail_parts : list string :=
  [ "Metadata/plate_1_small.png"; "Metadata/plate_1.png";
    "Metadata/plate_no_light_1.png"; "Metadata/top_1.png";
    "Metadata/pick_1.png" ].

(** Every part a package of the variant may hold. *)
Definition allowed_parts (slicer_type : string) : list string :=
  if String.eqb slicer_type "elegoo_orca"
  then required_parts slicer_type ++ thumbnail_parts
  else required_parts slicer_type.

(** The working directory [d] exists, holds no file twice and only files
    of [allowed]. *)
Definition parts_within (d : string) (allowed : list string) (w : world)
  : Prop :=
  exists files, temp_dirs w !! d = Some files
    /\ NoDup files /\ Forall (fun name => name ∈ allowed) files.

(** A disk on which an earlier run left its working directory behind. *)
Definition stale_world : world :=
  {| temp_dirs :=
       {[ "generated_profiles/temp_benchy_20240101_120000" := ["notes.txt"] ]};
     archives := ∅;
     documents := ∅ |}.

End ArchiveLogic.

(** * Properties of the overhang analysis *)

Section OverhangFacts.

Import FeatureExtractor.
Local Open Scope R_scope.

Lemma gtb_true (a b : R) : gtb a b = true <-> a > b.
Proof.
  unfold gtb. destruct (Rgt_dec a b); split; intros; try lra; congruence.
Qed.

Lemma gtb_false (a b : R) : gtb a b = false <-> a <= b.
Proof.
  unfold gtb. destruct (Rgt_dec a b); split; intros; try lra; congruence.
Qed.

Lemma degrees_0 : degrees 0 = 0.
Proof. unfold degrees. lra. Qed.

Lemma degrees_PI : degrees PI = 180.
Proof. unfold degrees. field. apply PI_neq0. Qed.

Lemma acos_m1 : acos (-1) = PI.
Proof.
  replace (-1) with (- (1)) by lra.
  rewrite acos_opp, acos_1. lra.
Qed.

Lemma clip_id (x : R) : -1 <= x <= 1 -> clip x (-1) 1 = x.
Proof.
  intros [Hlo Hhi]. unfold clip.
  rewrite (Rmax_left x (-1)) by lra. apply Rmin_left; lra.
Qed.

(** The angle the code assigns to a face whose normal points straight down
    is 0 degrees, and 180 degrees when it points straight up. *)
Lemma angle_of_down_normal :
  degrees (acos (clip (dot (0, 0, -1) z_axis) (-1) 1)) = 0.
Proof.
  unfold dot, z_axis.
  replace (0 * 0 + 0 * 0 + -1 * -1) with 1 by lra.
  rewrite clip_id by lra. rewrite acos_1. apply degrees_0.
Qed.

Lemma angle_of_up_normal :
  degrees (acos (clip (dot (0, 0, 1) z_axis) (-1) 1)) = 180.
Proof.
  unfold dot, z_axis.
  replace (0 * 0 + 0 * 0 + 1 * -1) with (-1) by lra.
  rewrite clip_id by lra. rewrite acos_m1. apply degrees_PI.
Qed.

Lemma count_above_le_length (t : R) (l : list R) :
  (count_above t l <= length l)%nat.
Proof. unfold count_above. apply List.filter_length_le. Qed.

(** Raising the threshold can only remove faces from the mask. *)
Lemma count_above_antitone (t1 t2 : R) (l : list R) :
  t1 < t2 -> (count_above t2 l <= count_above t1 l)%nat.
Proof.
  intros Hlt. unfold count_above.
  induction l as [|a l IH]; simpl; [lia|].
  destruct (gtb a t2) eqn:E2.
  - apply gtb_true in E2.
    assert (E1 : gtb a t1 = true) by (apply gtb_true; lra).
    rewrite E1. simpl. lia.
  - destruct (gtb a t1); simpl; lia.
Qed.

Lemma percentage_mono (k1 k2 n : nat) :
  (k1 <= k2)%nat -> percentage k1 n <= percentage k2 n.
Proof.
  intros Hle. destruct n as [|n]; simpl; [lra|].
  assert (Hn : 0 < INR (S n)) by (apply lt_0_INR; lia).
  apply le_INR in Hle.
  apply Rmult_le_compat_r; [lra|].
  apply Rmult_le_compat_r; [|exact Hle].
  left. apply Rinv_0_lt_compat. exact Hn.
Qed.

Lemma percentage_all (n : nat) : (0 < n)%nat -> percentage n n = 100.
Proof.
  intros Hn. destruct n as [|n]; [lia|]. simpl percentage.
  assert (INR (S n) <> 0) by (apply not_0_INR; lia). field. assumption.
Qed.

Lemma percentage_none (n : nat) : percentage 0 n = 0.
Proof. destruct n; simpl; lra. Qed.

Lemma np_max_is_Some (l : list R) : l <> [] -> exists m, np_max l = Some m.
Proof. destruct l; [congruence|]. intros _. simpl. eauto. Qed.

Lemma angles_deg_nonempty (mesh : Trimesh) :
  faces mesh <> [] -> angles_deg mesh <> [].
Proof.
  unfold angles_deg, face_normals. destruct (faces mesh); [congruence|].
  simpl. congruence.
Qed.

(** The function returns a record exactly when the mesh has a face, and the
    record is the one spelled out in the source. *)
Lemma detect_overhangs_returns (t : R) (mesh : Trimesh) :
  faces mesh <> [] ->
  exists r, _detect_overhangs t mesh = Some r
    /\ overhang_percentage r =
         percentage (count_above t (angles_deg mesh)) (length (faces mesh))
    /\ severe_overhang_percentage r =
         percentage (count_above 60 (angles_deg mesh)) (length (faces mesh))
    /\ extreme_overhang_percentage r =
         percentage (count_above 75 (angles_deg mesh)) (length (faces mesh))
    /\ needs_supports r = gtb (overhang_percentage r) 10
    /\ recommend_tree_support r =
         (gtb (severe_overhang_percentage r) 5
          || (gtb (overhang_percentage r) 15
              && gtb (extreme_overhang_percentage r) 2)
          || gtb (overhang_percentage r) 20).
Proof.
  intros Hne.
  destruct (np_max_is_Some (angles_deg mesh) (angles_deg_nonempty mesh Hne))
    as [mx Hmx].
  unfold _detect_overhangs. rewrite Hmx.
  eexists. split; [reflexivity|]. simpl. repeat split; reflexivity.
Qed.

Lemma detect_overhangs_empty (t : R) (mesh : Trimesh) :
  faces mesh = [] -> _detect_overhangs t mesh = None.
Proof.
  intros He. unfold _detect_overhangs, angles_deg, face_normals.
  rewrite He. reflexivity.
Qed.

Lemma angles_deg_down_triangle : angles_deg down_triangle = [0].
Proof.
  unfold angles_deg, face_normals, down_triangle. cbn [map faces normal].
  rewrite angle_of_down_normal. reflexivity.
Qed.

(** C2 (evaluation of the code): for the single downward-facing triangle the
    analysis at the default threshold of 45 degrees reports 0 percent in all
    three overhang classes, because the angle is measured against the
    downward axis and is 0 for such a face. *)
Theorem down_triangle_not_counted :
  exists r, _detect_overhangs default_overhang_threshold down_triangle = Some r
    /\ overhang_percentage r = 0
    /\ severe_overhang_percentage r = 0
    /\ extreme_overhang_percentage r = 0
    /\ max_overhang_angle r = 0.
Proof.
  unfold _detect_overhangs, default_overhang_threshold.
  rewrite angles_deg_down_triangle.
  unfold np_max, count_above. cbn [List.filter fold_left].
  assert (E45 : gtb 0 45 = false) by (apply gtb_false; lra).
  assert (E60 : gtb 0 60 = false) by (apply gtb_false; lra).
  assert (E75 : gtb 0 75 = false) by (apply gtb_false; lra).
  rewrite E45, E60, E75.
  eexists. split; [reflexivity|]. simpl. repeat split; lra.
Qed.

Lemma angles_all_up (fs : list face) (vs : list vec3) :
  Forall (fun f => normal f = (0, 0, 1)) fs ->
  angles_deg {| vertices := vs; faces := fs |} = map (fun _ => 180) fs.
Proof.
  unfold angles_deg, face_normals. simpl.
  induction 1 as [|f fs Hf _ IH]; simpl; [reflexivity|].
  rewrite Hf, angle_of_up_normal. f_equal. exact IH.
Qed.

Lemma count_above_const (t a : R) {A} (l : list A) :
  a > t -> count_above t (map (fun _ => a) l) = length l.
Proof.
  intros Hgt. unfold count_above.
  induction l as [|x l IH]; simpl; [reflexivity|].
  assert (E : gtb a t = true) by (apply gtb_true; lra).
  rewrite E. simpl. f_equal. exact IH.
Qed.

(** Every face of a mesh that only faces upwards is counted as an overhang. *)
Lemma all_up_counted (mesh : Trimesh) :
  faces mesh <> [] ->
  Forall (fun f => normal f = (0, 0, 1)) (faces mesh) ->
  exists r, _detect_overhangs default_overhang_threshold mesh = Some r
    /\ overhang_percentage r = 100 /\ needs_supports r = true.
Proof.
  intros Hne Hup.
  destruct (detect_overhangs_returns default_overhang_threshold mesh Hne)
    as (r & Hr & Hov & _ & _ & Hns & _).
  exists r. split; [exact Hr|].
  assert (Hp : overhang_percentage r = 100).
  { rewrite Hov. destruct mesh as [vs fs]. simpl in *.
    rewrite (angles_all_up fs vs Hup).
    rewrite count_above_const by (unfold default_overhang_threshold; lra).
    apply percentage_all. destruct fs; [congruence|simpl; lia]. }
  split; [exact Hp|]. rewrite Hns, Hp. apply gtb_true. lra.
Qed.

(** C3 (evaluation of the code): for the flat upward-facing square the
    analysis at the default threshold reports an overhang percentage of 100
    and [needs_supports = true]. *)
Theorem up_square_counted :
  exists r, _detect_overhangs default_overhang_threshold up_square = Some r
    /\ overhang_percentage r = 100 /\ needs_supports r = true.
Proof.
  apply all_up_counted.
  - discriminate.
  - repeat constructor.
Qed.

(** C4: for a mesh with at least one face the analysis returns a record
    whose three percentages are those of the mesh: 100 times the share of
    the faces whose angle exceeds the threshold, 60 degrees and 75 degrees.
    In it [needs_supports] holds exactly when the overhang percentage of
    the mesh exceeds 10, and [recommend_tree_support] holds exactly when the
    severe percentage exceeds 5, or the overhang percentage exceeds 15 while
    the extreme percentage exceeds 2, or the overhang percentage exceeds
    20. *)
Theorem support_flags_policy (t : R) (mesh : Trimesh) :
  faces mesh <> [] ->
  let share u :=
    INR (count_above u (angles_deg mesh)) / INR (length (faces mesh)) * 100 in
  exists r, _detect_overhangs t mesh = Some r
    /\ overhang_percentage r = share t
    /\ severe_overhang_percentage r = share 60
    /\ extreme_overhang_percentage r = share 75
    /\ (needs_supports r = true <-> share t > 10)
    /\ (recommend_tree_support r = true <->
          share 60 > 5 \/ (share t > 15 /\ share 75 > 2) \/ share t > 20)
    /\ (needs_supports r = true <-> overhang_percentage r > 10)
    /\ (recommend_tree_support r = true <->
          severe_overhang_percentage r > 5
          \/ (overhang_percentage r > 15 /\ extreme_overhang_percentage r > 2)
          \/ overhang_percentage r > 20).
Proof.
  intros Hne share.
  destruct (detect_overhangs_returns t mesh Hne)
    as (r & Hr & Ho & Hs & He & Hns & Htree).
  assert (Hshare : forall u,
    percentage (count_above u (angles_deg mesh)) (length (faces mesh))
    = share u).
  { intros u. unfold percentage, share.
    destruct (length (faces mesh)) eqn:El; [|reflexivity].
    apply length_zero_iff_nil in El. contradiction. }
  rewrite !Hshare in *.
  exists r. split; [exact Hr|].
  split; [exact Ho|]. split; [exact Hs|]. split; [exact He|].
  assert (Hn : needs_supports r = true <-> overhang_percentage r > 10).
  { rewrite Hns. apply gtb_true. }
  assert (Ht : recommend_tree_support r = true <->
            severe_overhang_percentage r > 5
            \/ (overhang_percentage r > 15 /\ extreme_overhang_percentage r > 2)
            \/ overhang_percentage r > 20).
  { rewrite Htree. rewrite !orb_true_iff, andb_true_iff, !gtb_true. tauto. }
  split; [rewrite <- Ho; exact Hn|].
  split; [rewrite <- Ho, <- Hs, <- He; exact Ht|].
  split; [exact Hn|exact Ht].
Qed.

Lemma support_flags_policy_witness :
  (exists r, _detect_overhangs default_overhang_threshold up_square = Some r
     /\ overhang_percentage r = 100
     /\ needs_supports r = true /\ recommend_tree_support r = true)
  /\ (exists r, _detect_overhangs default_overhang_threshold down_triangle
                = Some r
        /\ overhang_percentage r = 0
        /\ needs_supports r = false /\ recommend_tree_support r = false).
Proof.
  split.
  - destruct (support_flags_policy default_overhang_threshold up_square)
      as (r & Hr & Ho & _ & _ & Hn & Ht & _); [discriminate|].
    assert (Ha : angles_deg up_square = [180; 180]).
    { unfold up_square. rewrite angles_all_up by repeat constructor.
      reflexivity. }
    assert (E : count_above default_overhang_threshold (angles_deg up_square)
                = 2%nat).
    { rewrite Ha. apply (count_above_const _ 180 [tt; tt]).
      unfold default_overhang_threshold. lra. }
    rewrite E in Ho, Hn, Ht.
    assert (H100 : INR 2 / INR (length (faces up_square)) * 100 = 100).
    { simpl. field. }
    rewrite H100 in Ho, Hn, Ht.
    exists r. split; [exact Hr|]. split; [exact Ho|]. split.
    + apply Hn. lra.
    + apply Ht. right. right. lra.
  - destruct (support_flags_policy default_overhang_threshold down_triangle)
      as (r & Hr & Ho & Hs & He & Hn & Ht & _); [discriminate|].
    assert (E : forall u, 0 <= u ->
              count_above u (angles_deg down_triangle) = 0%nat).
    { intros u Hu. rewrite angles_deg_down_triangle.
      unfold count_above. simpl.
      assert (G : gtb 0 u = false) by (apply gtb_false; lra).
      now rewrite G. }
    assert (E45 := E default_overhang_threshold
                     ltac:(unfold default_overhang_threshold; lra)).
    assert (E60 := E 60 ltac:(lra)). assert (E75 := E 75 ltac:(lra)).
    rewrite E45 in Ho, Hn. rewrite E45, E60, E75 in Ht.
    assert (H0 : INR 0 / INR (length (faces down_triangle)) * 100 = 0).
    { simpl. field. }
    rewrite H0 in Ho, Hn, Ht.
    exists r. split; [exact Hr|]. split; [exact Ho|]. split.
    + apply not_true_iff_false. intros Hc. apply Hn in Hc. lra.
    + apply not_true_iff_false. intros Hc. apply Ht in Hc.
      destruct Hc as [Hc|[[Hc _]|Hc]]; lra.
Defined.

(** C5: on one mesh the overhang percentage is antitone in the threshold,
    and at the default threshold of 45 degrees the three reported
    percentages are ordered: extreme <= severe <= overhang. *)
Theorem overhang_monotonicity :
  (forall (mesh : Trimesh) (t1 t2 : R),
      faces mesh <> [] -> t1 < t2 ->
      exists r1 r2,
        _detect_overhangs t1 mesh = Some r1
        /\ _detect_overhangs t2 mesh = Some r2
        /\ overhang_percentage r1 >= overhang_percentage r2)
  /\ (forall mesh : Trimesh,
        faces mesh <> [] ->
        exists r, _detect_overhangs default_overhang_threshold mesh = Some r
          /\ extreme_overhang_percentage r <= severe_overhang_percentage r
          /\ severe_overhang_percentage r <= overhang_percentage r).
Proof.
  split.
  - intros mesh t1 t2 Hne Hlt.
    destruct (detect_overhangs_returns t1 mesh Hne) as (r1 & Hr1 & Hov1 & _).
    destruct (detect_overhangs_returns t2 mesh Hne) as (r2 & Hr2 & Hov2 & _).
    exists r1, r2. repeat split; try assumption.
    rewrite Hov1, Hov2. apply Rle_ge, percentage_mono.
    apply count_above_antitone. exact Hlt.
  - intros mesh Hne.
    destruct (detect_overhangs_returns default_overhang_threshold mesh Hne)
      as (r & Hr & Hov & Hsev & Hext & _).
    exists r. split; [exact Hr|]. rewrite Hov, Hsev, Hext. split.
    + apply percentage_mono, count_above_antitone. lra.
    + apply percentage_mono, count_above_antitone.
      unfold default_overhang_threshold. lra.
Qed.

Lemma overhang_monotonicity_witness :
  (exists r1 r2,
      _detect_overhangs 45 up_square = Some r1
      /\ _detect_overhangs 60 up_square = Some r2
      /\ overhang_percentage r1 >= overhang_percentage r2)
  /\ (exists r, _detect_overhangs default_overhang_threshold down_triangle = Some r
        /\ extreme_overhang_percentage r <= severe_overhang_percentage r
        /\ severe_overhang_percentage r <= overhang_percentage r).
Proof.
  destruct overhang_monotonicity as [Hmono Hchain]. split.
  - apply (Hmono up_square 45 60); [simpl; discriminate | lra].
  - apply (Hchain down_triangle). simpl. discriminate.
Defined.

End OverhangFacts.

(** * Properties of the build-plate placement *)

Section PlacementFacts.

Import Placement.
Local Open Scope Q_scope.

Lemma Qgtb_true (a b : Q) : Qgtb a b = true <-> b < a.
Proof.
  unfold Qgtb. rewrite negb_true_iff, <- not_true_iff_false, Qle_bool_iff.
  split; intros; lra.
Qed.

Lemma Qgtb_false (a b : Q) : Qgtb a b = false <-> a <= b.
Proof. unfold Qgtb. rewrite negb_false_iff. apply Qle_bool_iff. Qed.

Lemma py_max_cases (a b : Q) :
  (b <= a /\ py_max a b = a) \/ (a < b /\ py_max a b = b).
Proof.
  unfold py_max. destruct (Qgtb b a) eqn:E.
  - right. split; [now apply Qgtb_true|reflexivity].
  - left. split; [now apply Qgtb_false|reflexivity].
Qed.

Lemma Qmin_cases (a b : Q) :
  (a <= b /\ Qmin a b == a) \/ (b <= a /\ Qmin a b == b).
Proof.
  destruct (Q.min_spec a b) as [[H1 H2]|[H1 H2]]; [left|right]; split;
    try assumption; lra.
Qed.

Lemma Qmax_cases (a b : Q) :
  (b <= a /\ Qmax a b == a) \/ (a <= b /\ Qmax a b == b).
Proof.
  destruct (Q.max_spec a b) as [[H1 H2]|[H1 H2]]; [right|left]; split;
    try assumption; lra.
Qed.

(** Folding [vmin] computes the least value of each coordinate. *)
Lemma fold_vmin_is_min (f : vertex -> Q) :
  (forall a b, f (vmin a b) = Qmin (f a) (f b)) ->
  forall rest v, is_min f (v :: rest) (f (fold_left vmin rest v)).
Proof.
  intros Hf rest. induction rest as [|u rest IH]; intros v.
  - simpl. split.
    + intros w [<-|[]]. lra.
    + exists v. split; [now left|reflexivity].
  - simpl fold_left. destruct (IH (vmin v u)) as [Hlb (w & Hin & Hw)].
    assert (Hm : f (fold_left vmin rest (vmin v u)) <= f (vmin v u))
      by (apply Hlb; now left).
    rewrite Hf in Hm. split.
    + intros w' [<-|[<-|Hin']].
      * pose proof (Q.le_min_l (f v) (f u)). lra.
      * pose proof (Q.le_min_r (f v) (f u)). lra.
      * apply Hlb. now right.
    + destruct Hin as [<-|Hin].
      * rewrite Hf in Hw.
        destruct (Qmin_cases (f v) (f u)) as [[_ E]|[_ E]].
        -- exists v. split; [now left|]. lra.
        -- exists u. split; [right; now left|]. lra.
      * exists w. split; [right; now right|exact Hw].
Qed.

Lemma fold_vmax_is_max (f : vertex -> Q) :
  (forall a b, f (vmax a b) = Qmax (f a) (f b)) ->
  forall rest v, is_max f (v :: rest) (f (fold_left vmax rest v)).
Proof.
  intros Hf rest. induction rest as [|u rest IH]; intros v.
  - simpl. split.
    + intros w [<-|[]]. lra.
    + exists v. split; [now left|reflexivity].
  - simpl fold_left. destruct (IH (vmax v u)) as [Hub (w & Hin & Hw)].
    assert (Hm : f (vmax v u) <= f (fold_left vmax rest (vmax v u)))
      by (apply Hub; now left).
    rewrite Hf in Hm. split.
    + intros w' [<-|[<-|Hin']].
      * pose proof (Q.le_max_l (f v) (f u)). lra.
      * pose proof (Q.le_max_r (f v) (f u)). lra.
      * apply Hub. now right.
    + destruct Hin as [<-|Hin].
      * rewrite Hf in Hw.
        destruct (Qmax_cases (f v) (f u)) as [[_ E]|[_ E]].
        -- exists v. split; [now left|]. lra.
        -- exists u. split; [right; now left|]. lra.
      * exists w. split; [right; now right|exact Hw].
Qed.

(** The bounding box is tight on every axis. *)
Lemma bbox_spec (vs : list vertex) (lo hi : vertex) :
  bbox vs = Some (lo, hi) ->
  (is_min vx vs (vx lo) /\ is_min vy vs (vy lo) /\ is_min vz vs (vz lo))
  /\ (is_max vx vs (vx hi) /\ is_max vy vs (vy hi) /\ is_max vz vs (vz hi)).
Proof.
  destruct vs as [|v rest]; [discriminate|]. simpl. intros [= <- <-].
  repeat split; try (apply fold_vmin_is_min; reflexivity);
    apply fold_vmax_is_max; reflexivity.
Qed.

Lemma bbox_is_Some (vs : list vertex) :
  vs <> [] -> exists lo hi, bbox vs = Some (lo, hi).
Proof. destruct vs; [congruence|]. simpl. eauto. Qed.

Lemma is_min_unique f vs q q' : is_min f vs q -> is_min f vs q' -> q == q'.
Proof.
  intros [H1 (v & Hv & E)] [H1' (v' & Hv' & E')].
  pose proof (H1 _ Hv'). pose proof (H1' _ Hv). lra.
Qed.

Lemma is_max_unique f vs q q' : is_max f vs q -> is_max f vs q' -> q == q'.
Proof.
  intros [H1 (v & Hv & E)] [H1' (v' & Hv' & E')].
  pose proof (H1 _ Hv'). pose proof (H1' _ Hv). lra.
Qed.

Lemma is_min_le_is_max f vs q q' : is_min f vs q -> is_max f vs q' -> q <= q'.
Proof.
  intros [H1 (v & Hv & E)] [H2 _]. pose proof (H2 _ Hv). lra.
Qed.

Lemma float_div_Some (a b : Q) :
  ~ b == 0 -> float_div a b = Some (a / b).
Proof.
  intros Hb. unfold float_div. destruct (Qeq_bool b 0) eqn:E; [|reflexivity].
  apply Qeq_bool_iff in E. contradiction.
Qed.




(** On a plate of at least 10 mm the scaled extent fits the safe area. *)
Lemma fit_scale_fits (m safe : Q) :
  0 <= m -> 0 <= safe ->
  exists s, fit_scale m safe = Some s /\ 0 <= s /\ s <= 1 /\ s * m <= safe.
Proof.
  intros Hm Hs. unfold fit_scale. destruct (Qgtb m safe) eqn:E.
  - apply Qgtb_true in E.
    assert (Hne : ~ m == 0) by lra.
    rewrite (float_div_Some _ _ Hne). exists (safe / m).
    split; [reflexivity|]. split; [|split].
    + apply Qle_shift_div_l; lra.
    + apply Qle_shift_div_r; lra.
    + assert (Heq : safe / m * m == safe) by (field; exact Hne). lra.
  - apply Qgtb_false in E. exists 1. repeat split; lra.
Qed.

Lemma generate_3mf_model_xml_inr (mesh : Trimesh) (plate : Q) lo hi :
  bounds mesh = Some (lo, hi) ->
  exists m, _generate_3mf_model_xml mesh plate = inr m
    /\ xml_vertices m =
         map (fun v => (vx v - (vx lo + vx hi) / 2,
                        vy v - (vy lo + vy hi) / 2,
                        vz v - vz lo)) (vertices mesh)
    /\ transform_matrix m =
         match fit_scale (py_max (vx hi - vx lo) (vy hi - vy lo)) (plate - 10) with
         | None => None
         | Some s => Some {| scale := s; offset_x := plate / 2;
                             offset_y := plate / 2;
                             offset_z := (vz hi - vz lo) / 2 * s |}
         end.
Proof.
  intros Hb. unfold _generate_3mf_model_xml. rewrite Hb.
  eexists. split; [reflexivity|]. split; reflexivity.
Qed.

Lemma bounds_extent_nonneg (mesh : Trimesh) lo hi :
  bounds mesh = Some (lo, hi) ->
  0 <= py_max (vx hi - vx lo) (vy hi - vy lo)
  /\ vx hi - vx lo <= py_max (vx hi - vx lo) (vy hi - vy lo)
  /\ vy hi - vy lo <= py_max (vx hi - vx lo) (vy hi - vy lo)
  /\ 0 <= vz hi - vz lo.
Proof.
  intros Hb. apply bbox_spec in Hb.
  destruct Hb as [(Hx & Hy & Hz) (Hx' & Hy' & Hz')].
  pose proof (is_min_le_is_max _ _ _ _ Hx Hx').
  pose proof (is_min_le_is_max _ _ _ _ Hy Hy').
  pose proof (is_min_le_is_max _ _ _ _ Hz Hz').
  destruct (py_max_cases (vx hi - vx lo) (vy hi - vy lo)) as [[? ->]|[? ->]];
    repeat split; lra.
Qed.


(** Linear arithmetic over the rationals, with halves written as [1#2]. *)
Ltac lra_half :=
  unfold Qdiv in *; change (/ 2) with (1 # 2) in *; lra.

Lemma vx_mk (a b c : Q) : vx (a, b, c) = a.
Proof. reflexivity. Qed.

Lemma vy_mk (a b c : Q) : vy (a, b, c) = b.
Proof. reflexivity. Qed.

Lemma vz_mk (a b c : Q) : vz (a, b, c) = c.
Proof. reflexivity. Qed.

Lemma vx_apply t v : vx (apply_transform t v) = scale t * vx v + offset_x t.
Proof. reflexivity. Qed.

Lemma vy_apply t v : vy (apply_transform t v) = scale t * vy v + offset_y t.
Proof. reflexivity. Qed.

Lemma vz_apply t v : vz (apply_transform t v) = scale t * vz v + offset_z t.
Proof. reflexivity. Qed.

(** General placement: on a plate of at least 10 mm every stored vertex
    lands, in X and Y, inside the plate with the 5 mm margin, while the
    lowest placed Z is half the scaled height. *)
Lemma placement_general (mesh : Trimesh) (plate : Q) lo hi :
  bounds mesh = Some (lo, hi) -> 10 <= plate ->
  exists m t,
    _generate_3mf_model_xml mesh plate = inr m
    /\ transform_matrix m = Some t
    /\ (forall v, In v (map (apply_transform t) (xml_vertices m)) ->
          5 <= vx v <= plate - 5 /\ 5 <= vy v <= plate - 5)
    /\ is_min vz (map (apply_transform t) (xml_vertices m))
               (scale t * ((vz hi - vz lo) / 2)).
Proof.
  intros Hb Hplate.
  destruct (generate_3mf_model_xml_inr mesh plate lo hi Hb) as (m & Hm & Hvs & Ht).
  destruct (bounds_extent_nonneg mesh lo hi Hb) as (HM & HwM & HdM & Hh).
  destruct (fit_scale_fits (py_max (vx hi - vx lo) (vy hi - vy lo)) (plate - 10))
    as (s & Hs & Hs0 & Hs1 & Hfit); [exact HM|lra|].
  rewrite Hs in Ht. eexists m, _. split; [exact Hm|]. split; [exact Ht|].
  apply bbox_spec in Hb.
  destruct Hb as [(Hx & Hy & Hz) (Hx' & Hy' & Hz')].
  set (M := py_max (vx hi - vx lo) (vy hi - vy lo)) in *.
  rewrite Hvs, map_map. split.
  - intros p Hp. apply in_map_iff in Hp. destruct Hp as (v & <- & Hv).
    rewrite vx_apply, vy_apply, vx_mk, vy_mk.
    cbn [scale offset_x offset_y].
    pose proof (proj1 Hx v Hv) as Hx1. pose proof (proj1 Hx' v Hv) as Hx2.
    pose proof (proj1 Hy v Hv) as Hy1. pose proof (proj1 Hy' v Hv) as Hy2.
    assert (0 <= s * (vx v - vx lo)) by (apply Qmult_le_0_compat; lra).
    assert (0 <= s * (vx hi - vx v)) by (apply Qmult_le_0_compat; lra).
    assert (0 <= s * (vy v - vy lo)) by (apply Qmult_le_0_compat; lra).
    assert (0 <= s * (vy hi - vy v)) by (apply Qmult_le_0_compat; lra).
    assert (0 <= s * (M - (vx hi - vx lo))) by (apply Qmult_le_0_compat; lra).
    assert (0 <= s * (M - (vy hi - vy lo))) by (apply Qmult_le_0_compat; lra).
    clearbody M. repeat split; lra_half.
  - split.
    + intros p Hp. apply in_map_iff in Hp. destruct Hp as (v & <- & Hv).
      rewrite vz_apply, vz_mk. cbn [scale offset_z].
      pose proof (proj1 Hz v Hv) as Hz1.
      assert (0 <= s * (vz v - vz lo)) by (apply Qmult_le_0_compat; lra).
      lra_half.
    + destruct Hz as [_ (v & Hv & Ev)].
      exists (apply_transform
                {| scale := s; offset_x := plate / 2; offset_y := plate / 2;
                   offset_z := (vz hi - vz lo) / 2 * s |}
                (vx v - (vx lo + vx hi) / 2, vy v - (vy lo + vy hi) / 2,
                 vz v - vz lo)).
      split.
      * apply in_map_iff. exists v. split; [reflexivity|exact Hv].
      * rewrite vz_apply, vz_mk. cbn [scale offset_z].
        assert (E : s * (vz v - vz lo) == 0) by (rewrite Ev; ring).
        lra_half.
Qed.

Lemma round6_cases (x : Q) :
  exists k : Z,
    round6 x = inject_Z k / 1000000
    /\ x * 1000000 - (1 # 2) <= inject_Z k
    /\ inject_Z k <= x * 1000000 + (1 # 2)
    /\ (Qfloor (x * 1000000) <= k)%Z
    /\ (k = Qfloor (x * 1000000)
        \/ (k = Qfloor (x * 1000000) + 1)%Z
           /\ inject_Z (Qfloor (x * 1000000)) + (1 # 2) <= x * 1000000).
Proof.
  unfold round6. set (y := x * 1000000). set (n := Qfloor y).
  pose proof (Qfloor_le y) as Hlo. pose proof (Qlt_floor y) as Hhi.
  fold n in Hlo, Hhi. rewrite inject_Z_plus in Hhi.
  change (inject_Z 1) with 1 in Hhi.
  destruct (Qcompare_spec (y - inject_Z n) (1 # 2)) as [E|E|E].
  - destruct (Z.even n).
    + exists n. split; [reflexivity|]. repeat split; try lra; [lia|now left].
    + exists (n + 1)%Z. split; [reflexivity|]. rewrite inject_Z_plus.
      change (inject_Z 1) with 1.
      repeat split; try lra; [lia|right; split; [reflexivity|lra]].
  - exists n. split; [reflexivity|]. repeat split; try lra; [lia|now left].
  - exists (n + 1)%Z. split; [reflexivity|]. rewrite inject_Z_plus.
    change (inject_Z 1) with 1.
    repeat split; try lra; [lia|right; split; [reflexivity|lra]].
Qed.

(** Linear arithmetic with millionths written as [1 # 1000000]. *)
Ltac lra_millionth :=
  unfold Qdiv in *; change (/ 1000000) with (1 # 1000000) in *; lra.

(** Rounding moves a number by at most half a millionth. *)
Lemma round6_close (x : Q) :
  - (1 # 2000000) <= round6 x - x /\ round6 x - x <= 1 # 2000000.
Proof.
  destruct (round6_cases x) as (k & -> & Hlo & Hhi & _). split; lra_millionth.
Qed.

Lemma round6_nonneg (x : Q) : 0 <= x -> 0 <= round6 x.
Proof.
  intros Hx. destruct (round6_cases x) as (k & -> & _ & _ & Hk & _).
  assert (H0 : (Qfloor (inject_Z 0) <= Qfloor (x * 1000000))%Z).
  { apply Qfloor_resp_le. change (inject_Z 0) with 0. lra. }
  rewrite Qfloor_Z in H0.
  assert (Hk0 : inject_Z 0 <= inject_Z k) by (rewrite <- Zle_Qle; lia).
  change (inject_Z 0) with 0 in Hk0. lra_millionth.
Qed.

Lemma round6_le_1 (x : Q) : x <= 1 -> round6 x <= 1.
Proof.
  intros Hx. destruct (round6_cases x) as (k & -> & _ & _ & _ & Hk).
  assert (Hn : (Qfloor (x * 1000000) <= Qfloor (inject_Z 1000000))%Z).
  { apply Qfloor_resp_le. change (inject_Z 1000000) with 1000000. lra. }
  rewrite Qfloor_Z in Hn.
  assert (Hk1 : (k <= 1000000)%Z).
  { destruct Hk as [->|[-> Hhalf]]; [exact Hn|].
    destruct (Z_lt_le_dec (Qfloor (x * 1000000)) 1000000) as [Hlt|Hge]; [lia|].
    rewrite Zle_Qle in Hge. change (inject_Z 1000000) with 1000000 in Hge. lra. }
  rewrite Zle_Qle in Hk1. change (inject_Z 1000000) with 1000000 in Hk1.
  lra_millionth.
Qed.

Lemma scale_str_spec (s : Q) :
  0 <= s -> s <= 1 ->
  0 <= scale_str s /\ scale_str s <= 1
  /\ - (1 # 2000000) <= scale_str s - s /\ scale_str s - s <= 1 # 2000000.
Proof.
  intros H0 H1. unfold scale_str. destruct (Qeq_bool s 1) eqn:E.
  - apply Qeq_bool_iff in E. repeat split; lra.
  - pose proof (round6_close s) as [? ?].
    repeat split; [now apply round6_nonneg|now apply round6_le_1|lra|lra].
Qed.

Example round6_scale : round6 (210 / 333) == 630631 # 1000000.
Proof. vm_compute. reflexivity. Qed.

Example round6_tie : round6 (1 / 128) == 7812 # 1000000.
Proof. vm_compute. reflexivity. Qed.

Lemma generate_3mf_model_xml_written (mesh : Trimesh) (plate : Q) lo hi :
  bounds mesh = Some (lo, hi) ->
  exists m, _generate_3mf_model_xml mesh plate = inr m
    /\ xml_vertices m =
         map (fun v => (vx v - (vx lo + vx hi) / 2,
                        vy v - (vy lo + vy hi) / 2,
                        vz v - vz lo)) (vertices mesh)
    /\ transform_matrix m =
         match fit_scale (py_max (vx hi - vx lo) (vy hi - vy lo)) (plate - 10) with
         | None => None
         | Some s => Some {| scale := s; offset_x := plate / 2;
                             offset_y := plate / 2;
                             offset_z := (vz hi - vz lo) / 2 * s |}
         end
    /\ transform_attribute m =
         match fit_scale (py_max (vx hi - vx lo) (vy hi - vy lo)) (plate - 10) with
         | None => None
         | Some s => Some {| scale := scale_str s; offset_x := plate / 2;
                             offset_y := plate / 2;
                             offset_z := (vz hi - vz lo) / 2 * s |}
         end.
Proof.
  intros Hb. unfold _generate_3mf_model_xml. rewrite Hb.
  eexists. split; [reflexivity|]. split; [reflexivity|]. split; reflexivity.
Qed.

(** Placement as the consumer sees it, with the scale that is written: on a
    plate of at least 10 mm every stored vertex lands, in X and Y, inside
    the plate with the 5 mm margin, up to a quarter of a millionth of the
    larger horizontal extent, while the lowest placed Z is half the height
    times the computed scale. *)
Lemma placement_written (mesh : Trimesh) (plate : Q) lo hi :
  bounds mesh = Some (lo, hi) -> 10 <= plate ->
  let maxDim := py_max (vx hi - vx lo) (vy hi - vy lo) in
  exists m t a,
    _generate_3mf_model_xml mesh plate = inr m
    /\ transform_matrix m = Some t
    /\ transform_attribute m = Some a
    /\ (forall v, In v (map (apply_transform a) (xml_vertices m)) ->
          5 - maxDim * (1 # 4000000) <= vx v
          /\ vx v <= plate - 5 + maxDim * (1 # 4000000)
          /\ 5 - maxDim * (1 # 4000000) <= vy v
          /\ vy v <= plate - 5 + maxDim * (1 # 4000000))
    /\ is_min vz (map (apply_transform a) (xml_vertices m))
               (scale t * ((vz hi - vz lo) / 2)).
Proof.
  intros Hb Hplate M.
  destruct (generate_3mf_model_xml_written mesh plate lo hi Hb)
    as (m & Hm & Hvs & Ht & Ha).
  destruct (bounds_extent_nonneg mesh lo hi Hb) as (HM & HwM & HdM & Hh).
  fold M in HM, HwM, HdM, Ht, Ha.
  destruct (fit_scale_fits M (plate - 10))
    as (s & Hs & Hs0 & Hs1 & Hfit); [exact HM|lra|].
  rewrite Hs in Ht, Ha. eexists m, _, _.
  split; [exact Hm|]. split; [exact Ht|]. split; [exact Ha|].
  destruct (scale_str_spec s Hs0 Hs1) as (HA0 & HA1 & HAlo & HAhi).
  set (A := scale_str s) in *.
  apply bbox_spec in Hb.
  destruct Hb as [(Hx & Hy & Hz) (Hx' & Hy' & Hz')].
  rewrite Hvs, map_map. split.
  - intros p Hp. apply in_map_iff in Hp. destruct Hp as (v & <- & Hv).
    rewrite vx_apply, vy_apply, vx_mk, vy_mk.
    cbn [scale offset_x offset_y].
    pose proof (proj1 Hx v Hv) as Hx1. pose proof (proj1 Hx' v Hv) as Hx2.
    pose proof (proj1 Hy v Hv) as Hy1. pose proof (proj1 Hy' v Hv) as Hy2.
    assert (0 <= A * (vx v - vx lo)) by (apply Qmult_le_0_compat; lra).
    assert (0 <= A * (vx hi - vx v)) by (apply Qmult_le_0_compat; lra).
    assert (0 <= A * (vy v - vy lo)) by (apply Qmult_le_0_compat; lra).
    assert (0 <= A * (vy hi - vy v)) by (apply Qmult_le_0_compat; lra).
    assert (0 <= (s + (1 # 2000000) - A) * (vx hi - vx lo))
      by (apply Qmult_le_0_compat; lra).
    assert (0 <= (s + (1 # 2000000) - A) * (vy hi - vy lo))
      by (apply Qmult_le_0_compat; lra).
    assert (0 <= s * (M - (vx hi - vx lo))) by (apply Qmult_le_0_compat; lra).
    assert (0 <= s * (M - (vy hi - vy lo))) by (apply Qmult_le_0_compat; lra).
    clearbody M A. repeat split; lra_half.
  - split.
    + intros p Hp. apply in_map_iff in Hp. destruct Hp as (v & <- & Hv).
      rewrite vz_apply, vz_mk. cbn [scale offset_z].
      pose proof (proj1 Hz v Hv) as Hz1.
      assert (0 <= A * (vz v - vz lo)) by (apply Qmult_le_0_compat; lra).
      clearbody A. lra_half.
    + destruct Hz as [_ (v & Hv & Ev)].
      exists (apply_transform
                {| scale := A; offset_x := plate / 2; offset_y := plate / 2;
                   offset_z := (vz hi - vz lo) / 2 * s |}
                (vx v - (vx lo + vx hi) / 2, vy v - (vy lo + vy hi) / 2,
                 vz v - vz lo)).
      split.
      * apply in_map_iff. exists v. split; [reflexivity|exact Hv].
      * rewrite vz_apply, vz_mk. cbn [scale offset_z].
        assert (E : A * (vz v - vz lo) == 0) by (rewrite Ev; ring).
        clearbody A. lra_half.
Qed.

(** X1: what a consumer gets from the written transform.  On a plate of at
    least 10 mm the bounding box of the stored geometry, placed by the
    transform of the build item, keeps the 5 mm margin in X and Y up to a
    quarter of a millionth of the larger horizontal extent (the scale is
    written with six decimals); for a mesh of at most 20 km across it
    therefore lies within the plate; and its lowest Z is half the height
    times the computed scale, which is not 0 for a mesh of positive height
    on a plate larger than 10 mm. *)
Lemma placed_bbox_general (mesh : Trimesh) (plate : Q) lo hi :
  bounds mesh = Some (lo, hi) -> 10 <= plate ->
  let maxDim := py_max (vx hi - vx lo) (vy hi - vy lo) in
  exists m t a plo phi,
    _generate_3mf_model_xml mesh plate = inr m
    /\ transform_matrix m = Some t
    /\ transform_attribute m = Some a
    /\ bbox (map (apply_transform a) (xml_vertices m)) = Some (plo, phi)
    /\ 5 - maxDim * (1 # 4000000) <= vx plo
    /\ vx phi <= plate - 5 + maxDim * (1 # 4000000)
    /\ 5 - maxDim * (1 # 4000000) <= vy plo
    /\ vy phi <= plate - 5 + maxDim * (1 # 4000000)
    /\ (maxDim <= 20000000 ->
        0 <= vx plo /\ vx phi <= plate /\ 0 <= vy plo /\ vy phi <= plate)
    /\ vz plo == scale t * ((vz hi - vz lo) / 2).
Proof.
  intros Hb Hplate M.
  destruct (placement_written mesh plate lo hi Hb Hplate)
    as (m & t & a & Hm & Ht & Ha & Hxy & Hz).
  fold M in Hxy.
  assert (Hne : map (apply_transform a) (xml_vertices m) <> []).
  { destruct Hz as [_ (v & Hv & _)]. intros E. rewrite E in Hv. exact Hv. }
  destruct (bbox_is_Some _ Hne) as (plo & phi & Hbb).
  exists m, t, a, plo, phi.
  split; [exact Hm|]. split; [exact Ht|]. split; [exact Ha|].
  split; [exact Hbb|].
  apply bbox_spec in Hbb.
  destruct Hbb as [(Px & Py & Pz) (Px' & Py' & Pz')].
  destruct Px as [_ (p1 & Hp1 & E1)]. destruct Py as [_ (p2 & Hp2 & E2)].
  destruct Px' as [_ (p3 & Hp3 & E3)]. destruct Py' as [_ (p4 & Hp4 & E4)].
  pose proof (Hxy p1 Hp1). pose proof (Hxy p2 Hp2).
  pose proof (Hxy p3 Hp3). pose proof (Hxy p4 Hp4).
  clearbody M.
  repeat split; try lra.
  exact (is_min_unique _ _ _ _ Pz Hz).
Qed.

Lemma placed_bbox_general_witness :
  exists m t a plo phi,
    _generate_3mf_model_xml (box 0 0 0 333 10 10) 220 = inr m
    /\ transform_matrix m = Some t
    /\ transform_attribute m = Some a
    /\ scale a == 630631 # 1000000
    /\ bbox (map (apply_transform a) (xml_vertices m)) = Some (plo, phi)
    /\ vx phi <= 220 - 5 + 333 * (1 # 4000000)
    /\ 0 <= vx plo /\ vx phi <= 220
    /\ vz plo == scale t * ((10 - 0) / 2).
Proof.
  destruct (placed_bbox_general (box 0 0 0 333 10 10) 220 (0, 0, 0)
              (333, 10, 10))
    as (m & t & a & plo & phi & Hm & Ht & Ha & Hbb & _ & Hx & _ & _ & Hin & Hz).
  - vm_compute. reflexivity.
  - vm_compute. discriminate.
  - exists m, t, a, plo, phi.
    split; [exact Hm|]. split; [exact Ht|]. split; [exact Ha|].
    split.
    { revert Ha. unfold _generate_3mf_model_xml in Hm. vm_compute in Hm.
      injection Hm as <-. vm_compute. intros [= <-]. reflexivity. }
    split; [exact Hbb|]. split.
    { assert (E : py_max (vx (333, 10, 10) - vx (0, 0, 0))
                    (vy (333, 10, 10) - vy (0, 0, 0)) == 333)
        by (vm_compute; reflexivity).
      rewrite E in Hx. exact Hx. }
    destruct Hin as (H1 & H2 & _).
    { vm_compute. discriminate. }
    split; [exact H1|]. split; [exact H2|exact Hz].
Defined.

(** C1 (evaluation of the code): for the 10 x 10 x 10 mm cube on a 220 mm
    plate the code returns scale 1 and the translation (110, 110, 5); the
    placed box spans 105..115 in X and Y and 5..15 in Z, so its lowest Z is
    5, not 0. *)
Theorem cube_placed_above_plate :
  exists m t plo phi,
    _generate_3mf_model_xml cube10 220 = inr m
    /\ transform_matrix m = Some t
    /\ scale t == 1 /\ offset_x t == 110 /\ offset_y t == 110
    /\ offset_z t == 5
    /\ placed_bbox m = Some (plo, phi)
    /\ vx plo == 105 /\ vx phi == 115
    /\ vy plo == 105 /\ vy phi == 115
    /\ vz plo == 5 /\ vz phi == 15.
Proof.
  do 4 eexists.
  split; [reflexivity|]. split; [reflexivity|].
  repeat split; vm_compute; reflexivity.
Qed.

(** The unused sibling routine does put the lowest Z of the cube at 0. *)
Lemma cube_sibling_on_plate :
  exists t plo phi,
    _calculate_build_plate_transform cube10 220 = inr (Some t)
    /\ bbox (map (apply_transform t) (vertices cube10)) = Some (plo, phi)
    /\ vx plo == 105 /\ vx phi == 115 /\ vy plo == 105 /\ vy phi == 115
    /\ vz plo == 0.
Proof.
  do 3 eexists. split; [reflexivity|]. split; [reflexivity|].
  repeat split; vm_compute; reflexivity.
Qed.



End PlacementFacts.

(** * Properties of the file-writing pipeline *)

Section PackagingFacts.

Import Py Packaging.
Local Open Scope py_scope.

Example sanitize_example :
  _sanitize_filename "models/my:benchy.v2.stl" = "my_benchy.v2".
Proof. reflexivity. Qed.

Example run_fine :
  let '(w, r) :=
    _generate_3mf_with_settings (H := Settings.no_containers) fine_env
      "benchy.stl" (VDict (GeminiAgent.fallback_profile ∅)) sample_analysis
      "benchy_20240101_120000" "PLA" "elegoo_orca" 220 empty_world in
  r = inr "generated_profiles/benchy_20240101_120000.3mf"
  /\ temp_dirs w = ∅
  /\ archives w !! "generated_profiles/benchy_20240101_120000.3mf"
     = Some [ "[Content_Types].xml"; "3D/3dmodel.model";
              "3D/Objects/Object_1_1.model"; "3D/_rels/3dmodel.model.rels";
              "_rels/.rels"; "Metadata/project_settings.config";
              "Metadata/model_settings.config"; "Metadata/plate_1.json";
              "Metadata/slice_info.config"; "Metadata/plate_1_small.png";
              "Metadata/plate_1.png"; "Metadata/plate_no_light_1.png";
              "Metadata/top_1.png"; "Metadata/pick_1.png" ].
Proof. vm_compute. repeat split; reflexivity. Qed.

Lemma keeps_ret {A} (a : A) : keeps (ret a).
Proof. intros w w' r [= <- <-]. repeat split; congruence. Qed.

Lemma keeps_raise {A} st ex : st <> ArchiveWrite -> keeps (@raise A st ex).
Proof. intros Hst w w' r [= <- <-]. repeat split; congruence. Qed.

Lemma keeps_lift {A} st (x : exn + A) : st <> ArchiveWrite -> keeps (lift st x).
Proof.
  intros Hst. destruct x; simpl; [now apply keeps_raise|apply keeps_ret].
Qed.

Lemma keeps_bind {A B} (m : M A) (k : A -> M B) :
  keeps m -> (forall a, keeps (k a)) -> keeps (bind m k).
Proof.
  intros Hm Hk w w' r. unfold bind.
  destruct (m w) as [w1 [f|a]] eqn:E.
  - intros [= <- <-]. destruct (Hm _ _ _ E) as (Ha & Hd & Hf).
    repeat split; [exact Ha|exact Hd|].
    intros st ex [= ->]. exact (Hf st ex eq_refl).
  - intros Ek. destruct (Hm _ _ _ E) as (Ha & Hd & _).
    destruct (Hk a _ _ _ Ek) as (Ha' & Hd' & Hf).
    repeat split; [congruence|congruence|exact Hf].
Qed.

Lemma keeps_try_except {A} (m : M A) (h : failure -> M A) :
  keeps m -> (forall f, keeps (h f)) -> keeps (try_except m h).
Proof.
  intros Hm Hh w w' r. unfold try_except.
  destruct (m w) as [w1 [f|a]] eqn:E.
  - intros Eh. destruct (Hm _ _ _ E) as (Ha & Hd & _).
    destruct (Hh f _ _ _ Eh) as (Ha' & Hd' & Hf).
    repeat split; [congruence|congruence|exact Hf].
  - intros [= <- <-]. exact (Hm _ _ _ E).
Qed.

Lemma keeps_makedirs_temp e st d : st <> ArchiveWrite -> keeps (makedirs_temp e st d).
Proof.
  intros Hst w w' r. unfold makedirs_temp.
  destruct (can_mkdir e d); intros [= <- <-]; repeat split; congruence.
Qed.

Lemma keeps_makedirs_sub e st d : st <> ArchiveWrite -> keeps (makedirs_sub e st d).
Proof.
  intros Hst. unfold makedirs_sub.
  destruct (can_mkdir e d); [apply keeps_ret|now apply keeps_raise].
Qed.

Lemma keeps_write_part e st d name :
  st <> ArchiveWrite -> keeps (write_part e st d name).
Proof.
  intros Hst w w' r. unfold write_part.
  destruct (temp_dirs w !! d); [destruct (can_write e _)|];
    intros [= <- <-]; repeat split; congruence.
Qed.

Lemma keeps_save_thumbnails e d names : keeps (save_thumbnails e d names).
Proof.
  induction names as [|name rest IH]; simpl.
  - apply keeps_ret.
  - apply keeps_try_except.
    + apply keeps_bind; [now apply keeps_write_part|intros _; exact IH].
    + intros _. apply keeps_ret.
Qed.

Lemma keeps_create_dummy_thumbnails e d : keeps (_create_dummy_thumbnails e d).
Proof.
  unfold _create_dummy_thumbnails.
  destruct (pil_available e); [apply keeps_save_thumbnails|apply keeps_ret].
Qed.

Lemma keeps_guarded {A} (m : M A) : keeps m -> guarded m.
Proof.
  intros Hm w w' r E. destruct (Hm _ _ _ E) as (Ha & Hd & _). split; auto.
Qed.

Lemma guarded_bind {A B} (m : M A) (k : A -> M B) :
  keeps m -> (forall a, guarded (k a)) -> guarded (bind m k).
Proof.
  intros Hm Hk w w' r. unfold bind.
  destruct (m w) as [w1 [f|a]] eqn:E.
  - intros [= <- <-]. destruct (Hm _ _ _ E) as (Ha & Hd & _). split; auto.
  - intros Ek. destruct (Hm _ _ _ E) as (Ha & Hd & _).
    destruct (Hk a _ _ _ Ek) as (Hd' & Hf).
    split; [congruence|]. intros st ex Hr Hst. rewrite (Hf st ex Hr Hst).
    exact Ha.
Qed.

Lemma zip_entries_spec e out names :
  forall w w' r, zip_entries e out names w = (w', r) ->
    documents w' = documents w /\ temp_dirs w' = temp_dirs w
    /\ (forall st ex, r = inl (st, ex) -> st = ArchiveWrite).
Proof.
  induction names as [|name rest IH]; simpl; intros w w' r.
  - intros [= <- <-]. repeat split; congruence.
  - destruct (can_add_entry e out name).
    + intros E. destruct (IH _ _ _ E) as (Hd & Ht & Hf).
      repeat split; [exact Hd|exact Ht|exact Hf].
    + intros [= <- <-]. repeat split; congruence.
Qed.

Lemma write_archive_spec e out d :
  forall w w' r, write_archive e out d w = (w', r) ->
    documents w' = documents w /\ temp_dirs w' = temp_dirs w
    /\ (forall st ex, r = inl (st, ex) -> st = ArchiveWrite).
Proof.
  intros w w' r. unfold write_archive. destruct (can_open_zip e out).
  - intros E. destruct (zip_entries_spec _ _ _ _ _ _ E) as (Hd & Ht & Hf).
    repeat split; assumption.
  - intros [= <- <-]. repeat split; congruence.
Qed.

Lemma guarded_write_archive_then {A} e out d (a : A) :
  guarded (bind (write_archive e out d) (fun _ => ret a)).
Proof.
  intros w w' r. unfold bind.
  destruct (write_archive e out d w) as [w1 [f|u]] eqn:E;
    destruct (write_archive_spec _ _ _ _ _ _ E) as (Hd & _ & Hf).
  - intros [= <- <-]. split; [exact Hd|].
    intros st ex [= ->] Hst. destruct Hst. exact (Hf _ _ eq_refl).
  - intros [= <- <-]. split; [exact Hd|]. intros st ex [=].
Qed.

Lemma cleanup_spec e d :
  forall w w' r, cleanup e d w = (w', r) ->
    r = inr tt /\ archives w' = archives w /\ documents w' = documents w
    /\ (can_rmtree e d = true -> temp_dirs w' !! d = None).
Proof.
  intros w w' r. unfold cleanup.
  destruct (temp_dirs w !! d) eqn:Ed; [destruct (can_rmtree e d) eqn:Er|];
    intros [= <- <-]; repeat split; simpl; try congruence.
  intros _. apply lookup_delete_eq.
Qed.

Section WithContainerRepr.

Context `{ContainerRepr}.

Lemma keeps_elegoo_metadata e d profile analysis material :
  keeps (elegoo_metadata e d profile analysis material).
Proof.
  unfold elegoo_metadata.
  apply keeps_bind; [now apply keeps_lift|intros p].
  repeat (apply keeps_bind; [now apply keeps_write_part|intros _]).
  apply keeps_create_dummy_thumbnails.
Qed.

Lemma keeps_orca_metadata e d profile analysis material slicer_type :
  keeps (orca_metadata e d profile analysis material slicer_type).
Proof.
  unfold orca_metadata.
  apply keeps_bind; [now apply keeps_lift|intros p].
  repeat (apply keeps_bind; [now apply keeps_write_part|intros _]).
  now apply keeps_write_part.
Qed.

Lemma guarded_assemble_3mf e out d model_path profile analysis material
    slicer_type plate :
  guarded (assemble_3mf e out d model_path profile analysis material
             slicer_type plate).
Proof.
  unfold assemble_3mf.
  apply guarded_bind; [now apply keeps_makedirs_temp|intros _].
  apply guarded_bind.
  { destruct (load e model_path); [apply keeps_ret|now apply keeps_raise]. }
  intros mesh.
  apply guarded_bind; [now apply keeps_makedirs_sub|intros _].
  apply guarded_bind; [now apply keeps_lift|intros model].
  apply guarded_bind.
  { destruct (String.eqb slicer_type "elegoo_orca").
    - repeat (apply keeps_bind;
              [first [now apply keeps_write_part|now apply keeps_makedirs_sub]
              |intros _]).
      now apply keeps_write_part.
    - now apply keeps_write_part. }
  intros _.
  apply guarded_bind; [now apply keeps_write_part|intros _].
  apply guarded_bind; [now apply keeps_makedirs_sub|intros _].
  apply guarded_bind; [now apply keeps_write_part|intros _].
  apply guarded_bind; [now apply keeps_makedirs_sub|intros _].
  apply guarded_bind.
  { destruct (String.eqb slicer_type "elegoo_orca");
      [apply keeps_elegoo_metadata|apply keeps_orca_metadata]. }
  intros _. apply guarded_write_archive_then.
Qed.

(** C7, as amended: a run that fails before the archive stage (working
    directory, model load, XML generation, part and metadata writing) leaves
    the archives as they were, so nothing is written at the target path; the
    plain files are never touched; and on every exit path the working
    directory is gone whenever its removal succeeds. *)
Theorem failed_assembly_effects
    (e : env) (model_path : string) (profile : value)
    (analysis : gmap string value)
    (base_filename material slicer_type : string) (build_plate_size : Q)
    (w w' : world) (r : failure + string) :
  _generate_3mf_with_settings e model_path profile analysis base_filename
    material slicer_type build_plate_size w = (w', r) ->
  (forall st ex, r = inl (st, ex) -> st <> ArchiveWrite ->
     archives w' = archives w)
  /\ documents w' = documents w
  /\ (can_rmtree e (path_join output_dir ("temp_" ++ base_filename)) = true ->
      temp_dirs w' !! path_join output_dir ("temp_" ++ base_filename) = None).
Proof.
  unfold _generate_3mf_with_settings, try_finally.
  destruct (assemble_3mf _ _ _ _ _ _ _ _ _ w) as [w1 r1] eqn:Ebody.
  destruct (cleanup _ _ w1) as [w2 r2] eqn:Efin.
  destruct (guarded_assemble_3mf _ _ _ _ _ _ _ _ _ _ _ _ Ebody) as (Hd & Ha).
  destruct (cleanup_spec _ _ _ _ _ Efin) as (-> & Ha2 & Hd2 & Ht).
  intros [= <- <-]. split; [|split].
  - intros st ex Hr Hst. rewrite Ha2. exact (Ha st ex Hr Hst).
  - congruence.
  - exact Ht.
Qed.

End WithContainerRepr.

Lemma failed_assembly_effects_witness :
  exists w',
    _generate_3mf_with_settings (H := Settings.no_containers)
      unreadable_model_env "benchy.stl"
      (VDict (GeminiAgent.fallback_profile ∅)) sample_analysis
      "benchy_20240101_120000" "PLA" "elegoo_orca" 220 empty_world
    = (w', inl (ModelLoad, LoadError))
    /\ archives w' = archives empty_world
    /\ documents w' = documents empty_world
    /\ temp_dirs w' !! "generated_profiles/temp_benchy_20240101_120000" = None.
Proof.
  eexists. split; [vm_compute; reflexivity|].
  edestruct (failed_assembly_effects (H := Settings.no_containers)
               unreadable_model_env "benchy.stl"
               (VDict (GeminiAgent.fallback_profile ∅)) sample_analysis
               "benchy_20240101_120000" "PLA" "elegoo_orca" 220 empty_world)
    as (Ha & Hd & Ht); [vm_compute; reflexivity|].
  split; [|split].
  - apply (Ha ModelLoad LoadError eq_refl). discriminate.
  - exact Hd.
  - apply Ht. reflexivity.
Defined.

(** C7, as stated, fails: when the archive cannot take its second entry the
    run fails and leaves an archive with one entry at the target path; and
    when the working directory cannot be removed it stays. *)
Lemma partial_archive_and_temp_dir_left :
  ~ leaves_no_partial_archive (H := Settings.no_containers)
  /\ ~ always_removes_temp_dir (H := Settings.no_containers).
Proof.
  split.
  - intros Hclaim.
    assert (Hrun :
      exists w', _generate_3mf_with_settings (H := Settings.no_containers)
        disk_full_env "benchy.stl" (VDict (GeminiAgent.fallback_profile ∅))
        sample_analysis "benchy_20240101_120000" "PLA" "elegoo_orca" 220
        empty_world = (w', inl (ArchiveWrite, OSError))
        /\ archives w' !! "generated_profiles/benchy_20240101_120000.3mf"
           = Some ["[Content_Types].xml"]).
    { eexists. split; vm_compute; reflexivity. }
    destruct Hrun as (w' & Hrun & Hleft).
    specialize (Hclaim _ _ _ _ _ _ _ _ _ _ _ Hrun eq_refl).
    change (path_join output_dir ("benchy_20240101_120000" ++ ".3mf"))
      with "generated_profiles/benchy_20240101_120000.3mf" in Hclaim.
    congruence.
  - intros Hclaim.
    assert (Hrun :
      exists w' r, _generate_3mf_with_settings (H := Settings.no_containers)
        locked_env "benchy.stl" (VDict (GeminiAgent.fallback_profile ∅))
        sample_analysis "benchy_20240101_120000" "PLA" "elegoo_orca" 220
        empty_world = (w', r)
        /\ is_Some (temp_dirs w' !! "generated_profiles/temp_benchy_20240101_120000")).
    { do 2 eexists. split; [vm_compute; reflexivity|]. vm_compute. eauto. }
    destruct Hrun as (w' & r & Hrun & Hleft).
    specialize (Hclaim _ _ _ _ _ _ _ _ _ _ _ Hrun).
    change (path_join output_dir ("temp_" ++ "benchy_20240101_120000"))
      with "generated_profiles/temp_benchy_20240101_120000" in Hclaim.
    rewrite Hclaim in Hleft. destruct Hleft as [? [=]].
Qed.

Section WithContainerRepr.

Context `{ContainerRepr}.

Lemma fails_in_ret P {A} (a : A) : fails_in P (ret a).
Proof. intros w w' st ex [=]. Qed.

Lemma fails_in_lift (P : stage -> Prop) {A} st (x : exn + A) :
  P st -> fails_in P (lift st x).
Proof.
  intros HP w w' st' ex. destruct x; simpl; unfold raise, ret; intros [=].
  subst. exact HP.
Qed.

Lemma fails_in_write_document (P : stage -> Prop) e st path :
  P st -> fails_in P (write_document e st path).
Proof.
  intros HP w w' st' ex. unfold write_document.
  destruct (can_write e path); intros [=]. subst. exact HP.
Qed.

Lemma fails_in_bind P {A B} (m : M A) (k : A -> M B) :
  fails_in P m -> (forall a, fails_in P (k a)) -> fails_in P (bind m k).
Proof.
  intros Hm Hk w w' st ex. unfold bind.
  destruct (m w) as [w1 [[st1 ex1]|a]] eqn:E.
  - intros [= <- <- <-]. exact (Hm _ _ _ _ E).
  - apply Hk.
Qed.

Lemma bind_ok {A B} (m : M A) (k : A -> M B) w w1 a :
  m w = (w1, inr a) -> bind m k w = k a w1.
Proof. intros E. unfold bind. rewrite E. reflexivity. Qed.

Lemma write_document_ok e st path w :
  can_write e path = true ->
  write_document e st path w = (add_document path w, inr tt).
Proof. intros E. unfold write_document. rewrite E. reflexivity. Qed.

Lemma generate_json_config_ok e p analysis base material slicer_type w :
  can_write e (path_join output_dir (base ++ "_config.json")) = true ->
  _generate_json_config e (VDict p) analysis base material slicer_type w
  = (add_document (path_join output_dir (base ++ "_config.json")) w,
     inr (path_join output_dir (base ++ "_config.json"))).
Proof.
  intros E. unfold _generate_json_config. simpl lift.
  erewrite bind_ok by reflexivity.
  erewrite bind_ok by (apply write_document_ok; exact E). reflexivity.
Qed.

Lemma generate_json_profile_ok e p analysis base material w :
  can_write e (path_join output_dir (base ++ ".json")) = true ->
  _generate_json_profile e (VDict p) analysis base material w
  = (add_document (path_join output_dir (base ++ ".json")) w,
     inr (path_join output_dir (base ++ ".json"))).
Proof.
  intros E. unfold _generate_json_profile. simpl lift.
  erewrite bind_ok by reflexivity.
  erewrite bind_ok by (apply write_document_ok; exact E). reflexivity.
Qed.

Lemma generate_summary_ok e analysis base w :
  summary_lines analysis = inr tt ->
  can_write e (path_join output_dir (base ++ "_summary.txt")) = true ->
  _generate_summary e analysis base w
  = (add_document (path_join output_dir (base ++ "_summary.txt")) w,
     inr (path_join output_dir (base ++ "_summary.txt"))).
Proof.
  intros Hs E. unfold summary_lines in Hs.
  destruct (summary_sections analysis) as [x|[]] eqn:Hsec; [discriminate|].
  unfold _generate_summary. rewrite Hsec, Hs. simpl lift.
  erewrite bind_ok by reflexivity.
  erewrite bind_ok by (apply write_document_ok; exact E). reflexivity.
Qed.

(** When the three simpler generators fail, the failure carries their own
    stage. *)
Lemma finish_profile_failure e profile_data analysis base material slicer_type
    three_mf_path w w' st ex :
  finish_profile e profile_data analysis base material slicer_type
    three_mf_path w = (w', inl (st, ex)) ->
  st = JsonConfig \/ st = JsonProfile \/ st = Summary.
Proof.
  revert w w' st ex.
  change (fails_in (fun st => st = JsonConfig \/ st = JsonProfile \/ st = Summary)
            (finish_profile e profile_data analysis base material slicer_type
               three_mf_path)).
  unfold finish_profile, _generate_json_config, _generate_json_profile,
    _generate_summary.
  repeat first
    [ apply fails_in_ret
    | apply fails_in_lift; auto
    | apply fails_in_write_document; auto
    | apply fails_in_bind; [|intros ?] ].
Qed.

(** When nothing stands in their way, the three simpler generators write
    their files and the result has no 3MF entry. *)
Lemma finish_profile_success e profile_data analysis base material slicer_type
    p w :
  profile_data = VDict p ->
  summary_lines analysis = inr tt ->
  can_write e (path_join output_dir (base ++ "_config.json")) = true ->
  can_write e (path_join output_dir (base ++ ".json")) = true ->
  can_write e (path_join output_dir (base ++ "_summary.txt")) = true ->
  exists w',
    finish_profile e profile_data analysis base material slicer_type None w
    = (w', inr (list_to_map
         [ ("json_config", path_join output_dir (base ++ "_config.json"));
           ("json_profile", path_join output_dir (base ++ ".json"));
           ("summary", path_join output_dir (base ++ "_summary.txt"));
           ("base_name", base) ]))
    /\ path_join output_dir (base ++ "_config.json") ∈ documents w'
    /\ path_join output_dir (base ++ ".json") ∈ documents w'
    /\ path_join output_dir (base ++ "_summary.txt") ∈ documents w'.
Proof.
  intros -> Hsum Hc1 Hc2 Hc3. unfold finish_profile.
  erewrite bind_ok by (apply generate_json_config_ok; exact Hc1).
  erewrite bind_ok by (apply generate_json_profile_ok; exact Hc2).
  erewrite bind_ok by (apply generate_summary_ok; [exact Hsum|exact Hc3]).
  eexists. split; [reflexivity|]. unfold add_document. simpl. set_solver.
Qed.

(** C8: when the 3MF step fails, [generate_profile] goes on as if no model
    had been given, from the disk the failed step left: the failure is not
    propagated (a failure of [generate_profile] can only come from the
    three simpler generators), and when those succeed the result holds the
    JSON config, the JSON profile, the summary and the base name, whose
    files exist, and has no ["3mf_profile"] entry. *)
Theorem threemf_failure_is_isolated
    (e : env) (analysis : gmap string value)
    (model_name material path slicer_type : string) (build_plate_size : Q)
    (w w1 : world) (f : failure) :
  let profile_data := get analysis "profile" (VDict ∅) in
  let base := (_sanitize_filename model_name ++ "_" ++ now e)%string in
  model_available e (Some path) = true ->
  _generate_3mf_with_settings e path profile_data analysis base material
    slicer_type build_plate_size w = (w1, inl f) ->
  generate_profile e analysis model_name material (Some path) slicer_type
    build_plate_size w
  = finish_profile e profile_data analysis base material slicer_type None w1
  /\ (forall w2 st ex,
        generate_profile e analysis model_name material (Some path)
          slicer_type build_plate_size w = (w2, inl (st, ex)) ->
        st = JsonConfig \/ st = JsonProfile \/ st = Summary)
  /\ ((exists p, profile_data = VDict p) ->
      summary_lines analysis = inr tt ->
      can_write e (path_join output_dir (base ++ "_config.json")) = true ->
      can_write e (path_join output_dir (base ++ ".json")) = true ->
      can_write e (path_join output_dir (base ++ "_summary.txt")) = true ->
      exists w2 result,
        generate_profile e analysis model_name material (Some path)
          slicer_type build_plate_size w = (w2, inr result)
        /\ result !! "json_config"
           = Some (path_join output_dir (base ++ "_config.json"))
        /\ result !! "json_profile"
           = Some (path_join output_dir (base ++ ".json"))
        /\ result !! "summary"
           = Some (path_join output_dir (base ++ "_summary.txt"))
        /\ result !! "base_name" = Some base
        /\ result !! "3mf_profile" = None
        /\ path_join output_dir (base ++ "_config.json") ∈ documents w2
        /\ path_join output_dir (base ++ ".json") ∈ documents w2
        /\ path_join output_dir (base ++ "_summary.txt") ∈ documents w2).
Proof.
  intros profile_data base Havail Hfail.
  assert (Hgen :
    generate_profile e analysis model_name material (Some path) slicer_type
      build_plate_size w
    = finish_profile e profile_data analysis base material slicer_type None w1).
  { unfold generate_profile. rewrite Havail.
    unfold bind at 1. unfold try_except, bind at 1.
    fold profile_data. fold base. rewrite Hfail. reflexivity. }
  split; [exact Hgen|]. split.
  - intros w2 st ex. rewrite Hgen. apply finish_profile_failure.
  - intros [p Hp] Hsum Hc1 Hc2 Hc3. rewrite Hgen.
    destruct (finish_profile_success e profile_data analysis base material
                slicer_type p w1 Hp Hsum Hc1 Hc2 Hc3)
      as (w2 & Hrun & Hd1 & Hd2 & Hd3).
    exists w2. eexists. split; [exact Hrun|].
    repeat split; try assumption; reflexivity.
Qed.

End WithContainerRepr.

Lemma threemf_failure_is_isolated_witness :
  exists w2 result,
    generate_profile (H := Settings.no_containers) unreadable_model_env
      sample_analysis "models/benchy.stl" "PLA" (Some "models/benchy.stl")
      "elegoo_orca" 220 empty_world = (w2, inr result)
    /\ result !! "json_config"
       = Some "generated_profiles/benchy_20240101_120000_config.json"
    /\ result !! "3mf_profile" = None
    /\ "generated_profiles/benchy_20240101_120000_summary.txt" ∈ documents w2.
Proof.
  destruct (threemf_failure_is_isolated (H := Settings.no_containers)
              unreadable_model_env sample_analysis "models/benchy.stl" "PLA"
              "models/benchy.stl" "elegoo_orca" 220 empty_world empty_world
              (ModelLoad, LoadError) eq_refl)
    as (_ & _ & Hok).
  { vm_compute. reflexivity. }
  destruct Hok as (w2 & result & Hrun & Hcfg & _ & _ & _ & Hno & _ & _ & Hsum);
    try reflexivity.
  { eexists. reflexivity. }
  exists w2, result. repeat split; assumption.
Defined.

(** The 3MF step can fail for a reason that makes the other generators fail
    as well: with a profile that is a list the settings cannot be read from
    it, so the 3MF step raises [AttributeError] while it writes the
    metadata, and so does [_generate_json_config], whose exception
    [generate_profile] lets through: nothing is returned. *)
Lemma threemf_and_profile_generation_fail :
  _generate_3mf_with_settings (H := Settings.no_containers) fine_env
    "models/benchy.stl" (VList [VInt 1]) list_profile_analysis
    "benchy_20240101_120000" "PLA" "elegoo_orca" 220 empty_world
  = (empty_world, inl (MetadataWrite, AttributeError))
  /\ generate_profile (H := Settings.no_containers) fine_env
       list_profile_analysis "models/benchy.stl" "PLA"
       (Some "models/benchy.stl") "elegoo_orca" 220 empty_world
     = (empty_world, inl (JsonConfig, AttributeError)).
Proof. split; vm_compute; reflexivity. Qed.

End PackagingFacts.

(** * Properties of the fallback analysis and of the settings documents *)

Section SettingsFacts.

Import Py GeminiAgent Settings SettingsLogic.

Example strip_example : strip "  [1, 2]
" = "[1, 2]".
Proof. reflexivity. Qed.

Example extract_fenced :
  extract_json_text "Here you go: ```json {} ``` bye" = "{}".
Proof. reflexivity. Qed.

Example extract_single_fence : extract_json_text "```json {}" = "".
Proof. reflexivity. Qed.

Example lower_contains : contains "tree" (lower "Tree_Auto") = true.
Proof. reflexivity. Qed.

Lemma fallback_profile_support (overhangs : gmap string value) :
  fallback_profile overhangs !! "support_material"
    = Some (get overhangs "needs_supports" (VBool false))
  /\ fallback_profile overhangs !! "support_type"
    = Some (VStr (if truthy (get overhangs "recommend_tree_support" (VBool false))
                  then "tree_auto" else "normal"))
  /\ fallback_profile overhangs !! "support_style"
    = Some (VStr (if truthy (get overhangs "recommend_tree_support" (VBool false))
                  then "tree" else "default")).
Proof.
  unfold fallback_profile.
  destruct (truthy (get overhangs "recommend_tree_support" (VBool false)));
    repeat split; reflexivity.
Qed.

Lemma fallback_returns (features : gmap string value) (raw : string)
    (complexity overhangs : gmap string value) :
  get_dict features "complexity" = Some complexity ->
  get_dict features "overhangs" = Some overhangs ->
  exists a, _generate_fallback_analysis features raw = inr (VDict a)
    /\ a !! "source" = Some (VStr "fallback")
    /\ a !! "profile" = Some (VDict (fallback_profile overhangs)).
Proof.
  intros Hc Ho. unfold _generate_fallback_analysis. rewrite Hc, Ho.
  eexists. split; [reflexivity|]. split; reflexivity.
Qed.

(** C9: a reply that [json.loads] does not parse.  When [json.loads]
    raises [JSONDecodeError], parsing returns the rule-based fallback built
    from the features instead of raising: its [support_material] is the
    features' [needs_supports] flag, and its support type and style are the
    tree variants exactly when the features' [recommend_tree_support] flag
    is true.  When [json.loads] raises another exception ([RecursionError]
    for a reply nested beyond the recursion limit, [ValueError] for an
    integer literal beyond the digit limit), nothing catches it in
    [_parse_analysis_response] and [analyze_features] raises
    [RuntimeError]: the caller gets no fallback. *)
Theorem unparseable_reply_outcomes
    (json_loads : string -> exn + value) (response_text : string)
    (features complexity overhangs : gmap string value) (x : exn) :
  json_loads (extract_json_text response_text) = inl x ->
  get_dict features "complexity" = Some complexity ->
  get_dict features "overhangs" = Some overhangs ->
  let needs := get overhangs "needs_supports" (VBool false) in
  let tree := truthy (get overhangs "recommend_tree_support" (VBool false)) in
  (x = JSONDecodeError ->
   exists a profile,
     _parse_analysis_response json_loads response_text features = inr (VDict a)
     /\ analyze_features json_loads (inr response_text) features = inr (VDict a)
     /\ _generate_fallback_analysis features (extract_json_text response_text)
        = inr (VDict a)
     /\ a !! "source" = Some (VStr "fallback")
     /\ a !! "profile" = Some (VDict profile)
     /\ profile !! "support_material" = Some needs
     /\ profile !! "support_type"
        = Some (VStr (if tree then "tree_auto" else "normal"))
     /\ profile !! "support_style"
        = Some (VStr (if tree then "tree" else "default")))
  /\ (x <> JSONDecodeError ->
      _parse_analysis_response json_loads response_text features = inl x
      /\ analyze_features json_loads (inr response_text) features
         = inl RuntimeError).
Proof.
  intros Hjson Hc Ho needs tree. split.
  - intros ->.
    destruct (fallback_returns features (extract_json_text response_text)
                complexity overhangs Hc Ho) as (a & Ha & Hsrc & Hprof).
    destruct (fallback_profile_support overhangs) as (Hm & Ht & Hs).
    assert (Hparse : _parse_analysis_response json_loads response_text features
                     = inr (VDict a)).
    { unfold _parse_analysis_response. rewrite Hjson. exact Ha. }
    exists a, (fallback_profile overhangs).
    split; [exact Hparse|].
    split; [unfold analyze_features; rewrite Hparse; reflexivity|].
    repeat split; assumption.
  - intros Hx.
    assert (Hparse : _parse_analysis_response json_loads response_text features
                     = inl x).
    { unfold _parse_analysis_response. rewrite Hjson.
      destruct x; try reflexivity. now destruct Hx. }
    split; [exact Hparse|].
    unfold analyze_features. now rewrite Hparse.
Qed.

Lemma unparseable_reply_outcomes_witness :
  (exists a profile,
     _parse_analysis_response (fun _ => inl JSONDecodeError)
       "Sorry, I cannot help." features_needing_tree = inr (VDict a)
     /\ a !! "source" = Some (VStr "fallback")
     /\ a !! "profile" = Some (VDict profile)
     /\ profile !! "support_material" = Some (VBool true)
     /\ profile !! "support_type" = Some (VStr "tree_auto")
     /\ profile !! "support_style" = Some (VStr "tree"))
  /\ _parse_analysis_response loads_beyond_recursion_limit "[[[[[[[["
       features_needing_tree = inl RecursionError
  /\ analyze_features loads_beyond_recursion_limit (inr "[[[[[[[[")
       features_needing_tree = inl RuntimeError.
Proof.
  split.
  - destruct (proj1 (unparseable_reply_outcomes (fun _ => inl JSONDecodeError)
                "Sorry, I cannot help." features_needing_tree
                (list_to_map [ ("detail_level", VStr "high") ])
                (list_to_map [ ("needs_supports", VBool true);
                               ("recommend_tree_support", VBool true) ])
                JSONDecodeError eq_refl eq_refl eq_refl) eq_refl)
      as (a & profile & H1 & _ & _ & H2 & H3 & H4 & H5 & H6).
    exists a, profile. repeat split; assumption.
  - apply (proj2 (unparseable_reply_outcomes loads_beyond_recursion_limit
                    "[[[[[[[[" features_needing_tree
                    (list_to_map [ ("detail_level", VStr "high") ])
                    (list_to_map [ ("needs_supports", VBool true);
                                   ("recommend_tree_support", VBool true) ])
                    RecursionError eq_refl eq_refl eq_refl)).
    discriminate.
Defined.

Lemma list_to_map_is_Some {A} (l : list (string * A)) (k : string) :
  is_Some ((list_to_map l : gmap string A) !! k) <-> k ∈ l.*1.
Proof.
  rewrite <- elem_of_dom, dom_list_to_map_L, elem_of_list_to_set. reflexivity.
Qed.

Section WithContainerRepr.

Context `{ContainerRepr}.

Lemma ai_settings_base_support (profile : gmap string value) (material : string) :
  ai_settings_base profile material !! "support_style" = Some (VStr "default")
  /\ ai_settings_base profile material !! "support_type"
     = Some (VStr (if is_tree profile then "tree(auto)" else "normal(auto)")).
Proof.
  unfold ai_settings_base. destruct (is_tree profile); split; reflexivity.
Qed.

Lemma ai_settings_tree_support (profile : gmap string value) :
  ai_settings_tree profile !! "support_style" = None
  /\ ai_settings_tree profile !! "support_type" = None.
Proof. split; reflexivity. Qed.

Lemma ai_settings_base_keys (profile : gmap string value) (material k : string) :
  is_Some (ai_settings_base profile material !! k) <-> k ∈ elegoo_base_keys.
Proof. unfold ai_settings_base. rewrite list_to_map_is_Some. reflexivity. Qed.

Lemma ai_settings_tree_keys (profile : gmap string value) (k : string) :
  is_Some (ai_settings_tree profile !! k) <-> k ∈ elegoo_tree_keys.
Proof. unfold ai_settings_tree. rewrite list_to_map_is_Some. reflexivity. Qed.

Lemma is_tree_selected (profile : gmap string value) :
  is_tree profile = true <-> tree_selected profile.
Proof.
  unfold is_tree, tree_selected. rewrite orb_true_iff.
  assert (E : eq_str (profile !! "support_style") "tree" = true
              <-> profile !! "support_style" = Some (VStr "tree")).
  { unfold eq_str. destruct (profile !! "support_style") as [[| | | |s| |]|];
      try (split; [discriminate|intros [=]]).
    rewrite String.eqb_eq. split; [now intros ->|now intros [= ->]]. }
  now rewrite E.
Qed.

Lemma same_but_selection_get (p p' : gmap string value) (k : string) (d : value) :
  same_but_selection p p' -> k <> "support_style" -> k <> "support_type" ->
  get p k d = get p' k d.
Proof. intros Hs H1 H2. unfold get. now rewrite (Hs k H1 H2). Qed.

Lemma ai_settings_base_same (p p' : gmap string value) (material k : string) :
  same_but_selection p p' -> k <> "support_type" ->
  ai_settings_base p material !! k = ai_settings_base p' material !! k.
Proof.
  intros Hs Hk.
  rewrite <- (lookup_delete_ne (ai_settings_base p material) "support_type" k)
    by congruence.
  rewrite <- (lookup_delete_ne (ai_settings_base p' material) "support_type" k)
    by congruence.
  f_equal. unfold ai_settings_base, str_of.
  rewrite !(same_but_selection_get p p' _ _ Hs) by discriminate.
  destruct (is_tree p), (is_tree p'); reflexivity.
Qed.

Lemma elegoo_keys_disjoint (k : string) :
  k ∈ elegoo_tree_keys -> k ∉ elegoo_base_keys.
Proof.
  unfold elegoo_tree_keys. intros Hk.
  repeat (apply elem_of_cons in Hk as [->|Hk];
          [apply (bool_decide_unpack _); vm_compute; exact I|]).
  inversion Hk.
Qed.

Lemma ai_settings_base_absent (profile : gmap string value)
    (material k : string) :
  k ∈ elegoo_tree_keys -> ai_settings_base profile material !! k = None.
Proof.
  intros Hk. apply eq_None_not_Some. rewrite ai_settings_base_keys.
  now apply elegoo_keys_disjoint.
Qed.

Lemma ai_settings_tree_absent (profile : gmap string value) (k : string) :
  k ∉ elegoo_tree_keys -> ai_settings_tree profile !! k = None.
Proof.
  intros Hk. apply eq_None_not_Some. now rewrite ai_settings_tree_keys.
Qed.

(** C10: in the Elegoo project settings [support_style] is always
    ["default"], whatever the defaults and the profile, also when tree
    supports are selected (the profile's [support_style] is ["tree"], or its
    [support_type] contains ["tree"] in any case).  [support_type] is
    ["tree(auto)"] when tree supports are selected and ["normal(auto)"]
    otherwise.  Besides [support_type], the selection shows only in the ten
    [tree_support_*] parameters: they are written when tree supports are
    selected and supports are enabled, and otherwise left as the defaults
    have them; no other key depends on the selection. *)
Theorem elegoo_support_style_is_default
    (defaults profile analysis : gmap string value) (material : string) :
  let settings :=
    _generate_elegoo_project_settings defaults profile analysis material in
  settings !! "support_style" = Some (VStr "default")
  /\ (tree_selected profile ->
      settings !! "support_type" = Some (VStr "tree(auto)"))
  /\ (~ tree_selected profile ->
      settings !! "support_type" = Some (VStr "normal(auto)"))
  /\ (forall k, k ∈ elegoo_tree_keys ->
        if truthy (get profile "support_material" (VBool false))
        then (tree_selected profile ->
              settings !! k = ai_settings_tree profile !! k
              /\ is_Some (settings !! k))
             /\ (~ tree_selected profile -> settings !! k = defaults !! k)
        else settings !! k = defaults !! k)
  /\ (forall profile' k,
        same_but_selection profile profile' ->
        k <> "support_type" -> k ∉ elegoo_tree_keys ->
        settings !! k
        = _generate_elegoo_project_settings defaults profile' analysis
            material !! k).
Proof.
  destruct (ai_settings_base_support profile material) as [Hstyle Htype].
  destruct (ai_settings_tree_support profile) as [Tstyle Ttype].
  pose proof (is_tree_selected profile) as Hsel.
  cbv zeta. unfold _generate_elegoo_project_settings, update.
  split; [|split; [|split; [|split]]].
  - destruct (is_tree profile && truthy (get profile "support_material" (VBool false)));
      apply lookup_union_Some_l; rewrite ?lookup_union_r by assumption;
      assumption.
  - intros Ht. apply Hsel in Ht. rewrite Ht in Htype.
    destruct (is_tree profile && truthy (get profile "support_material" (VBool false)));
      apply lookup_union_Some_l; rewrite ?lookup_union_r by assumption;
      assumption.
  - intros Ht. assert (E : is_tree profile = false).
    { apply not_true_iff_false. now rewrite Hsel. }
    rewrite E in Htype |- *. cbn [andb].
    apply lookup_union_Some_l. assumption.
  - intros k Hk.
    assert (Hb : ai_settings_base profile material !! k = None)
      by now apply ai_settings_base_absent.
    assert (Ht : is_Some (ai_settings_tree profile !! k))
      by now apply ai_settings_tree_keys.
    destruct (truthy (get profile "support_material" (VBool false))).
    + split.
      * intros Hs. apply Hsel in Hs. rewrite Hs. cbn [andb].
        rewrite !lookup_union_l' by (try apply lookup_union_is_Some; auto).
        split; [reflexivity|exact Ht].
      * intros Hs. assert (E : is_tree profile = false).
        { apply not_true_iff_false. now rewrite Hsel. }
        rewrite E. cbn [andb]. now apply lookup_union_r.
    + rewrite andb_false_r. now apply lookup_union_r.
  - intros profile' k Hsame Hk Hkt.
    assert (Hai : forall p (c : bool),
              (if c then ai_settings_tree p ∪ ai_settings_base p material
               else ai_settings_base p material) !! k
              = ai_settings_base p material !! k).
    { intros p [|]; [|reflexivity].
      apply lookup_union_r. now apply ai_settings_tree_absent. }
    rewrite !lookup_union, !Hai.
    now rewrite (ai_settings_base_same profile profile' material k Hsame Hk).
Qed.

End WithContainerRepr.

Lemma elegoo_support_style_is_default_witness :
  let tree := _generate_elegoo_project_settings (H := no_containers) ∅
                tree_profile ∅ "PLA" in
  let plain := _generate_elegoo_project_settings (H := no_containers) ∅
                 plain_profile ∅ "PLA" in
  tree !! "support_style" = Some (VStr "default")
  /\ tree !! "support_type" = Some (VStr "tree(auto)")
  /\ plain !! "support_type" = Some (VStr "normal(auto)")
  /\ tree !! "layer_height" = plain !! "layer_height".
Proof.
  intros tree plain.
  destruct (elegoo_support_style_is_default (H := no_containers) ∅
              tree_profile ∅ "PLA")
    as (Hstyle & Htree & _ & _ & Honly).
  destruct (elegoo_support_style_is_default (H := no_containers) ∅
              plain_profile ∅ "PLA")
    as (_ & _ & Hplain & _ & _).
  split; [exact Hstyle|]. split; [|split].
  - apply Htree. left. reflexivity.
  - apply Hplain. intros [Hs|Hs]; discriminate Hs.
  - apply (Honly plain_profile "layer_height").
    + intros k H1 H2. unfold tree_profile, plain_profile.
      destruct (decide (k = "support_material")) as [->|Hne]; [reflexivity|].
      rewrite !lookup_insert_ne by congruence.
      rewrite !lookup_singleton_ne by congruence. reflexivity.
    + discriminate.
    + apply (bool_decide_unpack _). vm_compute. exact I.
Defined.

(** The selection of tree supports does not show in [support_type] alone:
    of two profiles with supports enabled that differ in [support_style]
    only, the one that selects tree supports gets the tree parameters, such
    as [tree_support_top_rate], and the other does not. *)
Lemma tree_selection_shows_in_tree_keys :
  _generate_elegoo_project_settings (H := no_containers) ∅
    tree_profile ∅ "PLA" !! "tree_support_top_rate"
  = Some (VStr "30%")
  /\ _generate_elegoo_project_settings (H := no_containers) ∅
       plain_profile ∅ "PLA" !! "tree_support_top_rate"
     = None.
Proof. split; reflexivity. Qed.

(** The fallback profile of a feature set asking for tree supports, turned
    into Elegoo settings: tree is selected, the style stays ["default"]. *)
Example fallback_then_elegoo :
  let settings :=
    _generate_elegoo_project_settings (H := no_containers) ∅
      (fallback_profile (list_to_map [ ("needs_supports", VBool true);
                                       ("recommend_tree_support", VBool true) ]))
      ∅ "PLA" in
  settings !! "support_style" = Some (VStr "default")
  /\ settings !! "support_type" = Some (VStr "tree(auto)")
  /\ settings !! "enable_support" = Some (VStr "1")
  /\ settings !! "tree_support_top_rate" = Some (VStr "30%")
  /\ settings !! "layer_height" = Some (VStr "0.2").
Proof. vm_compute. repeat split; reflexivity. Qed.

End SettingsFacts.

(** * Further properties of the build-plate placement *)

Section PlacementMore.

Import Placement.
Local Open Scope Q_scope.

(** Linear arithmetic over the rationals once halves are written [1#2]. *)
Ltac lra_q :=
  unfold Qdiv in *; change (/ 2) with (1 # 2) in *; lra.

(** A map that scales one coordinate by [s >= 0] and shifts it by [c]
    carries the least value to the least value. *)
Lemma is_min_affine (f g : vertex -> Q) (T : vertex -> vertex) (s c : Q)
    (vs : list vertex) (q : Q) :
  0 <= s -> (forall v, g (T v) == s * f v + c) ->
  is_min f vs q -> is_min g (map T vs) (s * q + c).
Proof.
  intros Hs HT [Hlb (v & Hv & Ev)]. split.
  - intros p Hp. apply in_map_iff in Hp. destruct Hp as (u & <- & Hu).
    rewrite HT. pose proof (Hlb u Hu).
    assert (0 <= s * (f u - q)) by (apply Qmult_le_0_compat; lra). lra.
  - exists (T v). split; [now apply in_map|]. rewrite HT, Ev. reflexivity.
Qed.

Lemma is_max_affine (f g : vertex -> Q) (T : vertex -> vertex) (s c : Q)
    (vs : list vertex) (q : Q) :
  0 <= s -> (forall v, g (T v) == s * f v + c) ->
  is_max f vs q -> is_max g (map T vs) (s * q + c).
Proof.
  intros Hs HT [Hub (v & Hv & Ev)]. split.
  - intros p Hp. apply in_map_iff in Hp. destruct Hp as (u & <- & Hu).
    rewrite HT. pose proof (Hub u Hu).
    assert (0 <= s * (q - f u)) by (apply Qmult_le_0_compat; lra). lra.
  - exists (T v). split; [now apply in_map|]. rewrite HT, Ev. reflexivity.
Qed.

(** The bounding box of the image of a vertex list under a map that scales
    all three coordinates by [s >= 0] and shifts them by [(cx, cy, cz)]. *)
Lemma bbox_affine (T : vertex -> vertex) (s cx cy cz : Q)
    (vs : list vertex) (lo hi : vertex) :
  0 <= s ->
  (forall v, vx (T v) == s * vx v + cx) ->
  (forall v, vy (T v) == s * vy v + cy) ->
  (forall v, vz (T v) == s * vz v + cz) ->
  bbox vs = Some (lo, hi) ->
  exists lo' hi',
    bbox (map T vs) = Some (lo', hi')
    /\ (vx lo' == s * vx lo + cx /\ vy lo' == s * vy lo + cy
        /\ vz lo' == s * vz lo + cz)
    /\ (vx hi' == s * vx hi + cx /\ vy hi' == s * vy hi + cy
        /\ vz hi' == s * vz hi + cz).
Proof.
  intros Hs Hx Hy Hz Hb.
  assert (Hne : map T vs <> []).
  { destruct vs; [discriminate|]. simpl. congruence. }
  destruct (bbox_is_Some _ Hne) as (lo' & hi' & Hb').
  exists lo', hi'. split; [exact Hb'|].
  apply bbox_spec in Hb. apply bbox_spec in Hb'.
  destruct Hb as [(Mx & My & Mz) (Mx' & My' & Mz')].
  destruct Hb' as [(Px & Py & Pz) (Px' & Py' & Pz')].
  repeat split.
  - exact (is_min_unique _ _ _ _ Px (is_min_affine vx vx T s cx vs _ Hs Hx Mx)).
  - exact (is_min_unique _ _ _ _ Py (is_min_affine vy vy T s cy vs _ Hs Hy My)).
  - exact (is_min_unique _ _ _ _ Pz (is_min_affine vz vz T s cz vs _ Hs Hz Mz)).
  - exact (is_max_unique _ _ _ _ Px' (is_max_affine vx vx T s cx vs _ Hs Hx Mx')).
  - exact (is_max_unique _ _ _ _ Py' (is_max_affine vy vy T s cy vs _ Hs Hy My')).
  - exact (is_max_unique _ _ _ _ Pz' (is_max_affine vz vz T s cz vs _ Hs Hz Mz')).
Qed.

(** X2: the coordinates stored in the model part are object-local: whatever
    the mesh, their bounding box is centred on the origin in X and Y, starts
    at Z = 0, and has the extents of the mesh. *)
Theorem stored_coordinates_local (mesh : Trimesh) (plate : Q) (lo hi : vertex) :
  bounds mesh = Some (lo, hi) ->
  exists m slo shi,
    _generate_3mf_model_xml mesh plate = inr m
    /\ length (xml_vertices m) = length (vertices mesh)
    /\ xml_triangles m = faces mesh
    /\ bbox (xml_vertices m) = Some (slo, shi)
    /\ vx slo == - ((vx hi - vx lo) / 2) /\ vx shi == (vx hi - vx lo) / 2
    /\ vy slo == - ((vy hi - vy lo) / 2) /\ vy shi == (vy hi - vy lo) / 2
    /\ vz slo == 0 /\ vz shi == vz hi - vz lo.
Proof.
  intros Hb.
  destruct (generate_3mf_model_xml_inr mesh plate lo hi Hb) as (m & Hm & Hvs & _).
  destruct (bbox_affine
              (fun v => (vx v - (vx lo + vx hi) / 2, vy v - (vy lo + vy hi) / 2,
                         vz v - vz lo))
              1 (- ((vx lo + vx hi) / 2)) (- ((vy lo + vy hi) / 2)) (- vz lo)
              (vertices mesh) lo hi)
    as (slo & shi & Hbb & (Ex & Ey & Ez) & (Ex' & Ey' & Ez'));
    try (intros v; rewrite ?vx_mk, ?vy_mk, ?vz_mk; ring); [lra|exact Hb|].
  exists m, slo, shi. split; [exact Hm|].
  split; [rewrite Hvs; apply length_map|].
  split; [unfold _generate_3mf_model_xml in Hm; rewrite Hb in Hm;
          injection Hm as <-; reflexivity|].
  split; [rewrite Hvs; exact Hbb|].
  repeat split; lra_q.
Qed.

Lemma stored_coordinates_local_witness :
  exists m slo shi,
    _generate_3mf_model_xml (box 100 50 7 20 30 40) 220 = inr m
    /\ length (xml_vertices m) = 8%nat
    /\ xml_triangles m = faces (box 100 50 7 20 30 40)
    /\ bbox (xml_vertices m) = Some (slo, shi)
    /\ vx slo == - ((120 - 100) / 2) /\ vx shi == (120 - 100) / 2
    /\ vy slo == - ((80 - 50) / 2) /\ vy shi == (80 - 50) / 2
    /\ vz slo == 0 /\ vz shi == 47 - 7.
Proof.
  apply (stored_coordinates_local (box 100 50 7 20 30 40) 220
           (100, 50, 7) (120, 80, 47)).
  vm_compute. reflexivity.
Defined.

Lemma calculate_build_plate_transform_inr (mesh : Trimesh) (plate : Q) lo hi :
  bounds mesh = Some (lo, hi) ->
  _calculate_build_plate_transform mesh plate
  = inr match fit_scale (py_max (vx hi - vx lo) (vy hi - vy lo)) (plate - 10) with
        | None => None
        | Some s =>
          Some {| scale := s;
                  offset_x := plate / 2 - (vx hi - vx lo) * s / 2 - vx lo * s;
                  offset_y := plate / 2 - (vy hi - vy lo) * s / 2 - vy lo * s;
                  offset_z := - (vz lo * s) |}
        end.
Proof.
  intros Hb. unfold _calculate_build_plate_transform. rewrite Hb. reflexivity.
Qed.

(** X3: on a plate of at least 10 mm the transform computed by
    [_calculate_build_plate_transform], applied to the vertices as loaded,
    centres the bounding box on the plate in X and Y, keeps it inside the
    5 mm margin, and puts its lowest Z at 0. *)
Theorem sibling_places_on_plate (mesh : Trimesh) (plate : Q) (lo hi : vertex) :
  bounds mesh = Some (lo, hi) -> 10 <= plate ->
  exists t plo phi,
    _calculate_build_plate_transform mesh plate = inr (Some t)
    /\ bbox (map (apply_transform t) (vertices mesh)) = Some (plo, phi)
    /\ vx plo + vx phi == plate /\ vy plo + vy phi == plate
    /\ 5 <= vx plo /\ vx phi <= plate - 5
    /\ 5 <= vy plo /\ vy phi <= plate - 5
    /\ vz plo == 0 /\ vz phi == scale t * (vz hi - vz lo).
Proof.
  intros Hb Hplate.
  pose proof (calculate_build_plate_transform_inr mesh plate lo hi Hb) as Hc.
  destruct (bounds_extent_nonneg mesh lo hi Hb) as (HM & HwM & HdM & Hh).
  destruct (fit_scale_fits (py_max (vx hi - vx lo) (vy hi - vy lo)) (plate - 10))
    as (s & Hs & Hs0 & Hs1 & Hfit); [exact HM|lra|].
  rewrite Hs in Hc.
  set (t := {| scale := s;
               offset_x := plate / 2 - (vx hi - vx lo) * s / 2 - vx lo * s;
               offset_y := plate / 2 - (vy hi - vy lo) * s / 2 - vy lo * s;
               offset_z := - (vz lo * s) |}) in *.
  destruct (bbox_affine (apply_transform t) s (offset_x t) (offset_y t)
              (offset_z t) (vertices mesh) lo hi Hs0)
    as (plo & phi & Hbb & (Ex & Ey & Ez) & (Ex' & Ey' & Ez'));
    try (intros v; reflexivity); [exact Hb|].
  exists t, plo, phi. split; [exact Hc|]. split; [exact Hbb|].
  simpl in Ex, Ey, Ez, Ex', Ey', Ez'.
  set (M := py_max (vx hi - vx lo) (vy hi - vy lo)) in *.
  assert (0 <= s * (M - (vx hi - vx lo))) by (apply Qmult_le_0_compat; lra).
  assert (0 <= s * (M - (vy hi - vy lo))) by (apply Qmult_le_0_compat; lra).
  assert (0 <= s * (vx hi - vx lo)).
  { apply Qmult_le_0_compat; [lra|].
    apply bbox_spec in Hb. destruct Hb as [(Mx & _) (Mx' & _)].
    pose proof (is_min_le_is_max _ _ _ _ Mx Mx'). lra. }
  assert (0 <= s * (vy hi - vy lo)).
  { apply Qmult_le_0_compat; [lra|].
    apply bbox_spec in Hb. destruct Hb as [(_ & My & _) (_ & My' & _)].
    pose proof (is_min_le_is_max _ _ _ _ My My'). lra. }
  clearbody M. clear Hc Hs Hbb. simpl scale.
  repeat split; lra_q.
Qed.

Lemma sibling_places_on_plate_witness :
  exists t plo phi,
    _calculate_build_plate_transform slab300 220 = inr (Some t)
    /\ bbox (map (apply_transform t) (vertices slab300)) = Some (plo, phi)
    /\ vx plo + vx phi == 220 /\ vy plo + vy phi == 220
    /\ 5 <= vx plo /\ vx phi <= 220 - 5
    /\ 5 <= vy plo /\ vy phi <= 220 - 5
    /\ vz plo == 0 /\ vz phi == scale t * (10 - 0).
Proof.
  apply (sibling_places_on_plate slab300 220 (0, 0, 0) (300, 300, 10)).
  - vm_compute. reflexivity.
  - vm_compute. discriminate.
Defined.




(** X5: on a plate larger than 10 mm the computed scale is positive and at
    most 1; it is 1 exactly when the larger horizontal extent fits the safe
    size, and otherwise the extent scaled by it is exactly the safe size.
    The scale that is written into the transform is the computed one with
    six decimals: it lies between 0 and 1, differs from the computed scale
    by at most half a millionth, and is 1 when the extent fits, so the
    extent scaled by it exceeds the safe size by at most half a millionth
    of the extent; the offsets are written as computed. *)
Theorem scale_positive_and_tight (mesh : Trimesh) (plate : Q) (lo hi : vertex) :
  bounds mesh = Some (lo, hi) -> 10 < plate ->
  let maxDim := py_max (vx hi - vx lo) (vy hi - vy lo) in
  exists m t a,
    _generate_3mf_model_xml mesh plate = inr m
    /\ transform_matrix m = Some t
    /\ transform_attribute m = Some a
    /\ 0 < scale t /\ scale t <= 1
    /\ (scale t == 1 <-> maxDim <= plate - 10)
    /\ (plate - 10 < maxDim -> scale t * maxDim == plate - 10)
    /\ scale a = scale_str (scale t)
    /\ offset_x a = offset_x t /\ offset_y a = offset_y t
    /\ offset_z a = offset_z t
    /\ 0 <= scale a /\ scale a <= 1
    /\ - (1 # 2000000) <= scale a - scale t
    /\ scale a - scale t <= 1 # 2000000
    /\ (maxDim <= plate - 10 -> scale a == 1)
    /\ scale a * maxDim <= plate - 10 + maxDim * (1 # 2000000).
Proof.
  intros Hb Hplate maxDim.
  destruct (generate_3mf_model_xml_written mesh plate lo hi Hb)
    as (m & Hm & _ & Ht & Ha).
  destruct (bounds_extent_nonneg mesh lo hi Hb) as (HM & _).
  fold maxDim in Ht, Ha, HM. unfold fit_scale in Ht, Ha.
  destruct (Qgtb maxDim (plate - 10)) eqn:E.
  - apply Qgtb_true in E.
    assert (Hne : ~ maxDim == 0) by lra.
    rewrite (float_div_Some _ _ Hne) in Ht, Ha.
    eexists m, _, _. split; [exact Hm|]. split; [exact Ht|].
    split; [exact Ha|]. cbn [scale offset_x offset_y offset_z].
    assert (Heq : (plate - 10) / maxDim * maxDim == plate - 10)
      by (field; exact Hne).
    assert (Hpos : 0 < (plate - 10) / maxDim)
      by (apply Qlt_shift_div_l; lra).
    assert (Hlt : (plate - 10) / maxDim < 1)
      by (apply Qlt_shift_div_r; lra).
    destruct (scale_str_spec ((plate - 10) / maxDim))
      as (HA0 & HA1 & HAlo & HAhi); [lra|lra|].
    set (c := (plate - 10) / maxDim) in *.
    set (A := scale_str c) in *.
    assert (0 <= (c + (1 # 2000000) - A) * maxDim)
      by (apply Qmult_le_0_compat; lra).
    clearbody c A maxDim.
    repeat split; try reflexivity; try lra.
  - apply Qgtb_false in E.
    eexists m, _, _. split; [exact Hm|]. split; [exact Ht|].
    split; [exact Ha|]. cbn [scale offset_x offset_y offset_z].
    change (scale_str 1) with 1.
    repeat split; try reflexivity; lra.
Qed.

Lemma scale_positive_and_tight_witness :
  exists m t a,
    _generate_3mf_model_xml (box 0 0 0 333 10 10) 220 = inr m
    /\ transform_matrix m = Some t
    /\ transform_attribute m = Some a
    /\ scale t == 210 / 333
    /\ scale a == 630631 # 1000000
    /\ scale a * 333 <= 220 - 10 + 333 * (1 # 2000000).
Proof.
  destruct (scale_positive_and_tight (box 0 0 0 333 10 10) 220 (0, 0, 0)
              (333, 10, 10))
    as (m & t & a & Hm & Ht & Ha & _ & _ & _ & Htight & Hstr & _ & _ & _ & _
        & _ & _ & _ & _ & Hfit).
  - vm_compute. reflexivity.
  - vm_compute. reflexivity.
  - assert (E : py_max (vx (333, 10, 10) - vx (0, 0, 0))
                  (vy (333, 10, 10) - vy (0, 0, 0)) == 333)
      by (vm_compute; reflexivity).
    rewrite E in Htight, Hfit.
    assert (Hs : scale t == 210 / 333).
    { assert (H333 : 220 - 10 < 333) by (vm_compute; reflexivity).
      specialize (Htight H333).
      apply (Qmult_inj_r _ _ 333); [discriminate|].
      rewrite Htight. vm_compute. reflexivity. }
    exists m, t, a. split; [exact Hm|]. split; [exact Ht|]. split; [exact Ha|].
    split; [exact Hs|]. split; [|exact Hfit].
    rewrite Hstr. unfold _generate_3mf_model_xml in Hm. vm_compute in Hm.
    injection Hm as <-. vm_compute in Ht. injection Ht as <-.
    vm_compute. reflexivity.
Defined.



End PlacementMore.

(** * Further properties of the overhang analysis *)

Section OverhangMore.

Import FeatureExtractor.
Local Open Scope R_scope.

Lemma degrees_range (a : R) : 0 <= a <= PI -> 0 <= degrees a <= 180.
Proof.
  intros [H0 H1]. unfold degrees.
  assert (HPI : 0 < PI) by apply PI_RGT_0.
  assert (Hk : 0 < 180 / PI) by (apply Rdiv_lt_0_compat; lra).
  split.
  - apply Rmult_le_pos; lra.
  - replace 180 with (PI * (180 / PI)) at 2 by (field; lra).
    apply Rmult_le_compat_r; lra.
Qed.

(** Whatever the normal, the angle of a face lies between 0 and 180. *)
Lemma angle_range (n : vec3) :
  0 <= degrees (acos (clip (dot n z_axis) (-1) 1)) <= 180.
Proof. apply degrees_range, acos_bound. Qed.

Lemma angles_deg_range (mesh : Trimesh) :
  Forall (fun a => 0 <= a <= 180) (angles_deg mesh).
Proof.
  unfold angles_deg. apply List.Forall_forall. intros a Ha.
  apply in_map_iff in Ha. destruct Ha as (n & <- & _). apply angle_range.
Qed.

Lemma fold_left_Rmax_spec (l : list R) (x : R) :
  (forall a, In a (x :: l) -> a <= fold_left Rmax l x)
  /\ In (fold_left Rmax l x) (x :: l).
Proof.
  revert x. induction l as [|y l IH]; intros x; simpl.
  - split; [intros a [<-|[]]; lra|now left].
  - destruct (IH (Rmax x y)) as [Hub Hin]. split.
    + intros a [<-|[<-|Ha]].
      * eapply Rle_trans; [apply Rmax_l|]. apply Hub. now left.
      * eapply Rle_trans; [apply Rmax_r|]. apply Hub. now left.
      * apply Hub. now right.
    + destruct Hin as [E|Hin]; [|now right; right].
      rewrite <- E. unfold Rmax. destruct (Rle_dec x y); [right|]; now left.
Qed.

Lemma percentage_range (k n : nat) : (k <= n)%nat -> 0 <= percentage k n <= 100.
Proof.
  intros Hk. split.
  - rewrite <- (percentage_none n). apply percentage_mono. lia.
  - destruct n as [|n]; [simpl; lra|].
    rewrite <- (percentage_all (S n)) by lia. now apply percentage_mono.
Qed.

(** All fields of the record, read off the source. *)
Lemma detect_overhangs_fields (t : R) (mesh : Trimesh) (r : overhangs) :
  _detect_overhangs t mesh = Some r ->
  overhang_percentage r =
    percentage (count_above t (angles_deg mesh)) (length (faces mesh))
  /\ severe_overhang_percentage r =
    percentage (count_above 60 (angles_deg mesh)) (length (faces mesh))
  /\ extreme_overhang_percentage r =
    percentage (count_above 75 (angles_deg mesh)) (length (faces mesh))
  /\ overhang_face_count r = count_above t (angles_deg mesh)
  /\ np_max (angles_deg mesh) = Some (max_overhang_angle r)
  /\ has_overhangs r = gtb (overhang_percentage r) 5
  /\ needs_supports r = gtb (overhang_percentage r) 10
  /\ recommend_tree_support r =
       (gtb (severe_overhang_percentage r) 5
        || (gtb (overhang_percentage r) 15
            && gtb (extreme_overhang_percentage r) 2)
        || gtb (overhang_percentage r) 20)
  /\ support_complexity r =
       (if recommend_tree_support r then "high"
        else if needs_supports r then "medium" else "low").
Proof.
  unfold _detect_overhangs. destruct (np_max (angles_deg mesh)) as [mx|] eqn:E;
    [|discriminate].
  intros [= <-]. simpl. repeat split; reflexivity.
Qed.

Lemma angles_deg_length (mesh : Trimesh) :
  length (angles_deg mesh) = length (faces mesh).
Proof. unfold angles_deg, face_normals. now rewrite !length_map. Qed.

(** X7: for a mesh with at least one face the three percentages lie between
    0 and 100, the overhang face count does not exceed the number of faces,
    and the reported maximum angle lies between 0 and 180, is the angle of
    some face and is not exceeded by any face.  Without faces the analysis
    raises. *)
Theorem overhang_result_bounds (t : R) (mesh : Trimesh) :
  (faces mesh = [] -> _detect_overhangs t mesh = None)
  /\ (faces mesh <> [] ->
      exists r, _detect_overhangs t mesh = Some r
        /\ 0 <= overhang_percentage r <= 100
        /\ 0 <= severe_overhang_percentage r <= 100
        /\ 0 <= extreme_overhang_percentage r <= 100
        /\ (overhang_face_count r <= length (faces mesh))%nat
        /\ 0 <= max_overhang_angle r <= 180
        /\ In (max_overhang_angle r) (angles_deg mesh)
        /\ Forall (fun a => a <= max_overhang_angle r) (angles_deg mesh)).
Proof.
  split; [apply detect_overhangs_empty|]. intros Hne.
  destruct (detect_overhangs_returns t mesh Hne) as (r & Hr & _).
  exists r. split; [exact Hr|].
  destruct (detect_overhangs_fields t mesh r Hr)
    as (Ho & Hs & He & Hc & Hmax & _).
  rewrite Ho, Hs, He, Hc.
  assert (Hle : forall u, (count_above u (angles_deg mesh) <= length (faces mesh))%nat).
  { intros u. rewrite <- angles_deg_length. apply count_above_le_length. }
  repeat split; try (apply percentage_range; apply Hle); try apply Hle.
  all: pose proof (angles_deg_range mesh) as Hrange;
    destruct (angles_deg mesh) as [|a l] eqn:El; [discriminate|];
    simpl in Hmax; injection Hmax as Hmax;
    destruct (fold_left_Rmax_spec l a) as [Hub Hin]; rewrite Hmax in *.
  - rewrite List.Forall_forall in Hrange. apply (Hrange _ Hin).
  - rewrite List.Forall_forall in Hrange. apply (Hrange _ Hin).
  - exact Hin.
  - apply List.Forall_forall. exact Hub.
Qed.

Lemma overhang_result_bounds_witness :
  exists r, _detect_overhangs default_overhang_threshold up_square = Some r
    /\ 0 <= overhang_percentage r <= 100
    /\ 0 <= severe_overhang_percentage r <= 100
    /\ 0 <= extreme_overhang_percentage r <= 100
    /\ (overhang_face_count r <= length (faces up_square))%nat
    /\ 0 <= max_overhang_angle r <= 180
    /\ In (max_overhang_angle r) (angles_deg up_square)
    /\ Forall (fun a => a <= max_overhang_angle r) (angles_deg up_square).
Proof.
  apply (proj2 (overhang_result_bounds default_overhang_threshold up_square)).
  simpl. discriminate.
Defined.

Lemma count_above_none (t : R) (l : list R) :
  Forall (fun a => a <= t) l -> count_above t l = 0%nat.
Proof.
  unfold count_above. induction 1 as [|a l Ha _ IH]; simpl; [reflexivity|].
  assert (E : gtb a t = false) by (apply gtb_false; lra).
  rewrite E. exact IH.
Qed.

Lemma count_above_all (t : R) (l : list R) :
  Forall (fun a => a > t) l -> count_above t l = length l.
Proof.
  unfold count_above. induction 1 as [|a l Ha _ IH]; simpl; [reflexivity|].
  assert (E : gtb a t = true) by (apply gtb_true; lra).
  rewrite E. simpl. f_equal. exact IH.
Qed.

(** X8: the configurable threshold at its extremes.  With a threshold of
    180 degrees or more no face is an overhang: the percentage is 0 and
    neither [has_overhangs] nor [needs_supports] is set.  With a negative
    threshold every face is one: the percentage is 100 and both are set. *)
Theorem threshold_extremes (t : R) (mesh : Trimesh) :
  faces mesh <> [] ->
  exists r, _detect_overhangs t mesh = Some r
    /\ (180 <= t ->
        overhang_percentage r = 0 /\ overhang_face_count r = 0%nat
        /\ has_overhangs r = false /\ needs_supports r = false)
    /\ (t < 0 ->
        overhang_percentage r = 100
        /\ overhang_face_count r = length (faces mesh)
        /\ has_overhangs r = true /\ needs_supports r = true
        /\ recommend_tree_support r = true).
Proof.
  intros Hne.
  destruct (detect_overhangs_returns t mesh Hne) as (r & Hr & _).
  exists r. split; [exact Hr|].
  destruct (detect_overhangs_fields t mesh r Hr)
    as (Ho & _ & _ & Hc & _ & Hhas & Hneeds & Htree & _).
  pose proof (angles_deg_range mesh) as Hrange.
  split; intros Ht.
  - assert (E : count_above t (angles_deg mesh) = 0%nat).
    { apply count_above_none. eapply List.Forall_impl; [|exact Hrange].
      simpl. intros a Ha. lra. }
    assert (Hp : overhang_percentage r = 0)
      by (rewrite Ho, E; apply percentage_none).
    rewrite Hhas, Hneeds, Hp, Hc, E.
    repeat split; try reflexivity; apply gtb_false; lra.
  - assert (E : count_above t (angles_deg mesh) = length (faces mesh)).
    { rewrite <- angles_deg_length. apply count_above_all.
      eapply List.Forall_impl; [|exact Hrange]. simpl. intros a Ha. lra. }
    assert (Hp : overhang_percentage r = 100).
    { rewrite Ho, E. apply percentage_all.
      destruct (faces mesh); [congruence|simpl; lia]. }
    assert (E20 : gtb 100 20 = true) by (apply gtb_true; lra).
    rewrite Hhas, Hneeds, Htree, Hp, Hc, E, E20, orb_true_r.
    repeat split; try reflexivity; apply gtb_true; lra.
Qed.

Lemma threshold_extremes_witness :
  exists r, _detect_overhangs 180 up_square = Some r
    /\ overhang_percentage r = 0 /\ overhang_face_count r = 0%nat
    /\ has_overhangs r = false /\ needs_supports r = false.
Proof.
  destruct (threshold_extremes 180 up_square) as (r & Hr & H180 & _).
  { simpl. discriminate. }
  exists r. split; [exact Hr|]. apply H180. lra.
Defined.

End OverhangMore.

(** * Further properties of the file-writing pipeline *)

Section PackagingMore.

Import Py Packaging PackagingLogic.
Local Open Scope py_scope.

Lemma post_ret {A} (P : world -> Prop) (a : A) (Q : A -> world -> Prop) :
  (forall w, P w -> Q a w) -> post P (ret a) Q.
Proof. intros H w w' a' HP [= <- <-]. now apply H. Qed.

Lemma post_bind {A B} (P : world -> Prop) (m : M A) (k : A -> M B)
    (R : A -> world -> Prop) (Q : B -> world -> Prop) :
  post P m R -> (forall a, post (R a) (k a) Q) -> post P (bind m k) Q.
Proof.
  intros Hm Hk w w' b HP. unfold bind.
  destruct (m w) as [w1 [f|a]] eqn:E; [discriminate|].
  intros Ek. exact (Hk a _ _ _ (Hm _ _ _ HP E) Ek).
Qed.

Lemma preserves_post {A} (P : world -> Prop) (m : M A) :
  preserves P m -> post P m (fun _ => P).
Proof. intros H w w' a HP E. exact (H _ _ _ HP E). Qed.

Lemma preserves_ret {A} P (a : A) : preserves P (ret a).
Proof. intros w w' r HP [= <- <-]. exact HP. Qed.

Lemma preserves_raise {A} P st ex : preserves P (@raise A st ex).
Proof. intros w w' r HP [= <- <-]. exact HP. Qed.

Lemma preserves_lift {A} P st (x : exn + A) : preserves P (lift st x).
Proof. destruct x; simpl; [apply preserves_raise|apply preserves_ret]. Qed.

Lemma preserves_bind {A B} P (m : M A) (k : A -> M B) :
  preserves P m -> (forall a, preserves P (k a)) -> preserves P (bind m k).
Proof.
  intros Hm Hk w w' r HP. unfold bind.
  destruct (m w) as [w1 [f|a]] eqn:E.
  - intros [= <- <-]. exact (Hm _ _ _ HP E).
  - intros Ek. exact (Hk a _ _ _ (Hm _ _ _ HP E) Ek).
Qed.

Lemma preserves_try_except {A} P (m : M A) (h : failure -> M A) :
  preserves P m -> (forall f, preserves P (h f)) -> preserves P (try_except m h).
Proof.
  intros Hm Hh w w' r HP. unfold try_except.
  destruct (m w) as [w1 [f|a]] eqn:E.
  - intros Eh. exact (Hh f _ _ _ (Hm _ _ _ HP E) Eh).
  - intros [= <- <-]. exact (Hm _ _ _ HP E).
Qed.

Lemma preserves_makedirs_sub P e st d : preserves P (makedirs_sub e st d).
Proof.
  unfold makedirs_sub.
  destruct (can_mkdir e d); [apply preserves_ret|apply preserves_raise].
Qed.

Lemma elem_of_add_once (name n : string) (files : list string) :
  n ∈ files -> n ∈ add_once name files.
Proof.
  intros Hn. unfold add_once. case_bool_decide; [exact Hn|].
  apply elem_of_app. now left.
Qed.

Lemma elem_of_add_once_new (name : string) (files : list string) :
  name ∈ add_once name files.
Proof.
  unfold add_once. case_bool_decide; [assumption|].
  apply elem_of_app. right. apply list_elem_of_singleton. reflexivity.
Qed.

Lemma has_parts_grow d names files files' w w' :
  temp_dirs w !! d = Some files ->
  temp_dirs w' !! d = Some files' ->
  (forall n, n ∈ files -> n ∈ files') ->
  has_parts d names w -> has_parts d names w'.
Proof.
  intros Hw Hw' Hsub (fs & Hfs & Hall). rewrite Hw in Hfs. injection Hfs as <-.
  exists files'. split; [exact Hw'|].
  eapply List.Forall_impl; [|exact Hall]. simpl. auto.
Qed.

(** Writing a part keeps the parts that are there, whether it succeeds or
    not. *)
Lemma preserves_write_part e st d d' name names :
  preserves (has_parts d names) (write_part e st d' name).
Proof.
  intros w w' r HP. unfold write_part.
  destruct (temp_dirs w !! d') as [files|] eqn:Ed;
    [destruct (can_write e _)|]; intros [= <- <-]; try exact HP.
  destruct HP as (fs & Hfs & Hall). destruct (decide (d = d')) as [->|Hne].
  - rewrite Ed in Hfs. injection Hfs as <-.
    exists (add_once name files). simpl. split; [apply lookup_insert_eq|].
    eapply List.Forall_impl; [|exact Hall]. simpl. intros n.
    apply elem_of_add_once.
  - exists fs. simpl. split; [|exact Hall].
    rewrite lookup_insert_ne by congruence. exact Hfs.
Qed.

(** A successful write adds its part. *)
Lemma post_write_part e st d name names :
  post (has_parts d names) (write_part e st d name)
       (fun _ => has_parts d (name :: names)).
Proof.
  intros w w' a (fs & Hfs & Hall). unfold write_part. rewrite Hfs.
  destruct (can_write e _); [|discriminate]. intros [= <-].
  exists (add_once name fs). simpl. split; [apply lookup_insert_eq|].
  constructor; [apply elem_of_add_once_new|].
  eapply List.Forall_impl; [|exact Hall]. simpl. intros n.
  apply elem_of_add_once.
Qed.

Lemma post_makedirs_temp e st d :
  post (fun _ => True) (makedirs_temp e st d) (fun _ => has_parts d []).
Proof.
  intros w w' a _. unfold makedirs_temp.
  destruct (can_mkdir e d); [|discriminate]. intros [= <-].
  eexists. simpl. split; [apply lookup_insert_eq|constructor].
Qed.

Lemma preserves_save_thumbnails e d d' names parts :
  preserves (has_parts d parts) (save_thumbnails e d' names).
Proof.
  induction names as [|name rest IH]; simpl.
  - apply preserves_ret.
  - apply preserves_try_except.
    + apply preserves_bind; [apply preserves_write_part|intros _; exact IH].
    + intros _. apply preserves_ret.
Qed.

Lemma preserves_create_dummy_thumbnails e d d' parts :
  preserves (has_parts d parts) (_create_dummy_thumbnails e d').
Proof.
  unfold _create_dummy_thumbnails.
  destruct (pil_available e); [apply preserves_save_thumbnails|apply preserves_ret].
Qed.

Lemma save_thumbnails_succeeds e d names w :
  exists w', save_thumbnails e d names w = (w', inr tt).
Proof.
  revert w. induction names as [|name rest IH]; intros w; simpl.
  - eexists. reflexivity.
  - unfold try_except, bind.
    destruct (write_part e MetadataWrite d name w) as [w1 [f|[]]].
    + eexists. reflexivity.
    + destruct (IH w1) as (w2 & ->). eexists. reflexivity.
Qed.

(** X9: [_create_dummy_thumbnails] never fails, whether or not the imaging
    library is there and whatever happens to its writes, and it touches
    neither the archives nor the plain output files nor any part already
    written. *)
Theorem thumbnails_never_fail (e : env) (d : string) (w : world) :
  exists w',
    _create_dummy_thumbnails e d w = (w', inr tt)
    /\ archives w' = archives w /\ documents w' = documents w
    /\ (forall d' parts, has_parts d' parts w -> has_parts d' parts w').
Proof.
  assert (Hrun : exists w', _create_dummy_thumbnails e d w = (w', inr tt)).
  { unfold _create_dummy_thumbnails. destruct (pil_available e).
    - apply save_thumbnails_succeeds.
    - eexists. reflexivity. }
  destruct Hrun as (w' & Hrun). exists w'. split; [exact Hrun|].
  destruct (keeps_create_dummy_thumbnails e d _ _ _ Hrun) as (Ha & Hd & _).
  split; [exact Ha|]. split; [exact Hd|].
  intros d' parts HP.
  exact (preserves_create_dummy_thumbnails e d' d parts _ _ _ HP Hrun).
Qed.

Lemma has_parts_weaken d names names' w :
  (forall n, n ∈ names' -> n ∈ names) ->
  has_parts d names w -> has_parts d names' w.
Proof.
  intros Hsub (fs & Hfs & Hall). exists fs. split; [exact Hfs|].
  apply List.Forall_forall. intros n Hn.
  rewrite List.Forall_forall in Hall. apply Hall.
  apply list_elem_of_In, Hsub, list_elem_of_In, Hn.
Qed.

Lemma elem_of_walk (n : string) (files : list string) :
  n ∈ files -> n ∈ walk files.
Proof.
  intros Hn. apply list_elem_of_In in Hn. unfold walk.
  apply list_elem_of_In, in_or_app.
  destruct (in_root n) eqn:E; [left|right]; apply List.filter_In;
    (split; [exact Hn|]); rewrite E; reflexivity.
Qed.

Lemma zip_entries_ok e out names w w' prev :
  archives w !! out = Some prev ->
  zip_entries e out names w = (w', inr tt) ->
  temp_dirs w' = temp_dirs w /\ documents w' = documents w
  /\ archives w' !! out = Some (prev ++ names)
  /\ (forall other, other <> out -> archives w' !! other = archives w !! other).
Proof.
  revert w prev. induction names as [|name rest IH]; intros w prev Hprev; simpl.
  - intros [= <-]. rewrite app_nil_r. repeat split; auto.
  - destruct (can_add_entry e out name); [|discriminate]. intros Hrun.
    rewrite Hprev in Hrun. simpl in Hrun.
    apply (IH _ (prev ++ [name])) in Hrun; [|simpl; apply lookup_insert_eq].
    destruct Hrun as (Ht & Hd & Ha & Ho). simpl in *.
    repeat split; [exact Ht|exact Hd| |].
    + rewrite Ha, <- app_assoc. reflexivity.
    + intros other Hne. rewrite (Ho other Hne).
      apply lookup_insert_ne. congruence.
Qed.

(** A successful archive write puts every file of the working directory
    into the archive, and touches no other archive. *)
Lemma write_archive_ok e out d w w' :
  write_archive e out d w = (w', inr tt) ->
  temp_dirs w' = temp_dirs w /\ documents w' = documents w
  /\ archives w' !! out = Some (walk (default [] (temp_dirs w !! d)))
  /\ (forall other, other <> out -> archives w' !! other = archives w !! other).
Proof.
  unfold write_archive. destruct (can_open_zip e out); [|discriminate].
  intros Hrun.
  apply (zip_entries_ok _ _ _ _ _ []) in Hrun; [|simpl; apply lookup_insert_eq].
  destruct Hrun as (Ht & Hd & Ha & Ho). simpl in *.
  repeat split; [exact Ht|exact Hd|exact Ha|].
  intros other Hne. rewrite (Ho other Hne). apply lookup_insert_ne. congruence.
Qed.

Lemma post_write_archive e out d names :
  post (has_parts d names) (write_archive e out d)
       (fun _ w' => exists entries, archives w' !! out = Some entries
                      /\ Forall (fun n => n ∈ entries) names).
Proof.
  intros w w' [] (fs & Hfs & Hall) Hrun.
  destruct (write_archive_ok _ _ _ _ _ Hrun) as (_ & _ & Ha & _).
  rewrite Hfs in Ha. simpl in Ha. eexists. split; [exact Ha|].
  eapply List.Forall_impl; [|exact Hall]. simpl. intros n. apply elem_of_walk.
Qed.

(** One step of a chain of writes. *)
Ltac step_write :=
  eapply post_bind; [apply post_write_part|intros ?].

Ltac step_keep lem :=
  eapply post_bind; [apply preserves_post; apply lem|intros ?].

Section WithContainerRepr.

Context `{ContainerRepr}.

Lemma post_elegoo_metadata e d names profile analysis material :
  post (has_parts d names) (elegoo_metadata e d profile analysis material)
       (fun _ => has_parts d
          ("Metadata/slice_info.config" :: "Metadata/plate_1.json"
           :: "Metadata/model_settings.config"
           :: "Metadata/project_settings.config" :: names)).
Proof.
  unfold elegoo_metadata.
  step_keep (@preserves_lift (gmap string value)).
  do 4 step_write.
  apply preserves_post, preserves_create_dummy_thumbnails.
Qed.

Lemma post_orca_metadata e d names profile analysis material slicer_type :
  post (has_parts d names)
       (orca_metadata e d profile analysis material slicer_type)
       (fun _ => has_parts d
          ("Metadata/model_settings.json" :: "Metadata/Slic3r_PE_model.json"
           :: "Metadata/Slic3r_PE.json" :: names)).
Proof.
  unfold orca_metadata.
  step_keep (@preserves_lift (gmap string value)).
  do 2 step_write. apply post_write_part.
Qed.

Lemma post_pre {A} (P P' : world -> Prop) (m : M A) Q :
  (forall w, P w -> P' w) -> post P' m Q -> post P m Q.
Proof. intros HPP Hm w w' a HP. apply Hm. now apply HPP. Qed.

Lemma has_parts_cover d names names' w :
  Forall (fun n => n ∈ names) names' ->
  has_parts d names w -> has_parts d names' w.
Proof.
  intros Hcover. apply has_parts_weaken. intros n Hn.
  rewrite List.Forall_forall in Hcover. apply Hcover, list_elem_of_In, Hn.
Qed.

(** Membership in a list that is written out. *)
Ltac in_list :=
  apply list_elem_of_In; cbn [In]; repeat (first [left; reflexivity|right]).

(** The parts in hand before the archive is written cover the required
    ones. *)
Ltac parts_covered E :=
  intros ?; apply has_parts_cover; unfold required_parts; rewrite E;
  repeat (constructor; [in_list|]); constructor.

Lemma post_assemble_3mf e out d model_path profile analysis material
    slicer_type plate :
  post (fun _ => True)
       (assemble_3mf e out d model_path profile analysis material slicer_type
          plate)
       (fun p w' => p = out
          /\ exists entries, archives w' !! out = Some entries
               /\ Forall (fun n => n ∈ entries) (required_parts slicer_type)).
Proof.
  unfold assemble_3mf.
  eapply post_bind; [apply post_makedirs_temp|intros ?].
  eapply post_bind.
  { apply preserves_post. destruct (load e model_path);
      [apply preserves_ret|apply preserves_raise]. }
  intros mesh.
  step_keep preserves_makedirs_sub.
  step_keep (@preserves_lift Placement.model_3mf).
  destruct (String.eqb slicer_type "elegoo_orca") eqn:E.
  - eapply post_bind.
    { step_write. step_keep preserves_makedirs_sub. step_write.
      step_keep preserves_makedirs_sub. apply post_write_part. }
    intros ?. step_write. step_keep preserves_makedirs_sub. step_write.
    step_keep preserves_makedirs_sub.
    eapply post_bind; [apply post_elegoo_metadata|intros ?].
    eapply post_bind.
    { eapply post_pre;
        [|apply (post_write_archive e out d (required_parts slicer_type))].
      parts_covered E. }
    intros ?. apply post_ret. intros w1 Hw. split; [reflexivity|exact Hw].
  - eapply post_bind; [apply post_write_part|intros ?].
    step_write. step_keep preserves_makedirs_sub. step_write.
    step_keep preserves_makedirs_sub.
    eapply post_bind; [apply post_orca_metadata|intros ?].
    eapply post_bind.
    { eapply post_pre;
        [|apply (post_write_archive e out d (required_parts slicer_type))].
      parts_covered E. }
    intros ?. apply post_ret. intros w1 Hw. split; [reflexivity|exact Hw].
Qed.

(** The cleanup of the [finally] block leaves the archive alone, so what
    the assembly wrote is what the caller finds. *)
Lemma post_generate_3mf e model_path profile analysis base_filename material
    slicer_type plate :
  post (fun _ => True)
       (_generate_3mf_with_settings e model_path profile analysis base_filename
          material slicer_type plate)
       (fun p w' => p = path_join output_dir (base_filename ++ ".3mf")
          /\ exists entries, archives w' !! p = Some entries
               /\ Forall (fun n => n ∈ entries) (required_parts slicer_type)).
Proof.
  intros w w' p _.
  unfold _generate_3mf_with_settings, try_finally.
  destruct (assemble_3mf _ _ _ _ _ _ _ _ _ w) as [w1 r1] eqn:Ebody.
  destruct (cleanup _ _ w1) as [w2 r2] eqn:Efin.
  destruct (cleanup_spec _ _ _ _ _ Efin) as (-> & Ha2 & _).
  intros [= <- ->].
  destruct (post_assemble_3mf _ _ _ _ _ _ _ _ _ _ _ _ I Ebody)
    as (-> & entries & He & Hall).
  split; [reflexivity|]. exists entries. rewrite Ha2. split; assumption.
Qed.

(** X10: archive completeness.  When [_generate_3mf_with_settings] returns,
    it returns the path of the archive, and the archive at that path holds
    every part the variant needs: the content types, the root relationships
    and their target [3D/3dmodel.model], for Elegoo also the model
    relationships with their target [3D/Objects/Object_1_1.model], and the
    variant's metadata parts. *)
Theorem archive_complete
    (e : env) (model_path : string) (profile : value)
    (analysis : gmap string value)
    (base_filename material slicer_type : string) (build_plate_size : Q)
    (w w' : world) (p : string) :
  _generate_3mf_with_settings e model_path profile analysis base_filename
    material slicer_type build_plate_size w = (w', inr p) ->
  p = path_join output_dir (base_filename ++ ".3mf")
  /\ exists entries,
       archives w' !! p = Some entries
       /\ Forall (fun n => n ∈ entries) (required_parts slicer_type).
Proof.
  intros Hrun.
  exact (post_generate_3mf e model_path profile analysis base_filename material
           slicer_type build_plate_size w w' p I Hrun).
Qed.

End WithContainerRepr.

Lemma archive_complete_witness :
  exists w' entries,
    _generate_3mf_with_settings (H := Settings.no_containers) no_pil_env
      "benchy.stl" (VDict (GeminiAgent.fallback_profile ∅)) sample_analysis
      "benchy_20240101_120000" "PLA" "orca" 220 empty_world
    = (w', inr "generated_profiles/benchy_20240101_120000.3mf")
    /\ archives w' !! "generated_profiles/benchy_20240101_120000.3mf"
       = Some entries
    /\ Forall (fun n => n ∈ entries) (required_parts "orca").
Proof.
  assert (Hrun : exists w',
    _generate_3mf_with_settings (H := Settings.no_containers) no_pil_env
      "benchy.stl" (VDict (GeminiAgent.fallback_profile ∅)) sample_analysis
      "benchy_20240101_120000" "PLA" "orca" 220 empty_world
    = (w', inr "generated_profiles/benchy_20240101_120000.3mf")).
  { eexists. vm_compute. reflexivity. }
  destruct Hrun as (w' & Hrun).
  destruct (archive_complete (H := Settings.no_containers) _ _ _ _ _ _ _ _ _ _ _
              Hrun) as (_ & entries & He & Hall).
  exists w', entries. split; [exact Hrun|]. split; [exact He|exact Hall].
Defined.

Section WithContainerRepr.

Context `{ContainerRepr}.

Lemma write_document_success e st path w w' :
  write_document e st path w = (w', inr tt) -> w' = add_document path w.
Proof.
  unfold write_document. destruct (can_write e path); [|discriminate].
  now intros [= <-].
Qed.

Lemma generate_json_config_success e profile analysis base material
    slicer_type w w' a :
  _generate_json_config e profile analysis base material slicer_type w
  = (w', inr a) ->
  a = path_join output_dir (base ++ "_config.json")
  /\ w' = add_document (path_join output_dir (base ++ "_config.json")) w.
Proof.
  unfold _generate_json_config, bind.
  destruct (lift JsonConfig (as_dict profile) w) as [w0 [f|p]] eqn:E0;
    [discriminate|].
  assert (w0 = w) as ->.
  { destruct (as_dict profile); simpl in E0; unfold raise, ret in E0;
      congruence. }
  destruct (write_document e JsonConfig _ w) as [w1 [f|[]]] eqn:E1;
    [discriminate|].
  apply write_document_success in E1. unfold ret. intros [= <- <-]. auto.
Qed.

Lemma generate_json_profile_success e profile analysis base material w w' a :
  _generate_json_profile e profile analysis base material w = (w', inr a) ->
  a = path_join output_dir (base ++ ".json")
  /\ w' = add_document (path_join output_dir (base ++ ".json")) w.
Proof.
  unfold _generate_json_profile, bind.
  destruct (lift JsonProfile (as_dict profile) w) as [w0 [f|p]] eqn:E0;
    [discriminate|].
  assert (w0 = w) as ->.
  { destruct (as_dict profile); simpl in E0; unfold raise, ret in E0;
      congruence. }
  destruct (write_document e JsonProfile _ w) as [w1 [f|[]]] eqn:E1;
    [discriminate|].
  apply write_document_success in E1. unfold ret. intros [= <- <-]. auto.
Qed.

Lemma generate_summary_success e analysis base w w' a :
  _generate_summary e analysis base w = (w', inr a) ->
  a = path_join output_dir (base ++ "_summary.txt")
  /\ w' = add_document (path_join output_dir (base ++ "_summary.txt")) w.
Proof.
  unfold _generate_summary, bind.
  destruct (summary_sections analysis) as [x|[]]; simpl; unfold raise, ret;
    [discriminate|].
  destruct (write_document e Summary _ w) as [w1 [f|[]]] eqn:E1;
    [discriminate|].
  apply write_document_success in E1.
  destruct (summary_join analysis) as [x|[]]; simpl; unfold raise, ret;
    [discriminate|].
  intros [= <- <-]. auto.
Qed.

(** What a successful [finish_profile] returns and leaves behind. *)
Lemma finish_profile_result e profile_data analysis base material slicer_type
    three_mf_path w w' result :
  finish_profile e profile_data analysis base material slicer_type
    three_mf_path w = (w', inr result) ->
  let table : gmap string string :=
    list_to_map
      [ ("json_config", path_join output_dir (base ++ "_config.json"));
        ("json_profile", path_join output_dir (base ++ ".json"));
        ("summary", path_join output_dir (base ++ "_summary.txt"));
        ("base_name", base) ] in
  result = match three_mf_path with
           | Some path =>
             if negb (String.eqb path "") then <["3mf_profile" := path]> table
             else table
           | None => table
           end
  /\ w' = add_document (path_join output_dir (base ++ "_summary.txt"))
            (add_document (path_join output_dir (base ++ ".json"))
               (add_document (path_join output_dir (base ++ "_config.json")) w)).
Proof.
  unfold finish_profile, bind.
  destruct (_generate_json_config _ _ _ _ _ _ w) as [w1 [f|a1]] eqn:E1;
    [discriminate|].
  destruct (_generate_json_profile _ _ _ _ _ w1) as [w2 [f|a2]] eqn:E2;
    [discriminate|].
  destruct (_generate_summary _ _ _ w2) as [w3 [f|a3]] eqn:E3;
    [discriminate|].
  apply generate_json_config_success in E1. destruct E1 as [-> ->].
  apply generate_json_profile_success in E2. destruct E2 as [-> ->].
  apply generate_summary_success in E3. destruct E3 as [-> ->].
  unfold ret. intros [= <- <-]. split; reflexivity.
Qed.

(** Whatever happens, [finish_profile] leaves working directories and
    archives alone and removes no plain file. *)
Lemma finish_profile_only_documents e profile_data analysis base material
    slicer_type three_mf_path :
  only_documents (finish_profile e profile_data analysis base material
                    slicer_type three_mf_path).
Proof.
  assert (Hdoc : forall st path, only_documents (write_document e st path)).
  { intros st path w w' r. unfold write_document.
    destruct (can_write e path); intros [= <- <-]; simpl;
      repeat split; set_solver. }
  assert (Hret : forall A (a : A), only_documents (ret a)).
  { intros A a w w' r [= <- <-]. repeat split; set_solver. }
  assert (Hlift : forall A st (x : exn + A), only_documents (lift st x)).
  { intros A st [x|a] w w' r [= <- <-]; repeat split; set_solver. }
  assert (Hbind : forall A B (m : M A) (k : A -> M B),
             only_documents m -> (forall a, only_documents (k a)) ->
             only_documents (bind m k)).
  { intros A B m k Hm Hk w w' r. unfold bind.
    destruct (m w) as [w1 [f|a]] eqn:E.
    - intros [= <- <-]. destruct (Hm _ _ _ E) as (? & ? & ?). auto.
    - intros Ek. destruct (Hm _ _ _ E) as (? & ? & ?).
      destruct (Hk a _ _ _ Ek) as (? & ? & ?).
      repeat split; [congruence|congruence|set_solver]. }
  unfold finish_profile, _generate_json_config, _generate_json_profile,
    _generate_summary.
  repeat first [apply Hret | apply Hlift | apply Hdoc | apply Hbind; [|intros ?]].
Qed.

(** X11: without a usable model file (no path given, an empty path, or a
    path that does not exist) [generate_profile] does not attempt the 3MF
    step at all: it creates no working directory, touches no archive,
    removes no plain file, and a result it returns has no ["3mf_profile"]
    entry. *)
Theorem no_model_no_archive
    (e : env) (analysis : gmap string value) (model_name material : string)
    (model_path : option string) (slicer_type : string) (build_plate_size : Q)
    (w w' : world) (r : failure + gmap string string) :
  model_available e model_path = false ->
  generate_profile e analysis model_name material model_path slicer_type
    build_plate_size w = (w', r) ->
  temp_dirs w' = temp_dirs w /\ archives w' = archives w
  /\ documents w ⊆ documents w'
  /\ (forall result, r = inr result -> result !! "3mf_profile" = None).
Proof.
  intros Havail Hrun.
  assert (Hgen :
    generate_profile e analysis model_name material model_path slicer_type
      build_plate_size w
    = finish_profile e (get analysis "profile" (VDict ∅)) analysis
        (_sanitize_filename model_name ++ "_" ++ now e)%string material
        slicer_type None w).
  { unfold generate_profile. destruct model_path as [path|];
      [rewrite Havail|]; reflexivity. }
  rewrite Hgen in Hrun.
  destruct (finish_profile_only_documents _ _ _ _ _ _ _ _ _ _ Hrun)
    as (Ht & Ha & Hd).
  repeat split; try assumption.
  intros result ->. apply finish_profile_result in Hrun.
  destruct Hrun as [-> _]. reflexivity.
Qed.

End WithContainerRepr.

Lemma no_model_no_archive_witness :
  exists w' result,
    generate_profile (H := Settings.no_containers) no_model_env sample_analysis
      "benchy.stl" "PLA" (Some "benchy.stl") "elegoo_orca" 220 empty_world
    = (w', inr result)
    /\ temp_dirs w' = temp_dirs empty_world
    /\ archives w' = archives empty_world
    /\ result !! "3mf_profile" = None.
Proof.
  set (w1 := add_document "generated_profiles/benchy_20240101_120000_summary.txt"
               (add_document "generated_profiles/benchy_20240101_120000.json"
                  (add_document "generated_profiles/benchy_20240101_120000_config.json"
                     empty_world))).
  set (result := list_to_map
         [ ("json_config", "generated_profiles/benchy_20240101_120000_config.json");
           ("json_profile", "generated_profiles/benchy_20240101_120000.json");
           ("summary", "generated_profiles/benchy_20240101_120000_summary.txt");
           ("base_name", "benchy_20240101_120000") ] : gmap string string).
  assert (Hrun :
    generate_profile (H := Settings.no_containers) no_model_env sample_analysis
      "benchy.stl" "PLA" (Some "benchy.stl") "elegoo_orca" 220 empty_world
    = (w1, inr result)) by reflexivity.
  destruct (no_model_no_archive (H := Settings.no_containers) no_model_env
              sample_analysis "benchy.stl" "PLA" (Some "benchy.stl")
              "elegoo_orca" 220 empty_world w1 (inr result) eq_refl Hrun)
    as (Ht & Ha & _ & Hno).
  exists w1, result. split; [exact Hrun|].
  split; [exact Ht|]. split; [exact Ha|]. now apply Hno.
Defined.

Section WithContainerRepr.

Context `{ContainerRepr}.

(** [generate_profile] is [finish_profile] run after the 3MF step, which
    hands over a path only when it was attempted and succeeded. *)
Lemma generate_profile_steps e analysis model_name material model_path
    slicer_type plate w :
  let profile_data := get analysis "profile" (VDict ∅) in
  let base := (_sanitize_filename model_name ++ "_" ++ now e)%string in
  exists w1 o,
    generate_profile e analysis model_name material model_path slicer_type
      plate w
    = finish_profile e profile_data analysis base material slicer_type o w1
    /\ (o = None
        \/ exists path out,
             o = Some out /\ model_path = Some path
             /\ model_available e model_path = true
             /\ _generate_3mf_with_settings e path profile_data analysis base
                  material slicer_type plate w = (w1, inr out)).
Proof.
  intros profile_data base. unfold generate_profile.
  fold profile_data. fold base.
  destruct model_path as [path|]; [|exists w, None; split; [reflexivity|now left]].
  destruct (model_available e (Some path)) eqn:Ea;
    [|exists w, None; split; [reflexivity|now left]].
  destruct (_generate_3mf_with_settings e path profile_data analysis base
              material slicer_type plate w) as [w1 [f|out]] eqn:E3.
  - exists w1, None. split; [|now left].
    unfold bind at 1. unfold try_except, bind at 1. rewrite E3. reflexivity.
  - exists w1, (Some out). split.
    + unfold bind at 1. unfold try_except, bind at 1. rewrite E3. reflexivity.
    + right. exists path, out. auto.
Qed.

(** X12: every file named in the result of [generate_profile] exists when
    it returns: the JSON config, the JSON profile and the summary are among
    the plain files, and a ["3mf_profile"] entry, present only when a model
    was available, is the path of an archive that holds the parts its
    variant needs. *)
Theorem result_files_exist
    (e : env) (analysis : gmap string value) (model_name material : string)
    (model_path : option string) (slicer_type : string) (build_plate_size : Q)
    (w w' : world) (result : gmap string string) :
  generate_profile e analysis model_name material model_path slicer_type
    build_plate_size w = (w', inr result) ->
  let base := (_sanitize_filename model_name ++ "_" ++ now e)%string in
  (result !! "json_config"
     = Some (path_join output_dir (base ++ "_config.json"))
   /\ path_join output_dir (base ++ "_config.json") ∈ documents w')
  /\ (result !! "json_profile" = Some (path_join output_dir (base ++ ".json"))
      /\ path_join output_dir (base ++ ".json") ∈ documents w')
  /\ (result !! "summary"
        = Some (path_join output_dir (base ++ "_summary.txt"))
      /\ path_join output_dir (base ++ "_summary.txt") ∈ documents w')
  /\ result !! "base_name" = Some base
  /\ (forall p, result !! "3mf_profile" = Some p ->
        p = path_join output_dir (base ++ ".3mf")
        /\ model_available e model_path = true
        /\ exists entries,
             archives w' !! p = Some entries
             /\ Forall (fun n => n ∈ entries) (required_parts slicer_type)).
Proof.
  intros Hrun base.
  destruct (generate_profile_steps e analysis model_name material model_path
              slicer_type build_plate_size w) as (w1 & o & Hgen & Ho).
  fold base in Hgen, Ho. rewrite Hgen in Hrun.
  apply finish_profile_result in Hrun. cbv zeta in Hrun.
  destruct Hrun as [Hres ->].
  assert (Hdocs :
    path_join output_dir (base ++ "_config.json") ∈ documents
      (add_document (path_join output_dir (base ++ "_summary.txt"))
         (add_document (path_join output_dir (base ++ ".json"))
            (add_document (path_join output_dir (base ++ "_config.json")) w1)))
    /\ path_join output_dir (base ++ ".json") ∈ documents
      (add_document (path_join output_dir (base ++ "_summary.txt"))
         (add_document (path_join output_dir (base ++ ".json"))
            (add_document (path_join output_dir (base ++ "_config.json")) w1)))
    /\ path_join output_dir (base ++ "_summary.txt") ∈ documents
      (add_document (path_join output_dir (base ++ "_summary.txt"))
         (add_document (path_join output_dir (base ++ ".json"))
            (add_document (path_join output_dir (base ++ "_config.json")) w1)))).
  { unfold add_document. simpl.
    repeat split;
      repeat (apply elem_of_union;
              first [left; apply elem_of_singleton; reflexivity|right]). }
  destruct Hdocs as (D1 & D2 & D3).
  assert (Htable : forall (t : gmap string string),
    t = list_to_map
          [ ("json_config", path_join output_dir (base ++ "_config.json"));
            ("json_profile", path_join output_dir (base ++ ".json"));
            ("summary", path_join output_dir (base ++ "_summary.txt"));
            ("base_name", base) ] ->
    t !! "json_config" = Some (path_join output_dir (base ++ "_config.json"))
    /\ t !! "json_profile" = Some (path_join output_dir (base ++ ".json"))
    /\ t !! "summary" = Some (path_join output_dir (base ++ "_summary.txt"))
    /\ t !! "base_name" = Some base
    /\ t !! "3mf_profile" = None).
  { intros t ->. repeat split; reflexivity. }
  destruct (Htable _ eq_refl) as (T1 & T2 & T3 & T4 & T5).
  destruct Ho as [->|(path & out & -> & -> & Ha & E3)].
  - subst result. split; [split; assumption|]. split; [split; assumption|].
    split; [split; assumption|]. split; [assumption|].
    intros q Hq. rewrite T5 in Hq. discriminate.
  - destruct (post_generate_3mf _ _ _ _ _ _ _ _ _ _ _ I E3)
      as (-> & entries & He & Hall).
    destruct (negb (String.eqb (path_join output_dir (base ++ ".3mf")) ""));
      subst result.
    + rewrite !lookup_insert_ne by discriminate.
      split; [split; assumption|]. split; [split; assumption|].
      split; [split; assumption|]. split; [assumption|].
      intros q Hq. rewrite lookup_insert_eq in Hq. injection Hq as <-.
      split; [reflexivity|]. split; [exact Ha|].
      exists entries. split; [exact He|exact Hall].
    + split; [split; assumption|]. split; [split; assumption|].
      split; [split; assumption|]. split; [assumption|].
      intros q Hq. rewrite T5 in Hq. discriminate.
Qed.

End WithContainerRepr.

Lemma result_files_exist_witness :
  exists w' result,
    generate_profile (H := Settings.no_containers) no_pil_env sample_analysis
      "benchy.stl" "PLA" (Some "benchy.stl") "orca" 220 empty_world
    = (w', inr result)
    /\ result !! "3mf_profile"
       = Some "generated_profiles/benchy_20240101_120000.3mf"
    /\ is_Some (archives w' !! "generated_profiles/benchy_20240101_120000.3mf")
    /\ "generated_profiles/benchy_20240101_120000_config.json" ∈ documents w'.
Proof.
  set (w1 := add_document "generated_profiles/benchy_20240101_120000_summary.txt"
               (add_document "generated_profiles/benchy_20240101_120000.json"
                  (add_document "generated_profiles/benchy_20240101_120000_config.json"
                     {| temp_dirs := ∅;
                        archives :=
                          {[ "generated_profiles/benchy_20240101_120000.3mf" :=
                               [ "[Content_Types].xml"; "3D/3dmodel.model";
                                 "_rels/.rels"; "Metadata/Slic3r_PE.json";
                                 "Metadata/Slic3r_PE_model.json";
                                 "Metadata/model_settings.json" ] ]};
                        documents := ∅ |}))).
  set (result := <["3mf_profile" := "generated_profiles/benchy_20240101_120000.3mf"]>
         (list_to_map
            [ ("json_config", "generated_profiles/benchy_20240101_120000_config.json");
              ("json_profile", "generated_profiles/benchy_20240101_120000.json");
              ("summary", "generated_profiles/benchy_20240101_120000_summary.txt");
              ("base_name", "benchy_20240101_120000") ]) : gmap string string).
  assert (Hrun :
    generate_profile (H := Settings.no_containers) no_pil_env sample_analysis
      "benchy.stl" "PLA" (Some "benchy.stl") "orca" 220 empty_world
    = (w1, inr result)) by reflexivity.
  assert (H3 : result !! "3mf_profile"
               = Some "generated_profiles/benchy_20240101_120000.3mf")
    by reflexivity.
  destruct (result_files_exist (H := Settings.no_containers) no_pil_env
              sample_analysis "benchy.stl" "PLA" (Some "benchy.stl") "orca" 220
              empty_world w1 result Hrun) as ((_ & D1) & _ & _ & _ & Harch).
  destruct (Harch _ H3) as (_ & _ & entries & He & _).
  exists w1, result. split; [exact Hrun|]. split; [exact H3|].
  split; [rewrite He; eauto|exact D1].
Defined.

End PackagingMore.

(** * Properties of the file names *)

Section NamingMore.

Import Py Packaging PackagingLogic.

Lemma substring_length_le (n m : nat) (s : string) :
  String.length (String.substring n m s) <= m.
Proof.
  revert n m. induction s as [|c s IH]; intros n m.
  - destruct n, m; simpl; lia.
  - destruct n as [|n]; simpl.
    + destruct m as [|m]; simpl; [lia|]. specialize (IH 0 m). lia.
    + apply IH.
Qed.

Lemma string_forall_substring (P : ascii -> bool) (n m : nat) (s : string) :
  string_forall P s = true -> string_forall P (String.substring n m s) = true.
Proof.
  revert n m. induction s as [|c s IH]; intros n m Hs.
  - destruct n, m; reflexivity.
  - simpl in Hs. apply andb_true_iff in Hs as [Hc Hs].
    destruct n as [|n]; simpl.
    + destruct m as [|m]; simpl; [reflexivity|].
      rewrite Hc. simpl. now apply IH.
    + now apply IH.
Qed.

Lemma replace_invalid_valid (s : string) :
  string_forall (fun c => negb (is_invalid_char c)) (replace_invalid s) = true.
Proof.
  induction s as [|c s IH]; simpl; [reflexivity|].
  rewrite IH, andb_true_r.
  destruct (is_invalid_char c) eqn:E; [reflexivity|]. now rewrite E.
Qed.

Lemma no_slash_not_found (s : string) :
  string_forall (fun c => negb (is_invalid_char c)) s = true ->
  contains "/" s = false.
Proof.
  unfold contains, find. generalize 0%nat.
  induction s as [|c s IH]; intros p Hs; [reflexivity|].
  simpl in Hs. apply andb_true_iff in Hs as [Hc Hs].
  cbn [find_from String.prefix].
  destruct (ascii_dec "/" c) as [<-|_]; [discriminate|].
  now apply IH.
Qed.

(** X13: a sanitized name has at most 50 characters and none of the
    characters [<>:], double quote, slash, backslash, [|?*]; in particular it
    names no directory. *)
Theorem sanitized_name_safe (name : string) :
  String.length (_sanitize_filename name) <= 50
  /\ string_forall (fun c => negb (is_invalid_char c)) (_sanitize_filename name)
     = true
  /\ contains "/" (_sanitize_filename name) = false.
Proof.
  unfold _sanitize_filename, slice.
  pose proof (replace_invalid_valid (splitext_root (basename name))) as Hv.
  apply (string_forall_substring _ 0 (50 - 0)) in Hv.
  split; [apply substring_length_le|]. split; [exact Hv|].
  apply no_slash_not_found. exact Hv.
Qed.

End NamingMore.

(** * Properties of the settings documents *)

Section SettingsMore.

Import Py GeminiAgent Settings SettingsLogic.

Lemma is_tree_fallback `{ContainerRepr} (overhangs : gmap string value) :
  is_tree (fallback_profile overhangs)
  = truthy (get overhangs "recommend_tree_support" (VBool false)).
Proof.
  destruct (fallback_profile_support overhangs) as (_ & Ht & Hs).
  assert (Hget : get (fallback_profile overhangs) "support_type" (VStr "")
    = VStr (if truthy (get overhangs "recommend_tree_support" (VBool false))
            then "tree_auto" else "normal")).
  { unfold get at 1. rewrite Ht. reflexivity. }
  unfold is_tree. rewrite Hs, Hget.
  destruct (truthy (get overhangs "recommend_tree_support" (VBool false)));
    reflexivity.
Qed.

Section WithContainerRepr.

Context `{ContainerRepr}.

(** The settings that are merged into the defaults have exactly the
    overridden keys. *)
Lemma elegoo_merge (defaults profile analysis : gmap string value)
    (material : string) :
  exists ai : gmap string value,
    _generate_elegoo_project_settings defaults profile analysis material
    = ai ∪ defaults
    /\ _generate_elegoo_project_settings ∅ profile analysis material = ai ∪ ∅
    /\ forall k, is_Some (ai !! k) <-> k ∈ elegoo_overridden_keys profile.
Proof.
  unfold _generate_elegoo_project_settings, elegoo_overridden_keys, update.
  destruct (is_tree profile && truthy (get profile "support_material" (VBool false))).
  - eexists. split; [reflexivity|]. split; [reflexivity|]. intros k.
    rewrite elem_of_app, <- ai_settings_tree_keys,
      <- (ai_settings_base_keys profile material).
    rewrite <- !elem_of_dom, dom_union_L. apply elem_of_union.
  - eexists. split; [reflexivity|]. split; [reflexivity|]. intros k.
    apply ai_settings_base_keys.
Qed.

(** X14: the Elegoo project settings are the loaded defaults with only the
    AI-generated keys replaced: a key that is not overridden keeps the value
    of the defaults (and stays absent when they lack it); an overridden key
    is always present, with a value that does not depend on the defaults. *)
Theorem elegoo_defaults_kept
    (defaults profile analysis : gmap string value) (material k : string) :
  let settings :=
    _generate_elegoo_project_settings defaults profile analysis material in
  (k ∉ elegoo_overridden_keys profile -> settings !! k = defaults !! k)
  /\ (k ∈ elegoo_overridden_keys profile ->
      is_Some (settings !! k)
      /\ settings !! k
         = _generate_elegoo_project_settings ∅ profile analysis material !! k).
Proof.
  destruct (elegoo_merge defaults profile analysis material)
    as (ai & -> & -> & Hkeys).
  cbv zeta. split; intros Hk.
  - apply lookup_union_r. apply eq_None_not_Some. now rewrite Hkeys.
  - apply Hkeys in Hk. rewrite !lookup_union_l' by exact Hk. split; [exact Hk|reflexivity].
Qed.

End WithContainerRepr.

Lemma elegoo_defaults_kept_witness :
  let defaults : gmap string value :=
    {[ "tree_support_top_rate" := VStr "15%"; "layer_height" := VStr "0.3" ]} in
  let settings :=
    _generate_elegoo_project_settings (H := no_containers) defaults
      (fallback_profile ∅) ∅ "PLA" in
  settings !! "tree_support_top_rate" = Some (VStr "15%")
  /\ settings !! "layer_height" = Some (VStr "0.2").
Proof.
  intros defaults settings. split.
  - apply (proj1 (elegoo_defaults_kept (H := no_containers) defaults
                    (fallback_profile ∅) ∅ "PLA" "tree_support_top_rate")).
    apply (bool_decide_unpack _). vm_compute. exact I.
  - destruct (proj2 (elegoo_defaults_kept (H := no_containers) defaults
                       (fallback_profile ∅) ∅ "PLA" "layer_height")) as [_ E].
    + apply (bool_decide_unpack _). vm_compute. exact I.
    + fold settings in E. rewrite E. reflexivity.
Defined.

Section WithContainerRepr.

Context `{ContainerRepr}.

(** X15: from the features to the settings documents.  For the fallback
    profile of an overhang analysis, supports are enabled in both documents
    exactly when the features' [needs_supports] flag is true.  The Elegoo
    settings select tree supports as soon as [recommend_tree_support] is
    true, even with supports disabled, while the embedded configuration
    names tree supports, and both documents carry tree parameters, only
    when both flags are true. *)
Theorem fallback_supports_reach_settings
    (defaults overhangs analysis : gmap string value)
    (material generated_at slicer_type : string) :
  let profile := fallback_profile overhangs in
  let needs := truthy (get overhangs "needs_supports" (VBool false)) in
  let tree := truthy (get overhangs "recommend_tree_support" (VBool false)) in
  let elegoo :=
    _generate_elegoo_project_settings defaults profile analysis material in
  let orca :=
    _generate_3mf_config_json generated_at profile analysis material
      slicer_type in
  elegoo !! "enable_support" = Some (VStr (if needs then "1" else "0"))
  /\ elegoo !! "support_type"
     = Some (VStr (if tree then "tree(auto)" else "normal(auto)"))
  /\ elegoo !! "tree_support_top_rate"
     = (if tree && needs then Some (VStr "30%")
        else defaults !! "tree_support_top_rate")
  /\ exists print,
       orca !! "print" = Some (VDict print)
       /\ print !! "enable_support" = Some (VInt (if needs then 1 else 0))
       /\ print !! "support_type"
          = Some (VStr (if tree && needs then "tree" else "normal"))
       /\ print !! "support_style"
          = Some (VStr (if tree && needs then "tree" else "default"))
       /\ print !! "tree_support_branch_angle"
          = (if tree && needs then Some (VInt 45) else None).
Proof.
  intros profile needs tree elegoo orca.
  assert (Htree : is_tree profile = tree) by apply is_tree_fallback.
  assert (Hneeds : truthy (get profile "support_material" (VBool false)) = needs).
  { destruct (fallback_profile_support overhangs) as (Hm & _).
    unfold get at 1. fold profile in Hm. rewrite Hm. reflexivity. }
  subst elegoo orca.
  unfold _generate_elegoo_project_settings, _generate_3mf_config_json, update.
  rewrite Htree, Hneeds.
  assert (Hb1 : ai_settings_base profile material !! "enable_support"
                = Some (VStr (if needs then "1" else "0"))).
  { unfold ai_settings_base. rewrite Hneeds. destruct needs; reflexivity. }
  assert (Hb2 : ai_settings_base profile material !! "support_type"
                = Some (VStr (if tree then "tree(auto)" else "normal(auto)"))).
  { unfold ai_settings_base. rewrite Htree. destruct tree; reflexivity. }
  assert (Hb3 : ai_settings_base profile material !! "tree_support_top_rate"
                = None) by reflexivity.
  assert (Hangle : get profile "tree_support_branch_angle" (VInt 45) = VInt 45)
    by reflexivity.
  clearbody profile needs tree.
  destruct tree, needs; cbn [andb].
  all: split;
    [apply lookup_union_Some_l;
     try (rewrite lookup_union_r by reflexivity); exact Hb1|].
  all: split;
    [apply lookup_union_Some_l;
     try (rewrite lookup_union_r by reflexivity); exact Hb2|].
  all: split;
    [first [ apply lookup_union_Some_l, lookup_union_Some_l; reflexivity
           | apply lookup_union_r; exact Hb3 ]|].
  all: eexists; split; [reflexivity|].
  all: do 3 (split; [reflexivity|]).
  1: transitivity (Some (get profile "tree_support_branch_angle" (VInt 45)));
    [reflexivity|now rewrite Hangle].
  all: reflexivity.
Qed.

End WithContainerRepr.

End SettingsMore.

(** * Properties of the reply parsing *)

Section GeminiMore.

Import Py GeminiAgent PackagingLogic GeminiLogic.

Local Open Scope string_scope.

(** X16: whatever the model call produced, [analyze_features] either
    raises [RuntimeError] or returns a dictionary that carries the
    features' model hash and whose ["source"] says where it comes from:
    ["gemini_ai"] or ["fallback"]. *)
Theorem analyze_features_outcome
    (json_loads : string -> exn + value) (generate_content : exn + string)
    (features : gmap string value) :
  match analyze_features json_loads generate_content features with
  | inl x => x = RuntimeError
  | inr v =>
    exists d, v = VDict d
      /\ d !! "model_hash" = Some (get features "model_hash" (VStr ""))
      /\ (d !! "source" = Some (VStr "gemini_ai")
          \/ d !! "source" = Some (VStr "fallback"))
  end.
Proof.
  unfold analyze_features. destruct generate_content as [x|text]; [reflexivity|].
  unfold _parse_analysis_response.
  destruct (json_loads (extract_json_text text)) as [x|[| | | | | |a]];
    try reflexivity.
  - destruct x; try reflexivity.
    unfold _generate_fallback_analysis.
    destruct (get_dict features "complexity"); [|reflexivity].
    destruct (get_dict features "overhangs"); [|reflexivity].
    eexists. split; [reflexivity|]. split; [reflexivity|]. right. reflexivity.
  - eexists. split; [reflexivity|]. split.
    + rewrite lookup_insert_ne by discriminate. apply lookup_insert_eq.
    + left. apply lookup_insert_eq.
Qed.

(** X17: a reply that is valid JSON but not an object (a list, a number, a
    string, [null], ...) does not get the fallback: storing the metadata
    raises [TypeError], which [analyze_features] turns into
    [RuntimeError]. *)
Theorem non_object_reply_is_an_error
    (json_loads : string -> exn + value) (response_text : string)
    (features : gmap string value) (v : value) :
  json_loads (extract_json_text response_text) = inr v ->
  (forall d, v <> VDict d) ->
  _parse_analysis_response json_loads response_text features = inl TypeError
  /\ analyze_features json_loads (inr response_text) features
     = inl RuntimeError.
Proof.
  intros Hjson Hv. unfold analyze_features, _parse_analysis_response.
  rewrite Hjson. destruct v; try (split; reflexivity). now destruct (Hv d).
Qed.

Lemma non_object_reply_is_an_error_witness :
  _parse_analysis_response (fun _ => inr (VList [])) "[]" ∅ = inl TypeError
  /\ analyze_features (fun _ => inr (VList [])) (inr "[]") ∅ = inl RuntimeError.
Proof.
  apply (non_object_reply_is_an_error (fun _ => inr (VList [])) "[]" ∅ (VList []));
    [reflexivity|discriminate].
Defined.

(** *** Code fences *)

#[local] Arguments String.append !s1 s2 : simpl nomatch.

Lemma string_app_assoc (a b c : string) : (a ++ b) ++ c = a ++ b ++ c.
Proof. induction a as [|x a IH]; simpl; [reflexivity|]. now rewrite IH. Qed.

Lemma string_app_length (a b : string) :
  String.length (a ++ b) = String.length a + String.length b.
Proof. induction a as [|x a IH]; simpl; [reflexivity|]. now rewrite IH. Qed.

Lemma lstrip_app (p : string) (c : ascii) (r : string) :
  is_space c = false -> lstrip (p ++ String c r) = lstrip p ++ String c r.
Proof.
  intros Hc. induction p as [|x p IH]; simpl.
  - now rewrite Hc.
  - destruct (is_space x); [exact IH|reflexivity].
Qed.

Lemma rstrip_app (a : string) (c : ascii) (s : string) :
  is_space c = false -> rstrip (a ++ String c s) = a ++ String c (rstrip s).
Proof.
  intros Hc. induction a as [|x a IH].
  - simpl. rewrite Hc. now destruct (rstrip s).
  - change (rstrip ((String x a) ++ String c s))
      with (match rstrip (a ++ String c s) with
            | EmptyString =>
              if is_space x then EmptyString else String x EmptyString
            | r => String x r
            end).
    rewrite IH. now destruct a.
Qed.

Lemma no_backtick_app (a b : string) :
  no_backtick (a ++ b) = no_backtick a && no_backtick b.
Proof.
  unfold no_backtick. induction a as [|x a IH]; simpl; [reflexivity|].
  now rewrite IH, andb_assoc.
Qed.

Lemma no_backtick_lstrip (s : string) :
  no_backtick s = true -> no_backtick (lstrip s) = true.
Proof.
  unfold no_backtick. induction s as [|x s IH]; simpl; [reflexivity|].
  intros Hs. destruct (is_space x); [|exact Hs].
  apply andb_true_iff in Hs as [_ Hs]. now apply IH.
Qed.

Lemma no_backtick_rstrip (s : string) :
  no_backtick s = true -> no_backtick (rstrip s) = true.
Proof.
  unfold no_backtick. induction s as [|x s IH]; [reflexivity|].
  intros Hs. simpl in Hs. apply andb_true_iff in Hs as [Hx Hs].
  specialize (IH Hs).
  change (rstrip (String x s))
    with (match rstrip s with
          | EmptyString =>
            if is_space x then EmptyString else String x EmptyString
          | r => String x r
          end).
  destruct (rstrip s) as [|y r].
  - destruct (is_space x); simpl; [reflexivity|now rewrite Hx].
  - simpl in *. now rewrite Hx, IH.
Qed.

Lemma prefix_app (s r : string) : String.prefix s (s ++ r) = true.
Proof.
  induction s as [|x s IH]; simpl; [now destruct r|].
  destruct (ascii_dec x x); [exact IH|congruence].
Qed.

Lemma prefix_backtick_false (sub s : string) :
  no_backtick s = true -> String.prefix (String "`" sub) s = false.
Proof.
  destruct s as [|x s]; [reflexivity|]. unfold no_backtick.
  cbn [string_forall]. intros Hs. apply andb_true_iff in Hs as [Hx _].
  cbn [String.prefix]. destruct (ascii_dec "`" x) as [<-|_]; [discriminate|reflexivity].
Qed.

(** The first fence comes after a text without backticks. *)
Lemma find_after (sub p rest : string) (n : nat) :
  no_backtick p = true ->
  find_from (String "`" sub) (p ++ String "`" sub ++ rest) n
  = Some (n + String.length p).
Proof.
  revert n. induction p as [|x p IH]; intros n Hp.
  - change (EmptyString ++ String "`" sub ++ rest)
      with ((String "`" sub) ++ rest).
    destruct ((String "`" sub) ++ rest) eqn:E; [discriminate|].
    cbn [find_from]. rewrite <- E, prefix_app. simpl. f_equal. lia.
  - unfold no_backtick in Hp. simpl in Hp.
    apply andb_true_iff in Hp as [Hx Hp].
    change ((String x p) ++ String "`" sub ++ rest)
      with (String x (p ++ String "`" sub ++ rest)).
    cbn [find_from String.prefix].
    destruct (ascii_dec "`" x) as [<-|_]; [discriminate|].
    rewrite IH by exact Hp. simpl. f_equal. lia.
Qed.

Lemma rfind_from_app (sub a t : string) (n j : nat) :
  rfind_from sub t (n + String.length a) = Some j ->
  rfind_from sub (a ++ t) n = Some j.
Proof.
  revert n. induction a as [|x a IH]; intros n Hj.
  - simpl in *. now rewrite Nat.add_0_r in Hj.
  - change ((String x a) ++ t) with (String x (a ++ t)).
    cbn [rfind_from]. rewrite IH; [reflexivity|].
    simpl in Hj. now rewrite <- Nat.add_succ_comm in Hj.
Qed.

Lemma rfind_from_no_backtick (sub s : string) (n : nat) :
  no_backtick s = true -> rfind_from (String "`" sub) s n = None.
Proof.
  revert n. induction s as [|x s IH]; intros n Hs; [reflexivity|].
  cbn [rfind_from]. rewrite (prefix_backtick_false _ _ Hs).
  unfold no_backtick in Hs. simpl in Hs.
  apply andb_true_iff in Hs as [_ Hs]. now rewrite IH.
Qed.

Lemma rfind_from_cons_none (sub : string) (x : ascii) (s : string) (n : nat) :
  rfind_from sub s (S n) = None ->
  rfind_from sub (String x s) n
  = if String.prefix sub (String x s) then Some n else None.
Proof. intros E. cbn [rfind_from]. now rewrite E. Qed.

Lemma substring_app_skip (a t : string) (n m : nat) :
  String.substring (String.length a + n) m (a ++ t) = String.substring n m t.
Proof. induction a as [|x a IH]; simpl; [reflexivity|exact IH]. Qed.

Lemma substring_app_take (b c : string) :
  String.substring 0 (String.length b) (b ++ c) = b.
Proof.
  induction b as [|x b IH]; simpl.
  - now destruct c.
  - now rewrite IH.
Qed.

Lemma substring_none (n : nat) (s : string) : String.substring n 0 s = "".
Proof.
  revert n. induction s as [|x s IH]; intros [|n]; simpl; try reflexivity.
  apply IH.
Qed.

(** [strip] only touches what comes before the first and after the last
    character that is not white space. *)
Lemma strip_between (pre : string) (c1 : ascii) (mid : string) (c2 : ascii)
    (post : string) :
  is_space c1 = false -> is_space c2 = false ->
  strip (pre ++ String c1 (mid ++ String c2 post))
  = lstrip pre ++ String c1 (mid ++ String c2 (rstrip post)).
Proof.
  intros H1 H2. unfold strip. rewrite lstrip_app by exact H1.
  change (String c1 (mid ++ String c2 post))
    with ((String c1 mid) ++ String c2 post).
  rewrite <- string_app_assoc, rstrip_app by exact H2.
  now rewrite string_app_assoc.
Qed.

Lemma prefix_same (c : ascii) (s1 s2 : string) :
  String.prefix (String c s1) (String c s2) = String.prefix s1 s2.
Proof. cbn [String.prefix]. destruct (ascii_dec c c); congruence. Qed.

Lemma find_from_no_backtick (sub s : string) (n : nat) :
  no_backtick s = true -> find_from (String "`" sub) s n = None.
Proof.
  revert n. induction s as [|x s IH]; intros n Hs; [reflexivity|].
  cbn [find_from]. rewrite (prefix_backtick_false _ _ Hs).
  unfold no_backtick in Hs. cbn [string_forall] in Hs.
  apply andb_true_iff in Hs as [_ Hs]. now apply IH.
Qed.

(** The last fence is the closing one when no backtick follows it. *)
Lemma rfind_closing (q : string) (m : nat) :
  no_backtick q = true -> rfind_from "```" ("```" ++ q) m = Some m.
Proof.
  intros Hq.
  change ("```" ++ q) with (String "`" (String "`" (String "`" q))).
  rewrite rfind_from_cons_none.
  - rewrite !prefix_same. now destruct q.
  - rewrite rfind_from_cons_none.
    + rewrite !prefix_same. now rewrite (prefix_backtick_false "" q Hq).
    + rewrite rfind_from_cons_none.
      * rewrite !prefix_same. now rewrite (prefix_backtick_false "`" q Hq).
      * now apply rfind_from_no_backtick.
Qed.

(** Without a closing fence the last fence is the opening one. *)
Lemma rfind_opening (b : string) (m : nat) :
  no_backtick b = true -> rfind_from "```" ("```json" ++ b) m = Some m.
Proof.
  intros Hb.
  change ("```json" ++ b)
    with (String "`" (String "`" (String "`" ("json" ++ b)))).
  assert (Hjb : no_backtick ("json" ++ b) = true) by exact Hb.
  rewrite rfind_from_cons_none.
  - rewrite !prefix_same. reflexivity.
  - rewrite rfind_from_cons_none.
    + rewrite !prefix_same. now rewrite (prefix_backtick_false "" _ Hjb).
    + rewrite rfind_from_cons_none.
      * rewrite !prefix_same. now rewrite (prefix_backtick_false "`" _ Hjb).
      * now apply rfind_from_no_backtick.
Qed.

(** X18: a reply that wraps its JSON in a [```json] fence, the only
    backticks of the reply being those of the two fences, is parsed as the
    text between the fences, whatever comes before and after: the text
    handed to [json.loads] is the one that the bare body would give. *)
Theorem fenced_json_extracted (pre body post : string) :
  no_backtick pre = true -> no_backtick body = true ->
  no_backtick post = true ->
  extract_json_text (pre ++ "```json" ++ body ++ "```" ++ post) = strip body
  /\ extract_json_text body = strip body.
Proof.
  intros Hpre Hbody Hpost.
  set (p := lstrip pre). set (q := rstrip post).
  assert (Hp : no_backtick p = true) by now apply no_backtick_lstrip.
  assert (Hq : no_backtick q = true) by now apply no_backtick_rstrip.
  assert (Hstrip : strip (pre ++ "```json" ++ body ++ "```" ++ post)
                   = p ++ "```json" ++ body ++ "```" ++ q).
  { replace (pre ++ "```json" ++ body ++ "```" ++ post)
      with (pre ++ String "`" (("``json" ++ body ++ "``") ++ String "`" post))
      by (now rewrite !string_app_assoc).
    rewrite strip_between by reflexivity.
    now rewrite !string_app_assoc. }
  split.
  - unfold extract_json_text. rewrite Hstrip.
    assert (Hfind : find "```json" (p ++ "```json" ++ body ++ "```" ++ q)
                    = Some (String.length p))
      by exact (find_after "``json" p (body ++ "```" ++ q) 0 Hp).
    assert (Hrfind : rfind "```" (p ++ "```json" ++ body ++ "```" ++ q)
                     = Some (String.length p + 7 + String.length body)).
    { unfold rfind.
      replace (p ++ "```json" ++ body ++ "```" ++ q)
        with ((p ++ "```json" ++ body) ++ "```" ++ q)
        by now rewrite !string_app_assoc.
      apply rfind_from_app. rewrite rfind_closing by exact Hq.
      f_equal. rewrite !string_app_length. simpl. lia. }
    rewrite Hfind, Hrfind. unfold slice_to, slice. f_equal.
    replace (String.length p + 7 + String.length body - (String.length p + 7))
      with (String.length body) by lia.
    replace (String.length p + 7)
      with (String.length (p ++ "```json") + 0)
      by (rewrite string_app_length; simpl; lia).
    replace (p ++ "```json" ++ body ++ "```" ++ q)
      with ((p ++ "```json") ++ body ++ "```" ++ q)
      by now rewrite !string_app_assoc.
    rewrite substring_app_skip. apply substring_app_take.
  - unfold extract_json_text.
    assert (Hs : no_backtick (strip body) = true)
      by now apply no_backtick_rstrip, no_backtick_lstrip.
    unfold find. now rewrite !find_from_no_backtick by exact Hs.
Qed.

Lemma fenced_json_extracted_witness :
  extract_json_text
    ("Here is the profile: " ++ "```json" ++ "
{}
" ++ "```" ++ " Good luck!") = "{}".
Proof.
  apply (fenced_json_extracted "Here is the profile: " "
{}
" " Good luck!"); reflexivity.
Defined.

(** X19: a reply whose [```json] fence is never closed loses its content:
    the only fence is taken for the closing one as well, the text handed to
    [json.loads] is empty, and, [json.loads] rejecting the empty text, the
    result is the fallback, however valid the JSON after the fence. *)
Theorem unclosed_fence_discards_reply
    (json_loads : string -> exn + value) (pre body : string)
    (features : gmap string value) :
  no_backtick pre = true -> no_backtick body = true ->
  json_loads "" = inl JSONDecodeError ->
  extract_json_text (pre ++ "```json" ++ body) = ""
  /\ _parse_analysis_response json_loads (pre ++ "```json" ++ body) features
     = _generate_fallback_analysis features "".
Proof.
  intros Hpre Hbody Hjson.
  set (p := lstrip pre). set (b := rstrip body).
  assert (Hp : no_backtick p = true) by now apply no_backtick_lstrip.
  assert (Hb : no_backtick b = true) by now apply no_backtick_rstrip.
  assert (Hstrip : strip (pre ++ "```json" ++ body) = p ++ "```json" ++ b).
  { exact (strip_between pre "`" "``jso" "n" body eq_refl eq_refl). }
  assert (Hrfind : rfind "```" (p ++ "```json" ++ b) = Some (String.length p)).
  { unfold rfind. apply rfind_from_app. now apply rfind_opening. }
  assert (Hfind : find "```json" (p ++ "```json" ++ b) = Some (String.length p))
    by exact (find_after "``json" p b 0 Hp).
  assert (Hextract : extract_json_text (pre ++ "```json" ++ body) = "").
  { unfold extract_json_text. rewrite Hstrip, Hfind, Hrfind.
    unfold slice_to, slice.
    replace (String.length p - (String.length p + 7)) with 0 by lia.
    now rewrite substring_none. }
  split; [exact Hextract|].
  unfold _parse_analysis_response. now rewrite Hextract, Hjson.
Qed.

Lemma unclosed_fence_discards_reply_witness :
  extract_json_text ("Sure: " ++ "```json" ++ " {}") = ""
  /\ _parse_analysis_response (fun _ => inl JSONDecodeError)
       ("Sure: " ++ "```json" ++ " {}") ∅
     = _generate_fallback_analysis ∅ "".
Proof.
  apply (unclosed_fence_discards_reply (fun _ => inl JSONDecodeError)
           "Sure: " " {}" ∅);
    reflexivity.
Defined.

End GeminiMore.

(** * Properties of the pipeline as a whole *)

Section PipelineMore.

Import Py GeminiAgent Packaging PackagingLogic.

Local Open Scope py_scope.

Section WithContainerRepr.

Context `{ContainerRepr}.

(** The three simpler generators succeed when nothing stands in their
    way, whatever the outcome of the 3MF step. *)
Lemma finish_profile_succeeds e p analysis base material slicer_type
    three_mf_path w :
  summary_lines analysis = inr tt ->
  can_write e (path_join output_dir (base ++ "_config.json")) = true ->
  can_write e (path_join output_dir (base ++ ".json")) = true ->
  can_write e (path_join output_dir (base ++ "_summary.txt")) = true ->
  exists w' result,
    finish_profile e (VDict p) analysis base material slicer_type
      three_mf_path w = (w', inr result).
Proof.
  intros Hs H1 H2 H3. unfold finish_profile.
  erewrite bind_ok by (apply generate_json_config_ok; exact H1).
  erewrite bind_ok by (apply generate_json_profile_ok; exact H2).
  erewrite bind_ok by (apply generate_summary_ok; [exact Hs|exact H3]).
  eexists. eexists. reflexivity.
Qed.

Lemma fallback_analysis_shape (features : gmap string value) (raw : string)
    (a : gmap string value) :
  _generate_fallback_analysis features raw = inr (VDict a) ->
  (exists overhangs, get a "profile" (VDict ∅) = VDict (fallback_profile overhangs))
  /\ summary_lines a = inr tt.
Proof.
  unfold _generate_fallback_analysis.
  destruct (get_dict features "complexity") as [complexity|]; [|discriminate].
  destruct (get_dict features "overhangs") as [overhangs|]; [|discriminate].
  intros [= <-]. split; [exists overhangs; reflexivity|reflexivity].
Qed.

(** X21: the fallback analysis is always fit for profile generation: given
    to [generate_profile] it yields a result as soon as the three plain
    files can be written, with or without a model. *)
Theorem fallback_analysis_accepted
    (e : env) (features : gmap string value) (raw : string)
    (a : gmap string value) (model_name material : string)
    (model_path : option string) (slicer_type : string) (build_plate_size : Q)
    (w : world) :
  let base := (_sanitize_filename model_name ++ "_" ++ now e)%string in
  _generate_fallback_analysis features raw = inr (VDict a) ->
  can_write e (path_join output_dir (base ++ "_config.json")) = true ->
  can_write e (path_join output_dir (base ++ ".json")) = true ->
  can_write e (path_join output_dir (base ++ "_summary.txt")) = true ->
  exists w' result,
    generate_profile e a model_name material model_path slicer_type
      build_plate_size w = (w', inr result)
    /\ result !! "json_config"
       = Some (path_join output_dir (base ++ "_config.json"))
    /\ result !! "summary"
       = Some (path_join output_dir (base ++ "_summary.txt")).
Proof.
  intros base Hfb H1 H2 H3.
  destruct (fallback_analysis_shape features raw a Hfb) as ([ov Hp] & Hs).
  destruct (generate_profile_steps e a model_name material model_path
              slicer_type build_plate_size w) as (w1 & o & Hgen & _).
  fold base in Hgen. rewrite Hgen.
  rewrite Hp.
  destruct (finish_profile_succeeds e (GeminiAgent.fallback_profile ov) a base
              material slicer_type o w1 Hs H1 H2 H3) as (w' & result & Hrun).
  exists w', result. split; [exact Hrun|].
  apply finish_profile_result in Hrun. cbv zeta in Hrun.
  destruct Hrun as [-> _].
  destruct o as [path|]; [destruct (negb (String.eqb path ""))|];
    rewrite ?lookup_insert_ne by discriminate; split; reflexivity.
Qed.

End WithContainerRepr.

Lemma fallback_analysis_accepted_witness :
  exists a w' result,
    _generate_fallback_analysis features_needing_tree "not JSON" = inr (VDict a)
    /\ generate_profile (H := Settings.no_containers) no_model_env a
         "benchy.stl" "PLA" None "elegoo_orca" 220 empty_world
       = (w', inr result)
    /\ result !! "summary"
       = Some "generated_profiles/benchy_20240101_120000_summary.txt".
Proof.
  destruct (_generate_fallback_analysis features_needing_tree "not JSON")
    as [x|[| | | | | |a]] eqn:Hfb; try discriminate Hfb.
  destruct (fallback_analysis_accepted (H := Settings.no_containers)
              no_model_env features_needing_tree "not JSON" a "benchy.stl"
              "PLA" None "elegoo_orca" 220 empty_world Hfb eq_refl eq_refl
              eq_refl) as (w' & result & Hrun & _ & Hsum).
  exists a, w', result. split; [reflexivity|]. split; [exact Hrun|exact Hsum].
Defined.

End PipelineMore.

(** * How the flags of the overhang analysis depend on each other *)

Section OverhangFlags.

Import FeatureExtractor.

Local Open Scope R_scope.

(** X22: the flags of the overhang analysis are nested.  [needs_supports]
    implies [has_overhangs]; with a threshold of at most 60 degrees (the
    default is 45) a recommendation of tree supports implies
    [has_overhangs] as well; and [support_complexity] is ["low"] exactly
    when neither supports nor tree supports are called for. *)
Theorem support_flags_nested (t : R) (mesh : Trimesh) (r : overhangs) :
  _detect_overhangs t mesh = Some r ->
  (needs_supports r = true -> has_overhangs r = true)
  /\ (t <= 60 -> recommend_tree_support r = true -> has_overhangs r = true)
  /\ (support_complexity r = "low"
      <-> needs_supports r = false /\ recommend_tree_support r = false).
Proof.
  intros Hr.
  destruct (detect_overhangs_fields t mesh r Hr)
    as (Ho & Hs & _ & _ & _ & Hhas & Hneeds & Htree & Hcx).
  split; [|split].
  - rewrite Hneeds, Hhas, !gtb_true. lra.
  - intros Ht. rewrite Htree, Hhas.
    rewrite !orb_true_iff, andb_true_iff, !gtb_true.
    assert (Hle : severe_overhang_percentage r <= overhang_percentage r).
    { rewrite Hs, Ho. apply percentage_mono.
      destruct (Rle_lt_or_eq_dec _ _ Ht) as [Hlt| ->];
        [now apply count_above_antitone|lia]. }
    lra.
  - rewrite Hcx.
    destruct (recommend_tree_support r), (needs_supports r); split;
      try discriminate; try tauto; intros [? ?]; discriminate.
Qed.

Lemma support_flags_nested_witness :
  exists r, _detect_overhangs default_overhang_threshold up_square = Some r
    /\ has_overhangs r = true.
Proof.
  destruct (all_up_counted up_square) as (r & Hr & _ & Hn);
    [discriminate|repeat constructor|].
  exists r. split; [exact Hr|].
  exact (proj1 (support_flags_nested default_overhang_threshold up_square r Hr)
           Hn).
Defined.

(** Above 60 degrees the second implication is lost: at a threshold of 180
    the upward square has no overhang, yet tree supports are recommended. *)
Example tree_recommended_without_overhangs :
  exists r, _detect_overhangs 180 up_square = Some r
    /\ recommend_tree_support r = true /\ has_overhangs r = false.
Proof.
  destruct (detect_overhangs_returns 180 up_square) as (r & Hr & _);
    [discriminate|].
  exists r. split; [exact Hr|].
  destruct (detect_overhangs_fields 180 up_square r Hr)
    as (Ho & Hs & _ & _ & _ & Hhas & _ & Htree & _).
  assert (Ha : angles_deg up_square = [180; 180]).
  { unfold up_square. rewrite angles_all_up by repeat constructor. reflexivity. }
  rewrite Ha in Ho, Hs.
  assert (E60 : count_above 60 [180; 180] = 2%nat)
    by (apply (count_above_const 60 180 [tt; tt]); lra).
  assert (E180 : count_above 180 [180; 180] = 0%nat)
    by (apply count_above_none; repeat constructor; lra).
  rewrite E60 in Hs. rewrite E180 in Ho.
  assert (Hs' : severe_overhang_percentage r = 100)
    by (rewrite Hs; apply (percentage_all 2); lia).
  assert (Ho' : overhang_percentage r = 0)
    by (rewrite Ho; apply percentage_none).
  split.
  - rewrite Htree, Hs'.
    assert (E : gtb 100 5 = true) by (apply gtb_true; lra).
    now rewrite E.
  - rewrite Hhas, Ho'. apply gtb_false. lra.
Qed.

End OverhangFlags.

(** * Properties of the orientation hint *)

Section OrientationFacts.

Import Placement Orientation.

Local Open Scope Q_scope.

Lemma stable_argsort_is_argsort : is_argsort stable_argsort.
Proof.
  intros [[a b] c]. unfold stable_argsort.
  destruct (Qle_bool a b) eqn:Eab, (Qle_bool b c) eqn:Ebc,
    (Qle_bool a c) eqn:Eac;
    (split; [cbn [In]; tauto|]); cbn [dim vx vy vz fst snd];
    rewrite ?Qle_bool_iff in *;
    repeat match goal with
           | E : Qle_bool _ _ = false |- _ =>
             apply not_true_iff_false in E; rewrite Qle_bool_iff in E;
             apply Qnot_le_lt in E
           end;
    split; lra.
Qed.

(** X23: the orientation hint.  For a mesh with vertices, whichever way
    [argsort] breaks ties, the suggested up axis is an axis of greatest
    extent and the suggested base axis one of least extent, the two are
    different axes, and the model is reported as optimally positioned
    exactly when the suggested up axis is Z: in that case no extent exceeds
    the height, and it is always the case when the height exceeds both
    other extents. *)
Theorem orientation_hint_sound
    (argsort : Q * Q * Q -> nat * nat * nat) (mesh : Trimesh)
    (dims : Q * Q * Q) :
  is_argsort argsort ->
  extents mesh = Some dims ->
  exists o, _suggest_orientation argsort mesh = Some o
    /\ (suggested_up_axis o < 3)%nat /\ (suggested_base_axis o < 3)%nat
    /\ suggested_up_axis o <> suggested_base_axis o
    /\ (forall i, dim dims (suggested_base_axis o) <= dim dims i
                  /\ dim dims i <= dim dims (suggested_up_axis o))
    /\ (optimal_rotation o = "model_positioned_optimally"
        <-> suggested_up_axis o = 2%nat)
    /\ (optimal_rotation o = "model_positioned_optimally" ->
        vx dims <= vz dims /\ vy dims <= vz dims)
    /\ (vx dims < vz dims -> vy dims < vz dims ->
        optimal_rotation o = "model_positioned_optimally").
Proof.
  intros Hsort Hdims. unfold _suggest_orientation. rewrite Hdims.
  destruct (Hsort dims) as [Hperm Hord].
  destruct (argsort dims) as [[i0 i1] i2]. destruct Hord as [H01 H12].
  eexists. split; [reflexivity|]. cbn [suggested_up_axis suggested_base_axis
    optimal_rotation].
  assert (Hall : forall i, dim dims i = vx dims \/ dim dims i = vy dims
                           \/ dim dims i = vz dims).
  { intros [|[|i]]; simpl; auto. }
  cbn [In] in Hperm.
  destruct Hperm as [E|[E|[E|[E|[E|[E|[]]]]]]]; injection E as <- <- <-;
    cbn [dim Nat.eqb] in *;
    (split; [lia|]); (split; [lia|]); (split; [lia|]);
    (split; [intros i; destruct (Hall i) as [->|[->| ->]]; split; lra|]);
    (split; [split; [try discriminate; reflexivity|try lia; reflexivity]|]);
    (split; [try discriminate; intros _; split; lra|]);
    intros Hx Hy; try reflexivity; lra.
Qed.

Lemma orientation_hint_sound_witness :
  exists o, _suggest_orientation stable_argsort slab300 = Some o
    /\ suggested_up_axis o <> suggested_base_axis o
    /\ (optimal_rotation o = "model_positioned_optimally"
        <-> suggested_up_axis o = 2%nat).
Proof.
  destruct (orientation_hint_sound stable_argsort slab300
              (300 - 0, 300 - 0, 10 - 0) stable_argsort_is_argsort)
    as (o & Ho & _ & _ & Hne & _ & Hopt & _).
  { vm_compute. reflexivity. }
  exists o. split; [exact Ho|]. split; [exact Hne|exact Hopt].
Defined.

End OrientationFacts.

(** * Properties of the archive contents *)

Section ArchiveMore.

Import Py Packaging PackagingLogic ArchiveLogic.

Local Open Scope py_scope.

Lemma NoDup_add_once (name : string) (files : list string) :
  NoDup files -> NoDup (add_once name files).
Proof.
  intros Hnd. unfold add_once. case_bool_decide as Hin; [exact Hnd|].
  apply NoDup_app. split; [exact Hnd|]. split.
  - intros x Hx Hx'. apply list_elem_of_singleton in Hx'. now subst.
  - apply NoDup_singleton.
Qed.

Lemma preserves_within_write_part e st d d' name allowed :
  name ∈ allowed ->
  preserves (parts_within d allowed) (write_part e st d' name).
Proof.
  intros Hname w w' r HP. unfold write_part.
  destruct (temp_dirs w !! d') as [files|] eqn:Ed;
    [destruct (can_write e _)|]; intros [= <- <-]; try exact HP.
  destruct HP as (fs & Hfs & Hnd & Hall). destruct (decide (d = d')) as [->|Hne].
  - rewrite Ed in Hfs. injection Hfs as <-.
    exists (add_once name files). simpl. split; [apply lookup_insert_eq|].
    split; [now apply NoDup_add_once|].
    unfold add_once. case_bool_decide; [exact Hall|].
    apply Forall_app. split; [exact Hall|]. now constructor.
  - exists fs. simpl. split; [|now split].
    rewrite lookup_insert_ne by congruence. exact Hfs.
Qed.

Lemma preserves_within_save_thumbnails e d d' names allowed :
  Forall (fun n => n ∈ allowed) names ->
  preserves (parts_within d allowed) (save_thumbnails e d' names).
Proof.
  induction 1 as [|name rest Hname _ IH]; simpl.
  - apply preserves_ret.
  - apply preserves_try_except.
    + apply preserves_bind;
        [now apply preserves_within_write_part|intros _; exact IH].
    + intros _. apply preserves_ret.
Qed.

Lemma post_within_makedirs_temp e st d allowed :
  post (fun w => temp_dirs w !! d = None) (makedirs_temp e st d)
       (fun _ => parts_within d allowed).
Proof.
  intros w w' a Hnone. unfold makedirs_temp.
  destruct (can_mkdir e d); [|discriminate]. intros [= <-].
  exists []. simpl. rewrite Hnone. simpl.
  split; [apply lookup_insert_eq|]. split; constructor.
Qed.

Lemma NoDup_walk (files : list string) : NoDup files -> NoDup (walk files).
Proof.
  intros Hnd. unfold walk. apply NoDup_app. split; [|split].
  - now apply NoDup_ListNoDup, List.NoDup_filter, NoDup_ListNoDup.
  - intros x Hx Hx'. apply list_elem_of_In, List.filter_In in Hx as [_ Hx].
    apply list_elem_of_In, List.filter_In in Hx' as [_ Hx'].
    rewrite Hx in Hx'. discriminate.
  - now apply NoDup_ListNoDup, List.NoDup_filter, NoDup_ListNoDup.
Qed.

Lemma walk_within (files allowed : list string) :
  Forall (fun n => n ∈ allowed) files ->
  Forall (fun n => n ∈ allowed) (walk files).
Proof.
  intros Hall. unfold walk. rewrite List.Forall_forall in Hall.
  apply List.Forall_forall. intros x Hx.
  apply in_app_or in Hx as [Hx|Hx]; apply List.filter_In in Hx as [Hx _];
    now apply Hall.
Qed.

Lemma post_within_write_archive e out d allowed :
  post (parts_within d allowed) (write_archive e out d)
       (fun _ w' => exists entries, archives w' !! out = Some entries
                      /\ NoDup entries
                      /\ Forall (fun n => n ∈ allowed) entries).
Proof.
  intros w w' [] (fs & Hfs & Hnd & Hall) Hrun.
  destruct (write_archive_ok _ _ _ _ _ Hrun) as (_ & _ & Ha & _).
  rewrite Hfs in Ha. simpl in Ha. eexists. split; [exact Ha|].
  split; [now apply NoDup_walk|now apply walk_within].
Qed.

Section WithContainerRepr.

Context `{ContainerRepr}.

(** A part of the variant is among the allowed ones. *)
Ltac part_allowed Hall E :=
  apply (proj1 (List.Forall_forall _ _) Hall);
  unfold allowed_parts, required_parts; rewrite E;
  cbn [app In]; repeat (first [left; reflexivity|right]).

Ltac keep_within Hall E :=
  repeat first
    [ apply preserves_ret
    | apply preserves_raise
    | apply preserves_lift
    | apply preserves_makedirs_sub
    | apply preserves_within_write_part; part_allowed Hall E
    | apply preserves_bind; [|intros ?] ].

(** Started without a working directory, the assembly puts into the
    archive only parts of the variant, none of them twice. *)
Lemma post_within_assemble_3mf e out d model_path profile analysis material
    slicer_type plate (allowed : list string) :
  Forall (fun n => n ∈ allowed) (allowed_parts slicer_type) ->
  post (fun w => temp_dirs w !! d = None)
       (assemble_3mf e out d model_path profile analysis material slicer_type
          plate)
       (fun _ w' => exists entries, archives w' !! out = Some entries
                      /\ NoDup entries
                      /\ Forall (fun n => n ∈ allowed) entries).
Proof.
  intros Hall. unfold assemble_3mf.
  eapply post_bind; [apply (post_within_makedirs_temp e _ d allowed)|intros ?].
  eapply post_bind.
  { apply preserves_post. destruct (load e model_path);
      [apply preserves_ret|apply preserves_raise]. }
  intros mesh.
  eapply post_bind; [apply preserves_post, preserves_makedirs_sub|intros ?].
  eapply post_bind; [apply preserves_post, preserves_lift|intros ?].
  destruct (String.eqb slicer_type "elegoo_orca") eqn:E.
  - eapply post_bind; [apply preserves_post; keep_within Hall E|intros ?].
    do 4 (eapply post_bind; [apply preserves_post; keep_within Hall E|intros ?]).
    eapply post_bind.
    { apply preserves_post. unfold elegoo_metadata. keep_within Hall E.
      unfold _create_dummy_thumbnails.
      destruct (pil_available e); [|apply preserves_ret].
      apply preserves_within_save_thumbnails.
      repeat (constructor; [part_allowed Hall E|]). constructor. }
    intros ?.
    eapply post_bind; [apply post_within_write_archive|intros ?].
    apply post_ret. auto.
  - eapply post_bind; [apply preserves_post; keep_within Hall E|intros ?].
    do 4 (eapply post_bind; [apply preserves_post; keep_within Hall E|intros ?]).
    eapply post_bind.
    { apply preserves_post. unfold orca_metadata. keep_within Hall E. }
    intros ?.
    eapply post_bind; [apply post_within_write_archive|intros ?].
    apply post_ret. auto.
Qed.

(** X24: the archive holds nothing else.  When no working directory of
    that name is left over from an earlier run, the archive that
    [_generate_3mf_with_settings] returns holds every part its variant
    needs, no entry twice, and no entry besides these parts and, for the
    Elegoo variant, the thumbnails. *)
Theorem archive_exact
    (e : env) (model_path : string) (profile : value)
    (analysis : gmap string value)
    (base_filename material slicer_type : string) (build_plate_size : Q)
    (w w' : world) (p : string) :
  temp_dirs w !! path_join output_dir ("temp_" ++ base_filename) = None ->
  _generate_3mf_with_settings e model_path profile analysis base_filename
    material slicer_type build_plate_size w = (w', inr p) ->
  exists entries,
    archives w' !! p = Some entries
    /\ NoDup entries
    /\ (forall n, n ∈ required_parts slicer_type -> n ∈ entries)
    /\ (forall n, n ∈ entries ->
          n ∈ required_parts slicer_type
          \/ (slicer_type = "elegoo_orca" /\ n ∈ thumbnail_parts)).
Proof.
  intros Hnone Hrun.
  destruct (post_generate_3mf _ _ _ _ _ _ _ _ _ _ _ I Hrun)
    as (Hp & entries & He & Hreq).
  exists entries. split; [exact He|].
  revert Hrun. unfold _generate_3mf_with_settings, try_finally.
  destruct (assemble_3mf _ _ _ _ _ _ _ _ _ w) as [w1 r1] eqn:Ebody.
  destruct (cleanup _ _ w1) as [w2 r2] eqn:Efin.
  destruct (cleanup_spec _ _ _ _ _ Efin) as (-> & Ha2 & _).
  intros [= <- ->].
  assert (Hself : Forall (fun n => n ∈ allowed_parts slicer_type)
                    (allowed_parts slicer_type)).
  { apply List.Forall_forall. intros n Hn. now apply list_elem_of_In. }
  destruct (post_within_assemble_3mf _ _ _ _ _ _ _ _ _
              (allowed_parts slicer_type) Hself _ _ _ Hnone Ebody)
    as (entries' & He' & Hnd & Hwithin).
  rewrite Ha2, Hp, He' in He. injection He as ->.
  split; [exact Hnd|]. split.
  - intros n Hn. rewrite List.Forall_forall in Hreq.
    apply Hreq, list_elem_of_In, Hn.
  - intros n Hn. rewrite List.Forall_forall in Hwithin.
    apply list_elem_of_In, Hwithin in Hn. unfold allowed_parts in Hn.
    destruct (String.eqb slicer_type "elegoo_orca") eqn:E; [|now left].
    apply elem_of_app in Hn as [Hn|Hn]; [now left|right].
    split; [now apply String.eqb_eq|exact Hn].
Qed.

End WithContainerRepr.

Lemma archive_exact_witness :
  exists w' entries,
    _generate_3mf_with_settings (H := Settings.no_containers) fine_env
      "benchy.stl" (VDict (GeminiAgent.fallback_profile ∅)) sample_analysis
      "benchy_20240101_120000" "PLA" "orca" 220 empty_world
    = (w', inr "generated_profiles/benchy_20240101_120000.3mf")
    /\ archives w' !! "generated_profiles/benchy_20240101_120000.3mf"
       = Some entries
    /\ NoDup entries
    /\ (forall n, n ∈ entries -> n ∈ required_parts "orca").
Proof.
  set (w1 := {| temp_dirs := ∅;
                archives :=
                  {[ "generated_profiles/benchy_20240101_120000.3mf" :=
                       [ "[Content_Types].xml"; "3D/3dmodel.model";
                         "_rels/.rels"; "Metadata/Slic3r_PE.json";
                         "Metadata/Slic3r_PE_model.json";
                         "Metadata/model_settings.json" ] ]};
                documents := ∅ |}).
  assert (Hrun :
    _generate_3mf_with_settings (H := Settings.no_containers) fine_env
      "benchy.stl" (VDict (GeminiAgent.fallback_profile ∅)) sample_analysis
      "benchy_20240101_120000" "PLA" "orca" 220 empty_world
    = (w1, inr "generated_profiles/benchy_20240101_120000.3mf"))
    by reflexivity.
  destruct (archive_exact (H := Settings.no_containers) fine_env "benchy.stl"
              (VDict (GeminiAgent.fallback_profile ∅)) sample_analysis
              "benchy_20240101_120000" "PLA" "orca" 220 empty_world w1
              "generated_profiles/benchy_20240101_120000.3mf" eq_refl Hrun)
    as (entries & He & Hnd & _ & Hin).
  exists w1, entries. split; [exact Hrun|]. split; [exact He|].
  split; [exact Hnd|]. intros n Hn.
  destruct (Hin n Hn) as [Hr|[Hs _]]; [exact Hr|discriminate Hs].
Defined.

(** What is left over in the working directory does end up in the
    archive. *)
Example stale_file_archived :
  exists w' entries,
    _generate_3mf_with_settings (H := Settings.no_containers) fine_env
      "benchy.stl" (VDict (GeminiAgent.fallback_profile ∅)) sample_analysis
      "benchy_20240101_120000" "PLA" "orca" 220 stale_world
    = (w', inr "generated_profiles/benchy_20240101_120000.3mf")
    /\ archives w' !! "generated_profiles/benchy_20240101_120000.3mf"
       = Some entries
    /\ "notes.txt" ∈ entries.
Proof.
  exists {| temp_dirs := ∅;
            archives :=
              {[ "generated_profiles/benchy_20240101_120000.3mf" :=
                   [ "notes.txt"; "[Content_Types].xml"; "3D/3dmodel.model";
                     "_rels/.rels"; "Metadata/Slic3r_PE.json";
                     "Metadata/Slic3r_PE_model.json";
                     "Metadata/model_settings.json" ] ]};
            documents := ∅ |}.
  eexists. split; [reflexivity|]. split; [reflexivity|]. constructor.
Qed.

End ArchiveMore.
